(** * auth9 QA race-test scripts: a shallow embedding and its properties

    The repository's QA scripts fire a burst of concurrent requests at one
    contended resource (a tenant slug, a password-reset token, a token
    exchange), count the outcomes and print a judgment.  This development
    embeds the invokers, the outcome counting and the judgments of

      - race_test_tenant.py
      - scripts/qa/race_test.py
      - scripts/qa/race_test_simple.py
      - scripts/qa/tenant_race_test.py
      - scripts/qa/precise_race_test.py
      - scripts/qa/full_race_test.py
      - scripts/qa/grpc_race_test.py

    Python integers are [Z], strings are [string], wall-clock seconds are
    [Q].  What the network, the target system and a child process do is not
    code of the scripts: it is an input of the model (a reply per request),
    and the theorems quantify over it. *)

From Stdlib Require Import ZArith List String Ascii Bool Lia QArith Permutation.
From Stdlib Require Import DecimalString.
Import ListNotations.

Set Warnings "-register-all".

Open Scope Z_scope.

(* ================================================================== *)
(** * The Python runtime and the client libraries the scripts call     *)
(* ================================================================== *)

Module Py.

(** Exceptions a script can meet.  Each is a subclass of [Exception], so
    an [except Exception] clause catches every one of them. *)
Inductive exn : Type :=
| ConnectionError (msg : string)   (* connection refused *)
| TransportError (msg : string)    (* any other transport-level failure *)
| Timeout (msg : string)           (* requests.Timeout, asyncio.TimeoutError *)
| JSONDecodeError (msg : string)   (* body or stdout is not JSON *)
| TypeError (msg : string)
| AttributeError (msg : string)
| KeyError (msg : string)
| TimeoutExpired (msg : string)    (* subprocess.TimeoutExpired *)
| OSError (msg : string)           (* the child process cannot be started *)
| AssertionError (msg : string)
| ContentTypeError (msg : string). (* aiohttp: the response is not of a JSON type *)

(** [str(e)] *)
Definition str (e : exn) : string :=
  match e with
  | ConnectionError m | TransportError m | Timeout m | JSONDecodeError m
  | TypeError m | AttributeError m | KeyError m | TimeoutExpired m | OSError m
  | AssertionError m | ContentTypeError m => m
  end.

(** How a call ends: it returns, it raises, or it never comes back. *)
Inductive result (A : Type) : Type :=
| Ret (a : A)
| Raise (e : exn)
| Blocked.
Arguments Ret {A} a.
Arguments Raise {A} e.
Arguments Blocked {A}.

Definition bind {A B : Type} (c : result A) (k : A -> result B) : result B :=
  match c with
  | Ret a => k a
  | Raise e => Raise e
  | Blocked => Blocked
  end.

(** [try: c  except Exception as e: h e] *)
Definition try_except {A : Type} (c : result A) (h : exn -> result A) : result A :=
  match c with
  | Raise e => h e
  | _ => c
  end.

Definition returns {A : Type} (c : result A) : bool :=
  match c with Ret _ => true | _ => false end.

Definition raises {A : Type} (c : result A) : bool :=
  match c with Raise _ => true | _ => false end.

(** [await asyncio.gather( *tasks )]: the results in task order; an exception
    of a task is propagated to the awaiting caller.  The loop
    [for future in as_completed(futures): results.append(future.result())]
    of the thread-pool scripts collects the same results in the order of
    completion; the scripts only count them, and a count does not depend on
    the order. *)
Fixpoint gather {A : Type} (tasks : list (result A)) : result (list A) :=
  match tasks with
  | [] => Ret []
  | t :: ts =>
      match t, gather ts with
      | Raise e, _ => Raise e
      | _, Raise e => Raise e
      | Ret a, Ret l => Ret (a :: l)
      | _, _ => Blocked
      end
  end.

(** [sum(1 for x in xs if p x)] *)
Fixpoint sum1 {A : Type} (p : A -> bool) (xs : list A) : Z :=
  match xs with
  | [] => 0
  | x :: xs' => if p x then 1 + sum1 p xs' else sum1 p xs'
  end.

(** [len(xs)] *)
Definition len {A : Type} (xs : list A) : Z := Z.of_nat (List.length xs).

(** [range(n)] *)
Definition range (n : nat) : list Z := map Z.of_nat (seq 0 n).

(** [needle in hay] on strings *)
Definition contains (needle hay : string) : bool :=
  match index 0 needle hay with Some _ => true | None => false end.

(** [s[:n]] *)
Definition prefix (n : nat) (s : string) : string := substring 0 n s.

(** [f"{n}"] for an integer *)
Definition show (n : Z) : string := NilZero.string_of_int (Z.to_int n).

(** ** JSON values, as [json.loads] and [resp.json()] build them.
    Numbers are the integers the scripts read (counts). *)
Inductive json : Type :=
| JNull
| JBool (b : bool)
| JNum (n : Z)
| JStr (s : string)
| JArr (items : list json)
| JObj (fields : list (string * json)).

(** Lookup in the [dict] built from a JSON object: of two fields with one
    key the later one is kept. *)
Fixpoint dict_lookup (k : string) (fields : list (string * json)) : option json :=
  match fields with
  | [] => None
  | (k', v) :: rest =>
      match dict_lookup k rest with
      | Some v' => Some v'
      | None => if String.eqb k k' then Some v else None
      end
  end.

(** [d.get(k, default)]; only a [dict] has [get]. *)
Definition get (d : json) (k : string) (default : json) : result json :=
  match d with
  | JObj fields =>
      Ret (match dict_lookup k fields with Some v => v | None => default end)
  | _ => Raise (AttributeError "object has no attribute 'get'")
  end.

(** The integer a value compares as ([bool] is a subclass of [int]). *)
Definition as_int (v : json) : option Z :=
  match v with
  | JNum n => Some n
  | JBool b => Some (if b then 1 else 0)
  | _ => None
  end.

(** [v > k] *)
Definition gt (v : json) (k : Z) : result bool :=
  match as_int v with
  | Some n => Ret (k <? n)
  | None => Raise (TypeError "'>' not supported")
  end.

(** [v == k] never raises. *)
Definition eq_int (v : json) (k : Z) : bool :=
  match as_int v with
  | Some n => n =? k
  | None => false
  end.

(** [json.loads(body)] and [response.json()] of [requests] over a decoder
    [json_loads]: a body that does not decode raises. *)
Definition decode (json_loads : string -> option json) (body : string)
  : result json :=
  match json_loads body with
  | Some v => Ret v
  | None => Raise (JSONDecodeError "Expecting value")
  end.

(** [body.strip()] on the bytes of a body: the ASCII white space at both
    ends goes. *)
Definition is_space (c : ascii) : bool :=
  let n := nat_of_ascii c in
  (n =? 32)%nat || ((9 <=? n)%nat && (n <=? 13)%nat).

Fixpoint lstrip (s : string) : string :=
  match s with
  | EmptyString => EmptyString
  | String c s' => if is_space c then lstrip s' else s
  end.

Fixpoint rstrip (s : string) : string :=
  match s with
  | EmptyString => EmptyString
  | String c s' =>
      match rstrip s' with
      | EmptyString => if is_space c then EmptyString else String c EmptyString
      | kept => String c kept
      end
  end.

Definition strip (s : string) : string := rstrip (lstrip s).

(** ** What the network does with one HTTP request.  The text of an
    exception of the client library is not the scripts' to choose: where a
    script can return it, the reply carries it. *)
Inductive http_reply : Type :=
| Answer (status : Z) (text : string)
    (* a response arrives; its Content-Type is a JSON type *)
| Mistyped (status : Z) (text : string) (msg : string)
    (* a response arrives whose Content-Type is not a JSON type; [msg] is
       the text of the error with which aiohttp refuses to read it as JSON *)
| Refused (msg : string)               (* connection refused *)
| Broken (msg : string)                (* another transport-level failure *)
| Hang (msg : string).
    (* no answer within any deadline; [msg] is the text of the exception
       with which a client that has a deadline gives up *)

(** A [requests.Response]. *)
Record Response : Type := { status_code : Z; text : string }.

(** No response arrived. *)
Definition failure_of (w : http_reply) : bool :=
  match w with Answer _ _ | Mistyped _ _ _ => false | _ => true end.

(** [requests.post(..., timeout=t)] and [requests.get]: without a timeout
    the library waits for ever. *)
Definition requests_send (timeout : option Q) (w : http_reply) : result Response :=
  match w with
  | Answer s t | Mistyped s t _ => Ret {| status_code := s; text := t |}
  | Refused m => Raise (ConnectionError m)
  | Broken m => Raise (TransportError m)
  | Hang m =>
      match timeout with
      | Some _ => Raise (Timeout m)
      | None => Blocked
      end
  end.

(** An [aiohttp.ClientSession]: the deadline of its requests is a property
    of the session. *)
Record ClientSession : Type := { total_timeout : option Q }.

(** [aiohttp.ClientSession()], as every script builds it: no timeout
    argument, hence the library's default of five minutes in total. *)
Definition default_session : ClientSession := {| total_timeout := Some 300%Q |}.

(** An [aiohttp.ClientResponse]: its status, its body, and what stands
    against reading the body as JSON ([None] when the Content-Type is a JSON
    type). *)
Record ClientResponse : Type :=
  { status : Z; body : string; content_error : option string }.

(** [session.post(...)] / [session.get(...)] entered with [async with]. *)
Definition session_send (session : ClientSession) (w : http_reply)
  : result ClientResponse :=
  match w with
  | Answer s t => Ret {| status := s; body := t; content_error := None |}
  | Mistyped s t m => Ret {| status := s; body := t; content_error := Some m |}
  | Refused m => Raise (ConnectionError m)
  | Broken m => Raise (TransportError m)
  | Hang m =>
      match total_timeout session with
      | Some _ => Raise (Timeout m)
      | None => Blocked
      end
  end.

(** What [resp.json()] of aiohttp makes of a body whose Content-Type it
    accepts: the body is stripped; a blank body gives [None] without the
    decoder being asked; anything else goes to the decoder.  [None] here is
    a body that the decoder rejects. *)
Definition read_json (json_loads : string -> option json) (body : string)
  : option json :=
  let stripped := strip body in
  if String.eqb stripped "" then Some JNull else json_loads stripped.

(** [await resp.json()] of aiohttp: the Content-Type is checked first, then
    the body is read as above.  [json_error] is the message of the decoder
    for a document that it rejects. *)
Definition resp_json (json_loads : string -> option json)
    (json_error : string -> string) (resp : ClientResponse) : result json :=
  match content_error resp with
  | Some msg => Raise (ContentTypeError msg)
  | None =>
      match read_json json_loads (body resp) with
      | Some v => Ret v
      | None => Raise (JSONDecodeError (json_error (strip (body resp))))
      end
  end.

(** ** What a child process does. *)
Inductive proc_reply : Type :=
| Exited (returncode : Z) (stdout stderr : string) (elapsed : Q)
| SpawnFailure (msg : string)
| NeverExits.

Record CompletedProcess : Type :=
  { returncode : Z; stdout : string; stderr : string }.

(** [subprocess.run(cmd, capture_output=True, text=True, timeout=t)],
    paired with the seconds measured around it by [time.time()]. *)
Definition subprocess_run (timeout : option Q) (w : proc_reply)
  : result (CompletedProcess * Q) :=
  match w with
  | Exited rc out err dt =>
      Ret ({| returncode := rc; stdout := out; stderr := err |}, dt)
  | SpawnFailure m => Raise (OSError m)
  | NeverExits =>
      match timeout with
      | Some _ => Raise (TimeoutExpired "timed out")
      | None => Blocked
      end
  end.

End Py.

Import Py.

Declare Scope py_scope.
Notation "x <- c ;; k" := (bind c (fun x => k))
  (at level 61, c at next level, right associativity) : py_scope.
Notation "' p <- c ;; k" := (bind c (fun p => k))
  (at level 61, p pattern, c at next level, right associativity) : py_scope.
Open Scope py_scope.

(** The JSON body of a tenant-creation request. *)
Record TenantData : Type := { data_name : string; data_slug : string }.

(** How the interpreter leaves a script whose body ended as [c] and whose
    last statement is [exit(0 if ok else 1)]: an uncaught exception prints
    a traceback and gives status 1; a blocked body never exits. *)
Definition exit_status {A : Type} (ok : A -> bool) (c : result A) : option Z :=
  match c with
  | Ret a => Some (if ok a then 0 else 1)
  | Raise _ => Some 1
  | Blocked => None
  end.

(* ================================================================== *)
(** * scripts/qa/race_test.py                                          *)
(* ================================================================== *)

Module RaceTest.

Definition RESET_TOKEN : string :=
  "ed77f54774aa64b90a52106539eb79cd8244083d09add93fee58aba2da2f8bd1".

(** [async def reset(session, i)]: no [try], no timeout argument. *)
Definition reset (session : ClientSession) (i : Z) (w : http_reply) : result Z :=
  resp <- session_send session w ;;
  Ret (status resp).

(** [results.count(200)] *)
Definition count (x : Z) (results : list Z) : Z := sum1 (Z.eqb x) results.

(** The tail of [main], from [success = results.count(200)]: the printed
    pair [(Success, Failed)], then the [assert]. *)
Definition judge (results : list Z) : result (Z * Z) :=
  let success := count 200 results in
  let printed := (success, len results - success) in
  if success <=? 1 then Ret printed
  else Raise (AssertionError
                ("RACE CONDITION: " ++ show success ++ " successful resets!")).

(** [async def main()]: fifty tasks on one fresh session, gathered. *)
Definition main (world : Z -> http_reply) : result (Z * Z) :=
  let session := default_session in
  results <- gather (map (fun i => reset session i (world i)) (range 50)) ;;
  judge results.

(** [asyncio.run(main())] *)
Definition script (world : Z -> http_reply) : option Z :=
  exit_status (fun _ => true) (main world).

End RaceTest.

(* ================================================================== *)
(** * scripts/qa/race_test_simple.py                                   *)
(* ================================================================== *)

Module RaceTestSimple.

(** [def reset_password(i)] *)
Definition reset_password (i : Z) (w : http_reply) : result (Z * string) :=
  try_except
    (response <- requests_send (Some 5%Q) w ;;
     Ret (status_code response, text response))
    (fun e => Ret (0, str e)).

(** The judgment line [main] prints. *)
Inductive verdict : Type :=
| RACE_CONDITION_DETECTED (success_count : Z)  (* "RACE CONDITION DETECTED: {n} successful resets!" *)
| PASS_only_1_successful_reset                 (* "PASS: Only 1 successful reset (expected)" *)
| FAIL_no_successful_resets.                   (* "FAIL: No successful resets" *)

Record counts : Type :=
  { success_count : Z; error_count : Z; other_count : Z }.

(** The three counters of the analysis part of [main]. *)
Definition tally (results : list (Z * string)) : counts :=
  let success_count := sum1 (fun r => fst r =? 200) results in
  let error_count := sum1 (fun r => (fst r =? 400) || (fst r =? 404)) results in
  {| success_count := success_count;
     error_count := error_count;
     other_count := len results - success_count - error_count |}.

(** The race check of [main]. *)
Definition check (results : list (Z * string)) : verdict :=
  let c := tally results in
  if 1 <? success_count c then RACE_CONDITION_DETECTED (success_count c)
  else if success_count c =? 1 then PASS_only_1_successful_reset
  else FAIL_no_successful_resets.

(** [def main()]: fifty submissions to the pool; it prints and returns
    nothing. *)
Definition main (world : Z -> http_reply) : result (counts * verdict) :=
  results <- gather (map (fun i => reset_password i (world i)) (range 50)) ;;
  Ret (tally results, check results).

End RaceTestSimple.

(* ================================================================== *)
(** * scripts/qa/tenant_race_test.py                                   *)
(* ================================================================== *)

Module TenantRaceTest.

Definition create_tenant_data (suffix : Z) : TenantData :=
  {| data_name := "Race Tenant " ++ show suffix;
     data_slug := "race-test-slug" |}.

(** [def create_tenant(token, suffix)] *)
Definition create_tenant (token : string) (suffix : Z) (w : http_reply)
  : result (Z * string) :=
  try_except
    (response <- requests_send (Some 10%Q) w ;;
     Ret (status_code response, text response))
    (fun e => Ret (0, str e)).

(** A tenant as the search endpoint lists it. *)
Record tenant : Type := { tenant_id : string; tenant_name : string }.

(** The requests of the clean-up, in order. *)
Inductive action : Type :=
| GET_search (slug : string)
| DELETE_tenant (id : string).

Inductive verdict : Type :=
| RACE_CONDITION_DETECTED (success_count : Z)  (* "RACE CONDITION DETECTED: {n} successful creations!" *)
| PASS_1_success_19_conflicts                  (* "PASS: Only 1 successful creation, 19 conflicts (expected)" *)
| UNEXPECTED (success_count conflict_count : Z).

Section WithDecoder.

(** [response.json().get("data", [])] with the [id] and [name] of the
    entries, as a function of the body text; it may raise. *)
Variable data_of : string -> result (list tenant).

(** Lines 39-54: look for a tenant that already has the slug and delete the
    first one found.  The status of the DELETE is printed, not tested. *)
Definition clean_up_existing (check del : http_reply) : result (list action) :=
  check_response <- requests_send None check ;;
  if status_code check_response =? 200 then
    existing <- data_of (text check_response) ;;
    match existing with
    | first :: _ =>
        delete_response <- requests_send None del ;;
        Ret [GET_search "race-test-slug"; DELETE_tenant (tenant_id first)]
    | [] => Ret [GET_search "race-test-slug"]
    end
  else Ret [GET_search "race-test-slug"].

(** Lines 85-92: the second search, printed only. *)
Definition verify_database (verify : http_reply) : result unit :=
  verify_response <- requests_send None verify ;;
  if status_code verify_response =? 200 then
    tenants <- data_of (text verify_response) ;;
    Ret tt
  else Ret tt.

(** Lines 71-73 and 94-103: the counters and the race check. *)
Definition race_check (results : list (Z * string)) : verdict * bool :=
  let success_count := sum1 (fun r => fst r =? 201) results in
  let conflict_count := sum1 (fun r => fst r =? 409) results in
  let other_count := len results - success_count - conflict_count in
  if 1 <? success_count then (RACE_CONDITION_DETECTED success_count, false)
  else if (success_count =? 1) && (conflict_count =? 19)
       then (PASS_1_success_19_conflicts, true)
       else (UNEXPECTED success_count conflict_count, false).

(** [def test_tenant_slug_race()] *)
Definition test_tenant_slug_race (token : string)
    (check del : http_reply) (world : Z -> http_reply) (verify : http_reply)
  : result (verdict * bool) :=
  _ <- clean_up_existing check del ;;
  results <- gather (map (fun i => create_tenant token i (world i)) (range 20)) ;;
  _ <- verify_database verify ;;
  Ret (race_check results).

(** [success = test_tenant_slug_race(); exit(0 if success else 1)] *)
Definition script (token : string)
    (check del : http_reply) (world : Z -> http_reply) (verify : http_reply)
  : option Z :=
  exit_status snd (test_tenant_slug_race token check del world verify).

End WithDecoder.

End TenantRaceTest.

(* ================================================================== *)
(** * race_test_tenant.py                                              *)
(* ================================================================== *)

Module RaceTestTenant.

(** The [dict] an invocation returns.  The key ['response'] is present on
    the normal path only, ['error'] on the exceptional path only; the
    ['latency'] float, used for display alone, is left out. *)
Record Outcome : Type :=
  { request_id : Z;
    status : Z;
    success : bool;
    response : option json;
    error : option string }.

(** The assessment [main] prints last. *)
Inductive assessment : Type :=
| RACE_VULNERABILITY (success_count : Z) (final_count : json)  (* cross mark: race-condition vulnerability detected *)
| SAFE                                                         (* check mark: safe, only one tenant was created *)
| ALL_CONFLICT                                                 (* warning sign: note, every request returned 409 *)
| ABNORMAL (success_count : Z) (final_count : json).           (* warning sign: abnormal situation: success=, final= *)

(** The mark a line of the assessment starts with. *)
Inductive mark : Type := CrossMark | CheckMark | WarningSign.

Definition mark_of (a : assessment) : mark :=
  match a with
  | RACE_VULNERABILITY _ _ => CrossMark
  | SAFE => CheckMark
  | ALL_CONFLICT | ABNORMAL _ _ => WarningSign
  end.

Record report : Type :=
  { test_slug : string;            (* the slug [main] announces *)
    posted : list TenantData;      (* the bodies of the burst *)
    total : Z;
    success_count : Z;
    conflict_count : Z;
    other_failure : Z;
    verified_slug : string;        (* the slug of the closing search *)
    final_count : json;
    judgment : assessment }.

(** Lines 15-18 of [create_tenant]: the slug is a literal. *)
Definition create_tenant_data (slug_suffix : Z) : TenantData :=
  {| data_name := "Race Tenant " ++ show slug_suffix;
     data_slug := "race-test-slug" |}.

Section WithJson.

Variable json_loads : string -> option json.
Variable json_error : string -> string.

(** [async def create_tenant(session, token, slug_suffix, request_id)];
    [target] is how the target answers a body. *)
Definition create_tenant (session : ClientSession) (token : string)
    (slug_suffix request_id : Z) (target : TenantData -> http_reply)
  : result Outcome :=
  let data := create_tenant_data slug_suffix in
  try_except
    (resp <- session_send session (target data) ;;
     let status := Py.status resp in
     body <- resp_json json_loads json_error resp ;;
     Ret {| request_id := request_id;
            status := status;
            success := status =? 201;
            response := Some body;
            error := None |})
    (fun e =>
     Ret {| request_id := request_id;
            status := 0;
            success := false;
            response := None;
            error := Some (str e) |}).

(** [async def check_tenant_count(session, token, slug)]; [probe] is how
    the search endpoint answers a slug. *)
Definition check_tenant_count (session : ClientSession) (slug : string)
    (probe : string -> http_reply) : result json :=
  resp <- session_send session (probe slug) ;;
  if Py.status resp =? 200 then
    data <- resp_json json_loads json_error resp ;;
    pagination <- get data "pagination" (JObj []) ;;
    get pagination "total" (JNum 0)
  else Ret (JNum 0).

(** Lines 110-114: one line per result, and the message of a failure. *)
Definition print_detail (r : Outcome) : result unit :=
  if negb (success r) then
    match response r with
    | Some body => _ <- get body "message" (JStr "Unknown") ;; Ret tt
    | None => Ret tt
    end
  else Ret tt.

Fixpoint for_each {A : Type} (f : A -> result unit) (xs : list A) : result unit :=
  match xs with
  | [] => Ret tt
  | x :: xs' => _ <- f x ;; for_each f xs'
  end.

(** Lines 121-134: the security assessment. *)
Definition security_assessment (success_count conflict_count : Z)
    (final_count : json) : assessment :=
  if 1 <? success_count then RACE_VULNERABILITY success_count final_count
  else if (success_count =? 1) && eq_int final_count 1 then SAFE
  else if (success_count =? 0) && (0 <? conflict_count) then ALL_CONFLICT
  else ABNORMAL success_count final_count.

(** [async def main()].  [None] is the early return for an empty token;
    the first search runs on a session of its own, the burst and the
    closing search share a second one. *)
Definition main (token : string) (probe : string -> http_reply)
    (world : Z -> TenantData -> http_reply) (probe' : string -> http_reply)
  : result (option report) :=
  if String.eqb token "" then Ret None else
  existing_count <- check_tenant_count default_session "race-test-slug" probe ;;
  dirty <- gt existing_count 0 ;;
  let test_slug : string :=
    (if dirty then "race-test-slug-new" else "race-test-slug")%string in
  let concurrency := 20%nat in
  let session := default_session in
  results <- gather (map (fun i => create_tenant session token (i + 1) (i + 1)
                                                 (world i))
                         (range concurrency)) ;;
  let success_count := sum1 success results in
  let conflict_count := sum1 (fun r => status r =? 409) results in
  let other_failure := len results - success_count - conflict_count in
  _ <- for_each print_detail (firstn 10 results) ;;
  final_count <- check_tenant_count session test_slug probe' ;;
  Ret (Some {| test_slug := test_slug;
               posted := map (fun i => create_tenant_data (i + 1)) (range concurrency);
               total := len results;
               success_count := success_count;
               conflict_count := conflict_count;
               other_failure := other_failure;
               verified_slug := test_slug;
               final_count := final_count;
               judgment := security_assessment success_count conflict_count
                                               final_count |}).

End WithJson.

End RaceTestTenant.

(* ================================================================== *)
(** * scripts/qa/precise_race_test.py                                  *)
(* ================================================================== *)

Module PreciseRaceTest.

(** The fields of [class RaceTest] that the test reads and writes. *)
Record RaceTest : Type :=
  { slug : string;
    success_count : Z;
    conflict_count : Z;
    db_error_count : Z;
    other_count : Z }.

(** [__init__], at clock reading [now] *)
Definition init (now : Z) : RaceTest :=
  {| slug := "race-test-" ++ show now;
     success_count := 0; conflict_count := 0;
     db_error_count := 0; other_count := 0 |}.

Definition incr_success (self : RaceTest) : RaceTest :=
  {| slug := slug self; success_count := success_count self + 1;
     conflict_count := conflict_count self;
     db_error_count := db_error_count self; other_count := other_count self |}.

Definition incr_conflict (self : RaceTest) : RaceTest :=
  {| slug := slug self; success_count := success_count self;
     conflict_count := conflict_count self + 1;
     db_error_count := db_error_count self; other_count := other_count self |}.

Definition incr_db_error (self : RaceTest) : RaceTest :=
  {| slug := slug self; success_count := success_count self;
     conflict_count := conflict_count self;
     db_error_count := db_error_count self + 1; other_count := other_count self |}.

Definition incr_other (self : RaceTest) : RaceTest :=
  {| slug := slug self; success_count := success_count self;
     conflict_count := conflict_count self;
     db_error_count := db_error_count self; other_count := other_count self + 1 |}.

Definition create_tenant_data (self : RaceTest) (suffix : Z) : TenantData :=
  {| data_name := "Race Tenant " ++ show suffix; data_slug := slug self |}.

(** Lines 38-47: the chain of tests run under [self.lock]. *)
Definition record_response (response : Response) (self : RaceTest) : RaceTest :=
  if status_code response =? 201 then incr_success self
  else if status_code response =? 409 then incr_conflict self
  else if (status_code response =? 500) && contains "1062" (text response)
       then incr_db_error self
  else incr_other self.

(** [def create_tenant(self, suffix)]: the object after the call and what
    the call returns. *)
Definition create_tenant (suffix : Z) (w : http_reply) (self : RaceTest)
  : RaceTest * result (Z * string) :=
  match requests_send (Some 10%Q) w with
  | Ret response =>
      (record_response response self,
       Ret (status_code response, text response))
  | Raise e => (incr_other self, Ret (0, str e))
  | Blocked => (self, Blocked)
  end.

(** The pool: the workers take the lock one after the other, in the order
    [requests]. *)
Definition dispatch (requests : list Z) (world : Z -> http_reply)
    (self : RaceTest) : RaceTest :=
  fold_left (fun s i => fst (create_tenant i (world i) s)) requests self.

(** What the analysis part of [run_test] prints. *)
Record analysis : Type :=
  { only_one_tenant : bool;          (* "Only 1 tenant created (expected)" or "{n} tenants created (expected 1)" *)
    constraint_violations : option Z; (* "{n} database constraint violations" *)
    missing_responses : option Z }.   (* "Missing {n} responses"; [None] is "All requests accounted for" *)

Definition analyse (num_requests : Z) (self : RaceTest) : analysis :=
  let total_expected :=
    success_count self + conflict_count self + db_error_count self in
  {| only_one_tenant := success_count self =? 1;
     constraint_violations :=
       if 0 <? db_error_count self then Some (db_error_count self) else None;
     missing_responses :=
       if total_expected =? num_requests then None
       else Some (num_requests - total_expected) |}.

(** [def run_test(self, num_requests, concurrency)].  [cleanup] and
    [verify] talk to the target and print; how each of these calls ends is
    taken from the environment. *)
Definition run_test (num_requests : nat) (world : Z -> http_reply)
    (cleanup_before verify cleanup_after : result unit) (self : RaceTest)
  : RaceTest * result (analysis * bool) :=
  match cleanup_before with
  | Ret _ =>
      let self' := dispatch (range num_requests) world self in
      (self',
       _ <- verify ;;
       _ <- cleanup_after ;;
       Ret (analyse (Z.of_nat num_requests) self', success_count self' =? 1))
  | Raise e => (self, Raise e)
  | Blocked => (self, Blocked)
  end.

(** The last line of the [__main__] block. *)
Inductive last_line : Type :=
| TEST_PASSED   (* "TEST PASSED: No race condition detected" *)
| TEST_FAILED.  (* "TEST FAILED: Possible race condition" *)

(** [test = RaceTest(); success = test.run_test(20, 20)], the line printed
    and the exit status *)
Definition script (now : Z) (world : Z -> http_reply)
    (cleanup_before verify cleanup_after : result unit)
  : result (last_line * Z) :=
  ' (_, success) <-
      snd (run_test 20 world cleanup_before verify cleanup_after (init now)) ;;
  if success : bool then Ret (TEST_PASSED, 0) else Ret (TEST_FAILED, 1).

End PreciseRaceTest.

(* ================================================================== *)
(** * scripts/qa/full_race_test.py                                     *)
(* ================================================================== *)

Module FullRaceTest.

(** [def reset_password(token, password_suffix)] *)
Definition reset_password (token password_suffix : string) (w : http_reply)
  : result (Z * string) :=
  try_except
    (response <- requests_send (Some 5%Q) w ;;
     Ret (status_code response, text response))
    (fun e => Ret (0, str e)).

(** The line of the race check. *)
Inductive verdict : Type :=
| RACE_CONDITION_DETECTED (success_count : Z)  (* "RACE CONDITION DETECTED: {n} successful resets!" *)
| PASS_only_1_successful_reset                 (* "PASS: Only 1 successful reset (expected)" *)
| FAIL_no_successful_resets.                   (* "FAIL: No successful resets" *)

(** How [test_concurrent_reset] ends: it gives up before the burst, or it
    runs the race check. *)
Inductive ending : Type :=
| FAILED_TO_GET_RESET_TOKEN   (* "Failed to get reset token" *)
| NO_FRESH_TOKEN              (* the silent [return False] of step 2 *)
| CHECKED (v : verdict).

Record counts : Type :=
  { success_count : Z; error_count : Z; other_count : Z }.

(** Lines 100-103: the three counters. *)
Definition tally (results : list (Z * string)) : counts :=
  let success_count := sum1 (fun r => fst r =? 200) results in
  let error_count := sum1 (fun r => (fst r =? 400) || (fst r =? 404)) results in
  {| success_count := success_count;
     error_count := error_count;
     other_count := len results - success_count - error_count |}.

(** Lines 110-119: the race check and the value returned. *)
Definition race_check (results : list (Z * string)) : verdict * bool :=
  let c := tally results in
  if 1 <? success_count c then (RACE_CONDITION_DETECTED (success_count c), false)
  else if success_count c =? 1 then (PASS_only_1_successful_reset, true)
  else (FAIL_no_successful_resets, false).

(** Step 3 of [test_concurrent_reset]: fifty submissions with one token. *)
Definition concurrent_test (token : string) (world : Z -> http_reply)
  : result (ending * bool) :=
  results <- gather (map (fun i => reset_password token (show i) (world i))
                         (range 50)) ;;
  Ret (CHECKED (fst (race_check results)), snd (race_check results)).

(** [def test_concurrent_reset()].  [get_reset_token] reads the mail box of
    the test installation; how its two calls end is taken from the
    environment ([None] is its [return None]). *)
Definition test_concurrent_reset
    (first_token : result (option string)) (single : http_reply)
    (fresh_token : result (option string)) (world : Z -> http_reply)
  : result (ending * bool) :=
  token <- first_token ;;
  match token with
  | None => Ret (FAILED_TO_GET_RESET_TOKEN, false)
  | Some token =>
      ' (status, _) <- reset_password token "test" single ;;
      if negb (status =? 200) then
        token' <- fresh_token ;;
        match token' with
        | None => Ret (NO_FRESH_TOKEN, false)
        | Some token' => concurrent_test token' world
        end
      else concurrent_test token world
  end.

(** [success = test_concurrent_reset(); exit(0 if success else 1)] *)
Definition script
    (first_token : result (option string)) (single : http_reply)
    (fresh_token : result (option string)) (world : Z -> http_reply)
  : option Z :=
  exit_status snd (test_concurrent_reset first_token single fresh_token world).

End FullRaceTest.

(* ================================================================== *)
(** * scripts/qa/grpc_race_test.py                                     *)
(* ================================================================== *)

Module GrpcRaceTest.

(** [key in v] *)
Definition has_key (key : string) (v : json) : result bool :=
  match v with
  | JObj fields =>
      Ret (match dict_lookup key fields with Some _ => true | None => false end)
  | JStr s => Ret (contains key s)
  | JArr items =>
      Ret (existsb (fun x => match x with
                             | JStr s => String.eqb s key
                             | _ => false
                             end) items)
  | _ => Raise (TypeError "argument is not iterable")
  end.

(** [response["accessToken"][:50] + "..."] *)
Definition token_sample (response : json) : result string :=
  match response with
  | JObj fields =>
      match dict_lookup "accessToken" fields with
      | Some (JStr s) => Ret (prefix 50 s ++ "...")%string
      | Some _ => Raise (TypeError "cannot slice or concatenate")
      | None => Raise (KeyError "accessToken")
      end
  | _ => Raise (TypeError "indices must be integers")
  end.

(** The triple [(result_type, elapsed, details)] *)
Definition exchange : Type := string * Q * string.

Section WithJson.

Variable json_loads : string -> option json.

(** [def exchange_token(token, tenant_id, request_id)] *)
Definition exchange_token (token tenant_id : string) (request_id : Z)
    (w : proc_reply) : result exchange :=
  try_except
    (' (result, elapsed) <- subprocess_run (Some 10%Q) w ;;
     if returncode result =? 0 then
       try_except
         (response <- decode json_loads (stdout result) ;;
          present <- has_key "accessToken" response ;;
          if present : bool then
            sample <- token_sample response ;;
            Ret ("success"%string, elapsed, sample)
          else Ret ("error"%string, elapsed, prefix 100 (stdout result)))
         (fun _ => Ret ("success"%string, elapsed, prefix 100 (stdout result)))
     else Ret ("error"%string, elapsed, prefix 100 (stderr result)))
    (fun e =>
       match e with
       | TimeoutExpired _ => Ret ("timeout"%string, 10%Q, "Timeout"%string)
       | _ => Ret ("exception"%string, 0%Q, prefix 100 (str e))
       end).

(** The fields of [class GrpcRaceTest]. *)
Record GrpcRaceTest : Type :=
  { token : string;
    tenant_id : string;
    success_count : Z;
    error_count : Z;
    timeout_count : Z;
    exception_count : Z;
    responses : list (Z * string * Q * string) }.

(** [__init__], for the admin token [tok] *)
Definition init (tok : string) : GrpcRaceTest :=
  {| token := tok;
     tenant_id := "e4a59fda-fc88-445f-9b6a-da66bf480a67";
     success_count := 0; error_count := 0;
     timeout_count := 0; exception_count := 0;
     responses := [] |}.

(** The update [run_exchange] makes under [self.lock]. *)
Definition record_exchange (request_id : Z) (x : exchange)
    (self : GrpcRaceTest) : GrpcRaceTest :=
  let '(result_type, elapsed, details) := x in
  if String.eqb result_type "success" then
    {| token := token self; tenant_id := tenant_id self;
       success_count := success_count self + 1;
       error_count := error_count self;
       timeout_count := timeout_count self;
       exception_count := exception_count self;
       responses := responses self ++ [(request_id, "success"%string, elapsed, details)] |}
  else if String.eqb result_type "error" then
    {| token := token self; tenant_id := tenant_id self;
       success_count := success_count self;
       error_count := error_count self + 1;
       timeout_count := timeout_count self;
       exception_count := exception_count self;
       responses := responses self ++ [(request_id, "error"%string, elapsed, details)] |}
  else if String.eqb result_type "timeout" then
    {| token := token self; tenant_id := tenant_id self;
       success_count := success_count self;
       error_count := error_count self;
       timeout_count := timeout_count self + 1;
       exception_count := exception_count self;
       responses := responses self ++ [(request_id, "timeout"%string, elapsed, details)] |}
  else
    {| token := token self; tenant_id := tenant_id self;
       success_count := success_count self;
       error_count := error_count self;
       timeout_count := timeout_count self;
       exception_count := exception_count self + 1;
       responses := responses self ++ [(request_id, "exception"%string, elapsed, details)] |}.

(** [def run_exchange(self, request_id)]: the object after the call and the
    [result_type] returned. *)
Definition run_exchange (request_id : Z) (w : proc_reply) (self : GrpcRaceTest)
  : GrpcRaceTest * result string :=
  match exchange_token (token self) (tenant_id self) request_id w with
  | Ret x => (record_exchange request_id x self, Ret (fst (fst x)))
  | Raise e => (self, Raise e)
  | Blocked => (self, Blocked)
  end.

(** The pool: the workers take the lock one after the other, in the order
    [requests]. *)
Definition dispatch (requests : list Z) (world : Z -> proc_reply)
    (self : GrpcRaceTest) : GrpcRaceTest :=
  fold_left (fun s i => fst (run_exchange i (world i) s)) requests self.

(** What [run_test] prints as "Total" and what it returns. *)
Record summary : Type := { printed_total : Z; judged : bool }.

(** [def run_test(self, num_requests, concurrency)] *)
Definition run_test (num_requests : nat) (world : Z -> proc_reply)
    (self : GrpcRaceTest) : GrpcRaceTest * summary :=
  let self' := dispatch (range num_requests) world self in
  (self',
   {| printed_total := success_count self' + error_count self'
                       + timeout_count self' + exception_count self';
      judged := 0 <? success_count self' |}).

(** The last line the script prints. *)
Inductive last_line : Type :=
| TEST_COMPLETED
| TEST_FAILED
| SINGLE_REQUEST_FAILED.

(** The [__main__] block: the line printed and the exit status. *)
Definition script (tok : string) (single : proc_reply) (world : Z -> proc_reply)
  : result (last_line * Z) :=
  let test := init tok in
  let '(test, r) := run_exchange 0 single test in
  result <- r ;;
  if String.eqb result "success" then
    let '(_, s) := run_test 50 world test in
    if judged s then Ret (TEST_COMPLETED, 0) else Ret (TEST_FAILED, 1)
  else Ret (SINGLE_REQUEST_FAILED, 1).

End WithJson.

End GrpcRaceTest.

(* ================================================================== *)
(** * More of the Python runtime: strings, bytes, values               *)
(* ================================================================== *)

Module Str.

(** [s.split(sep)] for a separator of one character: one part more than
    there are separators, empty parts kept. *)
Fixpoint split (sep : ascii) (s : string) : list string :=
  match s with
  | EmptyString => [EmptyString]
  | String c s' =>
      if Ascii.eqb c sep then EmptyString :: split sep s'
      else match split sep s' with
           | part :: parts => String c part :: parts
           | [] => [String c EmptyString]
           end
  end.

(** [sep.join(parts)], which is also what [f"{a}:{b}"] builds of two
    parts. *)
Fixpoint join (sep : ascii) (parts : list string) : string :=
  match parts with
  | [] => EmptyString
  | [part] => part
  | part :: rest => (part ++ String sep (join sep rest))%string
  end.

(** [c in s] for one character *)
Fixpoint has (c : ascii) (s : string) : bool :=
  match s with
  | EmptyString => false
  | String c' s' => Ascii.eqb c' c || has c s'
  end.

(** [s * n] for a string of one character *)
Fixpoint times (c : ascii) (n : nat) : string :=
  match n with
  | O => EmptyString
  | S n' => String c (times c n')
  end.

(** The character class [[a-f0-9]] of a regular expression. *)
Definition is_hex (c : ascii) : bool :=
  (Ascii.leb "a" c && Ascii.leb c "f") || (Ascii.leb "0" c && Ascii.leb c "9").

Fixpoint all_hex (s : string) : bool :=
  match s with
  | EmptyString => true
  | String c s' => is_hex c && all_hex s'
  end.

(** The digit of [bytes.hex()] for a value below sixteen. *)
Definition hex_digit (n : nat) : ascii :=
  match n with
  | 0%nat => "0" | 1%nat => "1" | 2%nat => "2" | 3%nat => "3"
  | 4%nat => "4" | 5%nat => "5" | 6%nat => "6" | 7%nat => "7"
  | 8%nat => "8" | 9%nat => "9" | 10%nat => "a" | 11%nat => "b"
  | 12%nat => "c" | 13%nat => "d" | 14%nat => "e" | _ => "f"
  end%char.

(** The value of a hexadecimal digit. *)
Definition hex_value (c : ascii) : option nat :=
  index 0 (String c EmptyString) "0123456789abcdef".

Definition hex_byte (b : ascii) : string :=
  let n := nat_of_ascii b in
  String (hex_digit (n / 16)) (String (hex_digit (n mod 16)) EmptyString).

(** [b.hex()]: a [bytes] value is a string of eight-bit characters. *)
Fixpoint hex (b : string) : string :=
  match b with
  | EmptyString => EmptyString
  | String c b' => (hex_byte c ++ hex b')%string
  end.

(** [p] stripped from the front of [s], when [s] starts with it. *)
Fixpoint strip_prefix (p s : string) : option string :=
  match p, s with
  | EmptyString, _ => Some s
  | String a p', String b s' => if Ascii.eqb a b then strip_prefix p' s' else None
  | String _ _, EmptyString => None
  end.

(** The truth value of a JSON value in an [if]. *)
Definition truthy (v : json) : bool :=
  match v with
  | JNull => false
  | JBool b => b
  | JNum n => negb (n =? 0)
  | JStr s => negb (String.eqb s "")
  | JArr items => match items with [] => false | _ => true end
  | JObj fields => match fields with [] => false | _ => true end
  end.




End Str.

(* ================================================================== *)
(** * scripts/qa/full_race_test.py: the reset token from the mail box  *)
(* ================================================================== *)

Module ResetMail.

(** The longest run of [[a-f0-9]] at the front of [s]. *)
Fixpoint hex_run (s : string) : string :=
  match s with
  | EmptyString => EmptyString
  | String c s' => if Str.is_hex c then String c (hex_run s') else EmptyString
  end.

(** A match of [token=([a-f0-9]+)] that starts at the front of [s]: the
    group it captures. *)
Definition match_here (s : string) : option string :=
  match Str.strip_prefix "token=" s with
  | Some rest =>
      match hex_run rest with
      | EmptyString => None
      | run => Some run
      end
  | None => None
  end.

(** [re.search(r'token=([a-f0-9]+)', html)] and [match.group(1)]: the
    leftmost match, its group as long as it can be. *)
Fixpoint search (html : string) : option string :=
  match html with
  | EmptyString => None
  | String _ rest =>
      match match_here html with
      | Some token => Some token
      | None => search rest
      end
  end.


Section WithJson.

Variable json_loads : string -> option json.


End WithJson.

End ResetMail.

(* ================================================================== *)
(** * scripts/qa/precise_race_test.py: cleanup                         *)
(* ================================================================== *)

Module PreciseCleanup.


Section WithJson.

Variable json_loads : string -> option json.


End WithJson.

End PreciseCleanup.

(* ================================================================== *)
(** * scripts/qa/race_test_grpc.py and scripts/qa/test_scenario4.py    *)
(* ================================================================== *)

Module Jwt.

(** Lines 15-17 of [decode_jwt], lines 12-14 of [decode_jwt_payload]: the
    padding put back on the payload. *)
Definition pad (payload : string) : string :=
  let padding := (4 - String.length payload mod 4)%nat in
  if (padding =? 4)%nat then payload
  else (payload ++ Str.times "=" padding)%string.

(** A library call that gives a value or raises. *)
Definition call {A : Type} (r : exn + A) : result A :=
  match r with
  | inl e => Raise e
  | inr a => Ret a
  end.

Section WithDecoders.

(** [base64.b64decode] and [base64.urlsafe_b64decode], which give the
    bytes or raise, and [json.loads] on the decoded bytes. *)
Variable b64decode : string -> exn + string.
Variable urlsafe_b64decode : string -> exn + string.
Variable json_loads : string -> option json.

(** [def decode_jwt(token)] of race_test_grpc.py, for whatever value
    [response.get('accessToken', '')] hands over.  Python's [None] is
    [JNull]. *)
Definition decode_jwt (token : json) : result json :=
  try_except
    (match token with
     | JStr s =>
         let parts := Str.split "." s in
         if negb (List.length parts =? 3)%nat then Ret JNull
         else
           let payload := pad (nth 1 parts EmptyString) in
           decoded <- call (b64decode payload) ;;
           decode json_loads decoded
     | _ => Raise (AttributeError "object has no attribute 'split'")
     end)
    (fun _ => Ret JNull).

(** [def decode_jwt_payload(token)] of test_scenario4.py: no handler. *)
Definition decode_jwt_payload (token : string) : result json :=
  let parts := Str.split "." token in
  if (2 <=? List.length parts)%nat then
    let payload := pad (nth 1 parts EmptyString) in
    decoded <- call (urlsafe_b64decode payload) ;;
    decode json_loads decoded
  else Ret JNull.

(** The [dict] an invocation of race_test_grpc.py returns; the keys of the
    normal path and of the two failure paths are options. *)
Record Exchange : Type :=
  { request_id : Z;
    success : bool;
    status : string;
    response : option json;
    roles : option json;
    permissions : option json;
    error : option string;
    latency : Q }.

(** [payload.get(key, []) if payload else []] *)
Definition claim (payload : json) (key : string) : result json :=
  if Str.truthy payload then get payload key (JArr []) else Ret (JArr []).

(** [async def exchange_token(token, tenant_id, service_id, request_id)] of
    race_test_grpc.py: [subprocess.run] without timeout. *)
Definition exchange_token (token tenant_id service_id : string)
    (request_id : Z) (w : proc_reply) : result Exchange :=
  try_except
    (' (result, elapsed) <- subprocess_run None w ;;
     if returncode result =? 0 then
       response <- decode json_loads (stdout result) ;;
       access <- get response "accessToken" (JStr "") ;;
       payload <- decode_jwt access ;;
       roles <- claim payload "roles" ;;
       permissions <- claim payload "permissions" ;;
       Ret {| request_id := request_id;
              success := true;
              status := "200";
              response := Some response;
              roles := Some roles;
              permissions := Some permissions;
              error := None;
              latency := elapsed |}
     else
       Ret {| request_id := request_id;
              success := false;
              status := "error";
              response := None;
              roles := None;
              permissions := None;
              error := Some (stderr result);
              latency := elapsed |})
    (fun e =>
     Ret {| request_id := request_id;
            success := false;
            status := "exception";
            response := None;
            roles := None;
            permissions := None;
            error := Some (str e);
            latency := 0%Q |}).

End WithDecoders.

End Jwt.

(* ================================================================== *)
(** * scripts/qa/test_nonce_reuse.py                                   *)
(* ================================================================== *)

Module NonceReuse.

(** The five values the script scans, each [base64(nonce):base64(ciphertext+tag)]. *)
Definition ciphertexts : list string :=
  [ "vhvlQK63Z2tn2FEv:dirpNWcxitMA7serSW/cKaQ/7L+o";
    "9Kj8Xq3PZ2tn2FEv:abc123def456ghi789jkl012mno345";
    "7Yt5Rq1W3Z2tn2FEv:xyz789uvw012abc345def678ghi901";
    "vhvlQK63Z2tn2FEv:different_ciphertext_here";
    "2Bs8Dq4X5Z2tn2FEv:another_ciphertext_example" ]%string.

(** The set [nonces] (kept without repetition) and the list [duplicates]. *)
Record state : Type :=
  { nonces : list string; duplicates : list (Z * string) }.

Section WithBase64.

(** [base64.b64decode]; [None] when it raises. *)
Variable b64decode : string -> option string.

(** The first three statements of the [try]: the unpacking of the two
    parts, the decoding, the hexadecimal form.  [None] is the path of the
    [except]. *)
Definition nonce_hex_of (ct : string) : option string :=
  match Str.split ":" ct with
  | [nonce_b64; ciphertext_b64] =>
      match b64decode nonce_b64 with
      | Some nonce => Some (Str.hex nonce)
      | None => None
      end
  | _ => None
  end.

(** One pass of the loop for the pair [(i, ct)] of [enumerate]. *)
Definition step (st : state) (entry : Z * string) : state :=
  let '(i, ct) := entry in
  match nonce_hex_of ct with
  | Some nonce_hex =>
      if existsb (String.eqb nonce_hex) (nonces st)
      then {| nonces := nonces st;
              duplicates := duplicates st ++ [(i + 1, nonce_hex)] |}
      else {| nonces := nonces st ++ [nonce_hex];
              duplicates := duplicates st |}
  | None => st
  end.

(** [enumerate(cts)] *)
Definition enumerate (cts : list string) : list (Z * string) :=
  combine (range (List.length cts)) cts.

(** The loop over a list of values. *)
Definition scan (cts : list string) : state :=
  fold_left step (enumerate cts) {| nonces := []; duplicates := [] |}.

(** The status the script exits with. *)
Definition exit_code (cts : list string) : Z :=
  match duplicates (scan cts) with
  | [] => 0
  | _ => 1
  end.

(** The nonces of the values that parse, hexadecimal, in order. *)
Definition parsed (cts : list string) : list string :=
  flat_map (fun ct => match nonce_hex_of ct with Some h => [h] | None => [] end) cts.

End WithBase64.

End NonceReuse.

(* ================================================================== *)
(** * scripts/qa/test_ciphertext_tampering.py                          *)
(* ================================================================== *)

Module Tampering.

(** Line 33: [nonce_b64, ciphertext_b64 = encrypted_password.split(':')];
    [None] when the unpacking raises. *)
Definition parse (encrypted_password : string) : option (string * string) :=
  match Str.split ":" encrypted_password with
  | [nonce_b64; ciphertext_b64] => Some (nonce_b64, ciphertext_b64)
  | _ => None
  end.

(** Lines 61, 76, 92 and 106: [f"{nonce_b64}:{ciphertext_b64}"] *)
Definition render (nonce_b64 ciphertext_b64 : string) : string :=
  (nonce_b64 ++ String ":" ciphertext_b64)%string.

(** Lines 56-59 and 88-90: [data[0] ^= 0x01] on a [bytearray] that is not
    empty; the value stored is the integer [b ^ 1]. *)
Definition flipped (b : ascii) : N := N.lxor (N_of_ascii b) 1.

Definition flip_first (data : string) : string :=
  match data with
  | EmptyString => EmptyString
  | String b rest => String (ascii_of_N (flipped b)) rest
  end.

(** Lines 73-74: [ciphertext[:-16]] under the guard [len(ciphertext) > 16] *)
Definition truncate_tag (ciphertext : string) : option string :=
  if (16 <? String.length ciphertext)%nat
  then Some (substring 0 (String.length ciphertext - 16) ciphertext)
  else None.

(** Line 104: [b"A" * len(ciphertext)] *)
Definition fake (ciphertext : string) : string :=
  Str.times "A" (String.length ciphertext).

End Tampering.

(* ================================================================== *)
(** * The vocabulary of the specification                              *)
(* ================================================================== *)

Module Spec.

(** The three judgments of the Invariant Evaluator. *)
Inductive Judgment : Type := Pass | Fail | Inconclusive.

(** The Outcome Classifier as the specification words it: an ordered list
    of (predicate, verdict) pairs, tried top to bottom, the first match
    wins, [default] for an outcome that no rule matches. *)
Fixpoint first_match {O V : Type} (rules : list ((O -> bool) * V))
    (default : V) (o : O) : V :=
  match rules with
  | [] => default
  | (p, v) :: rest => if p o then v else first_match rest default o
  end.

Definition unmatched {O V : Type} (rules : list ((O -> bool) * V)) (o : O) : bool :=
  forallb (fun rule => negb (fst rule o)) rules.

(** The categories precise_race_test.py counts, and its rules as data. *)
Inductive category : Type := Success | Conflict | DbError | Other.

Definition precise_rules : list ((Response -> bool) * category) :=
  [ (fun r => status_code r =? 201, Success);
    (fun r => status_code r =? 409, Conflict);
    (fun r => (status_code r =? 500) && contains "1062" (text r), DbError) ].

Definition bump (c : category) (self : PreciseRaceTest.RaceTest)
  : PreciseRaceTest.RaceTest :=
  match c with
  | Success => PreciseRaceTest.incr_success self
  | Conflict => PreciseRaceTest.incr_conflict self
  | DbError => PreciseRaceTest.incr_db_error self
  | Other => PreciseRaceTest.incr_other self
  end.

(** The rules of the two password-reset scripts, as data. *)
Definition reset_rules : list ((Z * string -> bool) * category) :=
  [ (fun r => fst r =? 200, Success);
    (fun r => (fst r =? 400) || (fst r =? 404), Conflict) ].

Definition is_category (c : category) (d : category) : bool :=
  match c, d with
  | Success, Success | Conflict, Conflict | DbError, DbError | Other, Other => true
  | _, _ => false
  end.

(** The number of outcomes a rule set puts in category [c]. *)
Definition tally_of {O : Type} (rules : list ((O -> bool) * category))
    (c : category) (outcomes : list O) : Z :=
  sum1 (fun o => is_category c (first_match rules Other o)) outcomes.

(** The judgment a line of a script stands for, by the word or the mark
    the script itself prints on it. *)
Definition of_full (v : FullRaceTest.verdict) : Judgment :=
  match v with
  | FullRaceTest.RACE_CONDITION_DETECTED _ => Fail
  | FullRaceTest.PASS_only_1_successful_reset => Pass
  | FullRaceTest.FAIL_no_successful_resets => Fail
  end.

Definition of_precise (l : PreciseRaceTest.last_line) : Judgment :=
  match l with
  | PreciseRaceTest.TEST_PASSED => Pass
  | PreciseRaceTest.TEST_FAILED => Fail
  end.

Definition of_mark (m : RaceTestTenant.mark) : Judgment :=
  match m with
  | RaceTestTenant.CheckMark => Pass
  | RaceTestTenant.CrossMark => Fail
  | RaceTestTenant.WarningSign => Inconclusive
  end.

Definition total (self : PreciseRaceTest.RaceTest) : Z :=
  PreciseRaceTest.success_count self + PreciseRaceTest.conflict_count self
  + PreciseRaceTest.db_error_count self + PreciseRaceTest.other_count self.

(** Exactly one of the four counters went up, by one. *)
Definition one_counter_up (before after : PreciseRaceTest.RaceTest) : Prop :=
  exists c, after = bump c before
            /\ forall d, after = bump d before -> d = c.

End Spec.

(** The target answers with status [s]. *)
Definition answers_with (s : Z) (w : http_reply) : bool :=
  match w with
  | Answer s' _ | Mistyped s' _ _ => s' =? s
  | _ => false
  end.

(** What the requests-based invokers return for a reply: the status and
    body of an answer, the key [0] and the text of the exception
    otherwise. *)
Definition settled (w : http_reply) : Z * string :=
  match w with
  | Answer s t | Mistyped s t _ => (s, t)
  | Refused m => (0, m)
  | Broken m => (0, m)
  | Hang m => (0, m)
  end.

(** What [create_tenant] of race_test_tenant.py returns on a session with
    a deadline: the [dict] of the normal path when an answer arrives and
    [resp.json()] reads its body, the [dict] of the exceptional path
    otherwise. *)
Definition failed_outcome (request_id : Z) (msg : string) : RaceTestTenant.Outcome :=
  {| RaceTestTenant.request_id := request_id;
     RaceTestTenant.status := 0;
     RaceTestTenant.success := false;
     RaceTestTenant.response := None;
     RaceTestTenant.error := Some msg |}.

Definition tenant_outcome (json_loads : string -> option json)
    (json_error : string -> string)
    (request_id : Z) (w : http_reply) : RaceTestTenant.Outcome :=
  match w with
  | Answer s t =>
      match read_json json_loads t with
      | Some body =>
          {| RaceTestTenant.request_id := request_id;
             RaceTestTenant.status := s;
             RaceTestTenant.success := s =? 201;
             RaceTestTenant.response := Some body;
             RaceTestTenant.error := None |}
      | None => failed_outcome request_id (json_error (strip t))
      end
  | Mistyped _ _ m => failed_outcome request_id m
  | Refused m => failed_outcome request_id m
  | Broken m => failed_outcome request_id m
  | Hang m => failed_outcome request_id m
  end.

(** The category precise_race_test.py counts a reply in. *)
Definition category_of (w : http_reply) : Spec.category :=
  match w with
  | Answer s t | Mistyped s t _ =>
      Spec.first_match Spec.precise_rules Spec.Other
        {| status_code := s; text := t |}
  | _ => Spec.Other
  end.

(** Whether the exchange behind a reply is counted as a success.  The
    triple [exchange_token] returns does not depend on the token, the
    tenant or the request number. *)
Definition succeeds (json_loads : string -> option json) (w : proc_reply) : bool :=
  match GrpcRaceTest.exchange_token json_loads "" "" 0 w with
  | Ret x => String.eqb (fst (fst x)) "success"
  | _ => false
  end.

(* ================================================================== *)
(** * Concrete runs                                                    *)
(* ================================================================== *)

Module Run.

(** A target that lets exactly one creation through. *)
Definition one_winner (i : Z) : http_reply :=
  if i =? 7 then Answer 201 "created" else Answer 409 "slug already exists".

(** A target that lets three requests through. *)
Definition three_winners (i : Z) : http_reply :=
  if i <? 3 then Answer 201 "created" else Answer 409 "slug already exists".

(** A target that never answers. *)
Definition silent (i : Z) : http_reply := Hang "".

(** A target that accepts the connection and then stays silent, as a
    client of [requests] with a deadline of ten seconds reports it. *)
Definition stalled : http_reply :=
  Hang "HTTPConnectionPool(host='localhost', port=8080): Read timed out. (read timeout=10)".

(** A target that is down. *)
Definition down (i : Z) : http_reply := Refused "Connection refused".

(** Fifty results of a reset invoker under [silent]. *)
Definition fifty_timeouts : list (Z * string) :=
  map (fun i => settled (silent i)) (range 50).

(** A decoder for the bodies of the runs below. *)
Definition loads (body : string) : option json :=
  if String.eqb body "one tenant"
  then Some (JObj [("pagination"%string, JObj [("total"%string, JNum 1)])])
  else if String.eqb body "no tenant"
  then Some (JObj [("pagination"%string, JObj [("total"%string, JNum 0)])])
  else if String.eqb body "conflict"
  then Some (JObj [("message"%string, JStr "Tenant slug already exists")])
  else if String.eqb body "created"
  then Some (JObj [("id"%string, JStr "0b7e")])
  else if String.eqb body "token response"
  then Some (JObj [("accessToken"%string, JStr "eyJhbGciOiJSUzI1NiJ9")])
  else None.

(** The message of that decoder for a body it rejects. *)
Definition complaint (body : string) : string :=
  "Expecting value: line 1 column 1 (char 0)".

(** A target that already holds one tenant with slug "race-test-slug" and
    none with any other slug: its search, and its answer to a creation. *)
Definition stale_search (slug : string) : http_reply :=
  if String.eqb slug "race-test-slug"
  then Answer 200 "one tenant" else Answer 200 "no tenant".

Definition stale_target (i : Z) (data : TenantData) : http_reply :=
  if String.eqb (data_slug data) "race-test-slug"
  then Answer 409 "conflict" else Answer 201 "created".

(** A token exchange that succeeds once, before the burst, and a burst in
    which every exchange is turned down. *)
Definition first_exchange : proc_reply :=
  Exited 0 "token response" "" (1 # 5)%Q.

Definition unavailable (i : Z) : proc_reply :=
  Exited 1 "" "Code: Unavailable" (1 # 10)%Q.

End Run.

(** The counter of precise_race_test.py that stands for a category. *)
Definition counter_value (c : Spec.category) (self : PreciseRaceTest.RaceTest) : Z :=
  match c with
  | Spec.Success => PreciseRaceTest.success_count self
  | Spec.Conflict => PreciseRaceTest.conflict_count self
  | Spec.DbError => PreciseRaceTest.db_error_count self
  | Spec.Other => PreciseRaceTest.other_count self
  end.

(* ================================================================== *)
(** * More concrete runs                                               *)
(* ================================================================== *)

Module Sample.

(** A decoder for the bodies of the runs below. *)
Definition loads (body : string) : option json :=
  if String.eqb body "inbox"
  then Some (JObj [("messages"%string, JArr [JObj [("ID"%string, JStr "m1")]])])
  else if String.eqb body "empty inbox"
  then Some (JObj [("messages"%string, JArr [])])
  else if String.eqb body "mail"
  then Some (JObj [("HTML"%string,
                    JStr "<a href=http://localhost:3000/reset?token=ab12cd34EF>Reset</a>")])
  else if String.eqb body "two tenants"
  then Some (JObj [("data"%string,
                    JArr [JObj [("id"%string, JStr "t1"); ("name"%string, JStr "one")];
                          JObj [("id"%string, JStr "t2"); ("name"%string, JStr "two")]])])
  else if String.eqb body "plain text"
  then Some (JStr "conflict")
  else if String.eqb body "no token"
  then Some (JObj [("error"%string, JStr "denied")])
  else if String.eqb body "total 0"
  then Some (JObj [("pagination"%string, JObj [("total"%string, JNum 0)])])
  else None.



(** A target whose first answer is a 409 with a body that is JSON but not
    an object, and which answers 409 with an undecodable body after that. *)
Definition plain_conflicts (i : Z) (data : TenantData) : http_reply :=
  if i =? 0 then Answer 409 "plain text" else Answer 409 "not json".

(** A search that always reports nothing. *)
Definition nothing_found (slug : string) : http_reply := Answer 200 "total 0".

(** A search that fails. *)
Definition search_down (slug : string) : http_reply := Answer 500 "error".

End Sample.

(* ================================================================== *)
(** * Counting                                                         *)
(* ================================================================== *)

Section Counting.

Context {A : Type}.
Implicit Types (p q : A -> bool) (xs : list A).

Lemma sum1_nonneg p xs : 0 <= sum1 p xs.
Proof. induction xs as [|x xs IH]; cbn [sum1 app]; [lia|]. destruct (p x); lia. Qed.

Lemma sum1_le_len p xs : sum1 p xs <= len xs.
Proof.
  unfold len. induction xs as [|x xs IH]; cbn [List.length sum1]; [lia|].
  rewrite Nat2Z.inj_succ. destruct (p x); lia.
Qed.

Lemma sum1_app p xs ys : sum1 p (xs ++ ys) = sum1 p xs + sum1 p ys.
Proof. induction xs as [|x xs IH]; cbn [sum1 app]; [lia|]. destruct (p x); lia. Qed.

Lemma sum1_ext p q xs : (forall x, p x = q x) -> sum1 p xs = sum1 q xs.
Proof.
  intros E. induction xs as [|x xs IH]; cbn [sum1]; [reflexivity|].
  rewrite E, IH. reflexivity.
Qed.

(** The completion order of the workers does not matter to a counter. *)
Lemma sum1_Permutation p xs ys : Permutation xs ys -> sum1 p xs = sum1 p ys.
Proof.
  induction 1 as [|x l l' _ IH|x y l|l l' l'' _ IH1 _ IH2]; cbn [sum1].
  - reflexivity.
  - rewrite IH. reflexivity.
  - destruct (p x), (p y); lia.
  - congruence.
Qed.

(** Two exclusive tests and the rest split a list. *)
Lemma sum1_split p q xs :
  (forall x, p x = true -> q x = false) ->
  len xs - sum1 p xs - sum1 q xs = sum1 (fun x => negb (p x) && negb (q x)) xs.
Proof.
  intros D. unfold len.
  induction xs as [|x xs IH]; cbn [List.length sum1]; [reflexivity|].
  specialize (D x). rewrite Nat2Z.inj_succ.
  destruct (p x) eqn:P, (q x) eqn:Q0; cbn [negb andb];
    try (specialize (D eq_refl); discriminate); lia.
Qed.

Lemma sum1_map {B : Type} (f : B -> A) p (ys : list B) :
  sum1 p (map f ys) = sum1 (fun y => p (f y)) ys.
Proof. induction ys as [|y ys IH]; cbn [sum1 map]; [reflexivity|]. rewrite IH. reflexivity. Qed.

End Counting.

Lemma len_map {A B : Type} (f : A -> B) (xs : list A) : len (map f xs) = len xs.
Proof. unfold len. rewrite length_map. reflexivity. Qed.

Lemma len_range (n : nat) : len (range n) = Z.of_nat n.
Proof. unfold len, range. rewrite length_map, length_seq. reflexivity. Qed.

(** A burst of calls that all return is gathered whole, in task order. *)
Lemma gather_all_return {A B : Type} (f : A -> result B) (g : A -> B) (xs : list A) :
  (forall x, f x = Ret (g x)) -> gather (map f xs) = Ret (map g xs).
Proof.
  intros E. induction xs as [|x xs IH]; simpl; [reflexivity|].
  rewrite E, IH. reflexivity.
Qed.

(* ================================================================== *)
(** * The invokers that catch                                          *)
(* ================================================================== *)

Lemma tenant_create_tenant_settled (token : string) (suffix : Z) (w : http_reply) :
  TenantRaceTest.create_tenant token suffix w = Ret (settled w).
Proof. destruct w; reflexivity. Qed.

Lemma simple_reset_password_settled (i : Z) (w : http_reply) :
  RaceTestSimple.reset_password i w = Ret (settled w).
Proof. destruct w; reflexivity. Qed.

Lemma full_reset_password_settled (token suffix : string) (w : http_reply) :
  FullRaceTest.reset_password token suffix w = Ret (settled w).
Proof. destruct w; reflexivity. Qed.

Lemma settled_status (s : Z) (w : http_reply) :
  s <> 0 -> (fst (settled w) =? s) = answers_with s w.
Proof.
  intros Hs. destruct w as [s' t|s' t e|m|m|m]; cbn [settled fst answers_with];
    try reflexivity; apply Z.eqb_neq; congruence.
Qed.

(** The burst of tenant_race_test.py always comes back with its twenty
    results. *)
Lemma tenant_burst (token : string) (world : Z -> http_reply) (requests : list Z) :
  gather (map (fun i => TenantRaceTest.create_tenant token i (world i)) requests)
  = Ret (map (fun i => settled (world i)) requests).
Proof.
  apply gather_all_return. intros i. apply tenant_create_tenant_settled.
Qed.

Lemma burst_count (world : Z -> http_reply) (s : Z) (requests : list Z) :
  s <> 0 ->
  sum1 (fun r : Z * string => fst r =? s) (map (fun i => settled (world i)) requests)
  = sum1 (fun i => answers_with s (world i)) requests.
Proof.
  intros Hs. rewrite sum1_map. apply sum1_ext. intros i. apply settled_status, Hs.
Qed.

(* ================================================================== *)
(** * One success and nineteen conflicts                               *)
(* ================================================================== *)

(** C9.  tenant_race_test.py posts twenty bodies with the one slug
    "race-test-slug"; when both searches come back and the target answers
    exactly one creation with 201 and nineteen with 409, the test returns
    True on its PASS line and the script exits with status 0. *)
Theorem tenant_one_success_nineteen_conflicts_pass
    (data_of : string -> result (list TenantRaceTest.tenant)) (token : string)
    (check del : http_reply) (world : Z -> http_reply) (verify : http_reply) :
  returns (TenantRaceTest.clean_up_existing data_of check del) = true ->
  returns (TenantRaceTest.verify_database data_of verify) = true ->
  sum1 (fun i => answers_with 201 (world i)) (range 20) = 1 ->
  sum1 (fun i => answers_with 409 (world i)) (range 20) = 19 ->
  (forall i, data_slug (TenantRaceTest.create_tenant_data i) = "race-test-slug"%string)
  /\ TenantRaceTest.test_tenant_slug_race data_of token check del world verify
     = Ret (TenantRaceTest.PASS_1_success_19_conflicts, true)
  /\ TenantRaceTest.script data_of token check del world verify = Some 0.
Proof.
  intros Hclean Hverify H201 H409.
  split; [reflexivity|].
  assert (E : TenantRaceTest.test_tenant_slug_race data_of token check del world verify
              = Ret (TenantRaceTest.PASS_1_success_19_conflicts, true)).
  { unfold TenantRaceTest.test_tenant_slug_race.
    destruct (TenantRaceTest.clean_up_existing data_of check del) as [acts|e|];
      try discriminate Hclean.
    cbn [bind]. rewrite tenant_burst. cbn [bind].
    destruct (TenantRaceTest.verify_database data_of verify) as [[]|e|];
      try discriminate Hverify.
    cbn [bind]. unfold TenantRaceTest.race_check.
    rewrite !burst_count by lia. rewrite H201, H409. reflexivity. }
  split; [exact E|].
  unfold TenantRaceTest.script. rewrite E. reflexivity.
Qed.

Lemma tenant_one_success_nineteen_conflicts_pass_witness :
  (returns (TenantRaceTest.clean_up_existing (fun _ => Ret [])
              (Answer 200 "no tenants") Run.stalled) = true
   /\ returns (TenantRaceTest.verify_database (fun _ => Ret [])
                 (Answer 200 "one tenant")) = true
   /\ sum1 (fun i => answers_with 201 (Run.one_winner i)) (range 20) = 1
   /\ sum1 (fun i => answers_with 409 (Run.one_winner i)) (range 20) = 19)
  /\ TenantRaceTest.test_tenant_slug_race (fun _ => Ret []) "token"
       (Answer 200 "no tenants") Run.stalled Run.one_winner (Answer 200 "one tenant")
     = Ret (TenantRaceTest.PASS_1_success_19_conflicts, true)
  /\ TenantRaceTest.script (fun _ => Ret []) "token"
       (Answer 200 "no tenants") Run.stalled Run.one_winner (Answer 200 "one tenant")
     = Some 0.
Proof.
  split; [repeat split|].
  apply (tenant_one_success_nineteen_conflicts_pass
           (fun _ => Ret []) "token" (Answer 200 "no tenants") Run.stalled Run.one_winner
           (Answer 200 "one tenant")); reflexivity.
Defined.

(* ================================================================== *)
(** * More than one success                                            *)
(* ================================================================== *)

(** C3.  In the scripts that check an at-most-once invariant, a success
    count above one is the failure whose reason is the number of successes
    (the multiplicity): race_test.py fails its assertion with "RACE
    CONDITION: {n} successful resets!", tenant_race_test.py prints "RACE
    CONDITION DETECTED" with the count and returns False (exit status 1),
    race_test_simple.py prints "RACE CONDITION DETECTED" with the count. *)
Theorem more_than_one_success_is_a_race :
  (forall results : list Z,
      1 < RaceTest.count 200 results ->
      RaceTest.judge results
      = Raise (AssertionError ("RACE CONDITION: "
                               ++ show (RaceTest.count 200 results)
                               ++ " successful resets!")))
  /\ (forall results : list (Z * string),
      1 < sum1 (fun r => fst r =? 201) results ->
      TenantRaceTest.race_check results
      = (TenantRaceTest.RACE_CONDITION_DETECTED
           (sum1 (fun r => fst r =? 201) results), false)
      /\ exit_status snd (Ret (TenantRaceTest.race_check results)) = Some 1)
  /\ (forall results : list (Z * string),
      1 < RaceTestSimple.success_count (RaceTestSimple.tally results) ->
      RaceTestSimple.check results
      = RaceTestSimple.RACE_CONDITION_DETECTED
          (RaceTestSimple.success_count (RaceTestSimple.tally results))).
Proof.
  split; [|split].
  - intros results H. unfold RaceTest.judge.
    destruct (Z.leb_spec (RaceTest.count 200 results) 1) as [L|_]; [lia|reflexivity].
  - intros results H. unfold TenantRaceTest.race_check.
    destruct (Z.ltb_spec 1 (sum1 (fun r : Z * string => fst r =? 201) results))
      as [_|L]; [|lia].
    split; reflexivity.
  - intros results H. unfold RaceTestSimple.check.
    destruct (Z.ltb_spec 1 (RaceTestSimple.success_count (RaceTestSimple.tally results)))
      as [_|L]; [reflexivity|lia].
Qed.

Lemma more_than_one_success_is_a_race_witness :
  1 < sum1 (fun r : Z * string => fst r =? 201)
        (map (fun i => settled (Run.three_winners i)) (range 20))
  /\ TenantRaceTest.race_check (map (fun i => settled (Run.three_winners i)) (range 20))
     = (TenantRaceTest.RACE_CONDITION_DETECTED 3, false).
Proof.
  split; [reflexivity|].
  apply (proj1 (proj2 more_than_one_success_is_a_race)
               (map (fun i => settled (Run.three_winners i)) (range 20))).
  reflexivity.
Defined.

(* ================================================================== *)
(** * No success at all                                                *)
(* ================================================================== *)

Lemma precise_run_test_returns (n : nat) (world : Z -> http_reply)
    (self : PreciseRaceTest.RaceTest) :
  PreciseRaceTest.run_test n world (Ret tt) (Ret tt) (Ret tt) self
  = (PreciseRaceTest.dispatch (range n) world self,
     Ret (PreciseRaceTest.analyse (Z.of_nat n)
            (PreciseRaceTest.dispatch (range n) world self),
          PreciseRaceTest.success_count
            (PreciseRaceTest.dispatch (range n) world self) =? 1)).
Proof. reflexivity. Qed.

Lemma precise_run_test_value (n : nat) (world : Z -> http_reply)
    (cb v ca : result unit) (self : PreciseRaceTest.RaceTest)
    (a : PreciseRaceTest.analysis) (b : bool) :
  snd (PreciseRaceTest.run_test n world cb v ca self) = Ret (a, b) ->
  b = (PreciseRaceTest.success_count
         (PreciseRaceTest.dispatch (range n) world self) =? 1).
Proof.
  unfold PreciseRaceTest.run_test.
  destruct cb as [[]|e|]; cbn [snd]; try discriminate.
  destruct v as [[]|e|]; cbn [bind]; try discriminate.
  destruct ca as [[]|e|]; cbn [bind]; try discriminate.
  intros E. injection E as _ E. symmetry. exact E.
Qed.

(** race_test.py accepts a run without any success: the assertion
    [success <= 1] holds and the script exits with status 0. *)
Lemma race_test_accepts_no_success :
  RaceTest.main Run.silent = Raise (Timeout "")
  /\ RaceTest.judge (repeat 400 50) = Ret (0, 50)
  /\ exit_status (fun _ : Z * Z => true) (RaceTest.judge (repeat 400 50)) = Some 0.
Proof. repeat split. Qed.

(** C2, as stated, fails.  The judgment [Inconclusive] is not in the code:
    with no success and no conflict among the results, the race check of full_race_test.py ends
    on its FAIL line. *)
Lemma all_timeouts_are_judged_fail :
  FullRaceTest.success_count (FullRaceTest.tally Run.fifty_timeouts) = 0
  /\ FullRaceTest.error_count (FullRaceTest.tally Run.fifty_timeouts) = 0
  /\ FullRaceTest.concurrent_test "token" Run.silent
     = Ret (FullRaceTest.CHECKED FullRaceTest.FAIL_no_successful_resets, false)
  /\ Spec.of_full (fst (FullRaceTest.race_check Run.fifty_timeouts))
     <> Spec.Inconclusive.
Proof.
  repeat split; try reflexivity. vm_compute. discriminate.
Qed.

(** C2, amended.  When the success count is 0 and the conflict count is 0,
    full_race_test.py returns False on the line "FAIL: No successful
    resets" (exit status 1), and precise_race_test.py returns False, so its
    script ends on "TEST FAILED" with exit status 1: the judgment is Fail,
    never Pass. *)
Theorem no_success_no_conflict_is_a_failure :
  (forall results : list (Z * string),
      FullRaceTest.success_count (FullRaceTest.tally results) = 0 ->
      FullRaceTest.error_count (FullRaceTest.tally results) = 0 ->
      FullRaceTest.race_check results
      = (FullRaceTest.FAIL_no_successful_resets, false)
      /\ Spec.of_full (fst (FullRaceTest.race_check results)) = Spec.Fail
      /\ exit_status snd (Ret (FullRaceTest.race_check results)) = Some 1)
  /\ (forall (now : Z) (world : Z -> http_reply),
      let after := PreciseRaceTest.dispatch (range 20) world (PreciseRaceTest.init now) in
      PreciseRaceTest.success_count after = 0 ->
      PreciseRaceTest.conflict_count after = 0 ->
      PreciseRaceTest.script now world (Ret tt) (Ret tt) (Ret tt)
      = Ret (PreciseRaceTest.TEST_FAILED, 1)
      /\ Spec.of_precise PreciseRaceTest.TEST_FAILED = Spec.Fail
      /\ forall (cb v ca : result unit) (line : PreciseRaceTest.last_line) (code : Z),
           PreciseRaceTest.script now world cb v ca = Ret (line, code) ->
           line = PreciseRaceTest.TEST_FAILED /\ code = 1).
Proof.
  split.
  - intros results Hs _. unfold FullRaceTest.race_check. rewrite Hs.
    repeat split; reflexivity.
  - intros now world after Hs _. split; [|split; [reflexivity|]].
    + unfold PreciseRaceTest.script. rewrite precise_run_test_returns.
      cbn [snd bind]. fold after. rewrite Hs. reflexivity.
    + intros cb v ca line code. unfold PreciseRaceTest.script.
      destruct (snd (PreciseRaceTest.run_test 20 world cb v ca (PreciseRaceTest.init now)))
        as [[a b]|e|] eqn:E; cbn [bind]; try discriminate.
      apply precise_run_test_value in E. fold after in E. rewrite Hs in E.
      subst b. cbn. intros H. injection H as <- <-. split; reflexivity.
Qed.

Lemma no_success_no_conflict_is_a_failure_witness :
  (FullRaceTest.success_count (FullRaceTest.tally Run.fifty_timeouts) = 0
   /\ FullRaceTest.error_count (FullRaceTest.tally Run.fifty_timeouts) = 0)
  /\ FullRaceTest.race_check Run.fifty_timeouts
     = (FullRaceTest.FAIL_no_successful_resets, false).
Proof.
  split; [split; reflexivity|].
  apply (proj1 no_success_no_conflict_is_a_failure Run.fifty_timeouts);
    reflexivity.
Defined.

(* ================================================================== *)
(** * One success, two rows                                            *)
(* ================================================================== *)

(** C4, as stated, fails.  When one creation succeeded and the closing
    search counts two tenants, race_test_tenant.py prints the warning it prints for every case left
    over, not a failure of its own. *)
Lemma one_success_two_rows_is_a_warning :
  RaceTestTenant.security_assessment 1 19 (JNum 2)
  = RaceTestTenant.ABNORMAL 1 (JNum 2)
  /\ Spec.of_mark (RaceTestTenant.mark_of
                     (RaceTestTenant.security_assessment 1 19 (JNum 2)))
     <> Spec.Fail
  /\ RaceTestTenant.security_assessment 0 0 (JNum 0)
     = RaceTestTenant.ABNORMAL 0 (JNum 0).
Proof. repeat split. vm_compute. discriminate. Qed.

(** C4, amended.  With a success count of 1 and a ground-truth count of 2,
    the assessment of race_test_tenant.py is neither the "safe" line nor
    the race-condition line: it is the catch-all warning "abnormal
    situation", which prints both counts. *)
Theorem one_success_two_rows_is_abnormal (conflict_count : Z) :
  let a := RaceTestTenant.security_assessment 1 conflict_count (JNum 2) in
  a = RaceTestTenant.ABNORMAL 1 (JNum 2)
  /\ RaceTestTenant.mark_of a = RaceTestTenant.WarningSign
  /\ a <> RaceTestTenant.SAFE
  /\ (forall (n : Z) (final : json), a <> RaceTestTenant.RACE_VULNERABILITY n final)
  /\ Spec.of_mark (RaceTestTenant.mark_of a) = Spec.Inconclusive.
Proof.
  cbv zeta. unfold RaceTestTenant.security_assessment. cbn.
  repeat split; intros; discriminate.
Qed.

(* ================================================================== *)
(** * Every outcome is counted once                                    *)
(* ================================================================== *)

Lemma record_response_first_match (response : Response)
    (self : PreciseRaceTest.RaceTest) :
  PreciseRaceTest.record_response response self
  = Spec.bump (Spec.first_match Spec.precise_rules Spec.Other response) self.
Proof.
  unfold PreciseRaceTest.record_response, Spec.precise_rules.
  cbn [Spec.first_match].
  destruct (status_code response =? 201); [reflexivity|].
  destruct (status_code response =? 409); [reflexivity|].
  destruct ((status_code response =? 500) && contains "1062" (text response));
    reflexivity.
Qed.

Lemma precise_create_tenant_bump (suffix : Z) (w : http_reply)
    (self : PreciseRaceTest.RaceTest) :
  PreciseRaceTest.create_tenant suffix w self
  = (Spec.bump (category_of w) self, Ret (settled w)).
Proof.
  destruct w as [s t|s t e|m|m|m]; try reflexivity;
    unfold PreciseRaceTest.create_tenant; cbn [requests_send];
    rewrite record_response_first_match; reflexivity.
Qed.

Lemma total_bump (c : Spec.category) (self : PreciseRaceTest.RaceTest) :
  Spec.total (Spec.bump c self) = Spec.total self + 1.
Proof. destruct c; unfold Spec.total; cbn; lia. Qed.

Lemma bump_inj (c d : Spec.category) (self : PreciseRaceTest.RaceTest) :
  Spec.bump c self = Spec.bump d self -> c = d.
Proof.
  destruct c, d; try reflexivity; intros H;
    (apply (f_equal PreciseRaceTest.success_count) in H; cbn in H; lia)
    || (apply (f_equal PreciseRaceTest.conflict_count) in H; cbn in H; lia)
    || (apply (f_equal PreciseRaceTest.db_error_count) in H; cbn in H; lia).
Qed.

Lemma precise_dispatch_total (requests : list Z) (world : Z -> http_reply)
    (self : PreciseRaceTest.RaceTest) :
  Spec.total (PreciseRaceTest.dispatch requests world self)
  = Spec.total self + len requests.
Proof.
  unfold PreciseRaceTest.dispatch, len. revert self.
  induction requests as [|i requests IH]; intros self; cbn [fold_left List.length].
  - lia.
  - rewrite IH, precise_create_tenant_bump. cbn [fst].
    rewrite total_bump, Nat2Z.inj_succ. lia.
Qed.

Lemma bump_comm (c d : Spec.category) (self : PreciseRaceTest.RaceTest) :
  Spec.bump c (Spec.bump d self) = Spec.bump d (Spec.bump c self).
Proof. destruct c, d; reflexivity. Qed.

(** The counters do not depend on the order in which the workers take the
    lock. *)
Lemma precise_dispatch_Permutation (requests requests' : list Z)
    (world : Z -> http_reply) (self : PreciseRaceTest.RaceTest) :
  Permutation requests requests' ->
  PreciseRaceTest.dispatch requests world self
  = PreciseRaceTest.dispatch requests' world self.
Proof.
  unfold PreciseRaceTest.dispatch. intros P. revert self.
  induction P as [|i l l' _ IH|i j l|l l' l'' _ IH1 _ IH2]; intros self;
    cbn [fold_left].
  - reflexivity.
  - apply IH.
  - rewrite !precise_create_tenant_bump. cbn [fst]. rewrite bump_comm. reflexivity.
  - rewrite IH1. apply IH2.
Qed.

(** Nor does the race check of tenant_race_test.py depend on the order in
    which the futures complete. *)
Lemma tenant_race_check_Permutation (results results' : list (Z * string)) :
  Permutation results results' ->
  TenantRaceTest.race_check results = TenantRaceTest.race_check results'.
Proof.
  intros P. unfold TenantRaceTest.race_check.
  rewrite (sum1_Permutation (fun r : Z * string => fst r =? 201) _ _ P).
  rewrite (sum1_Permutation (fun r : Z * string => fst r =? 409) _ _ P).
  reflexivity.
Qed.

Lemma tenant_create_tenant_outcome (json_loads : string -> option json)
    (json_error : string -> string)
    (session : ClientSession) (token : string) (slug_suffix request_id : Z)
    (target : TenantData -> http_reply) :
  total_timeout session <> None ->
  RaceTestTenant.create_tenant json_loads json_error session token slug_suffix request_id target
  = Ret (tenant_outcome json_loads json_error request_id
           (target (RaceTestTenant.create_tenant_data slug_suffix))).
Proof.
  intros Hd. unfold RaceTestTenant.create_tenant, tenant_outcome.
  destruct (target (RaceTestTenant.create_tenant_data slug_suffix)) as [s t|s t e|m|m|m];
    cbn [session_send bind try_except]; try reflexivity.
  - unfold resp_json. cbn [content_error body status].
    destruct (read_json json_loads t); reflexivity.
  - destruct (total_timeout session); [reflexivity|congruence].
Qed.

Lemma tenant_outcome_exclusive (json_loads : string -> option json)
    (json_error : string -> string)
    (request_id : Z) (w : http_reply) :
  RaceTestTenant.success (tenant_outcome json_loads json_error request_id w) = true ->
  (RaceTestTenant.status (tenant_outcome json_loads json_error request_id w) =? 409) = false.
Proof.
  destruct w as [s t|s t e|m|m|m]; cbn [tenant_outcome]; try discriminate.
  destruct (read_json json_loads t); cbn; try discriminate.
  intros H. apply Z.eqb_eq in H. subst s. reflexivity.
Qed.

(** C1, as stated, fails.  In precise_race_test.py a refused connection, a
    hung call and an unexpected status 503 all raise the same counter, [other_count]: the
    failures of the transport have no category of their own. *)
Lemma failures_share_the_other_counter :
  failure_of (Refused "Connection refused") = true
  /\ failure_of Run.stalled = true
  /\ failure_of (Answer 503 "Service Unavailable") = false
  /\ fst (PreciseRaceTest.create_tenant 1 (Refused "Connection refused")
            (PreciseRaceTest.init 0))
     = fst (PreciseRaceTest.create_tenant 1 (Answer 503 "Service Unavailable")
              (PreciseRaceTest.init 0))
  /\ fst (PreciseRaceTest.create_tenant 1 Run.stalled (PreciseRaceTest.init 0))
     = fst (PreciseRaceTest.create_tenant 1 (Answer 503 "Service Unavailable")
              (PreciseRaceTest.init 0))
  /\ PreciseRaceTest.other_count
       (fst (PreciseRaceTest.create_tenant 1 Run.stalled (PreciseRaceTest.init 0))) = 1.
Proof. repeat split. Qed.

(** C1, amended.  Every invocation of precise_race_test.py returns and
    raises exactly one of the four counters by one, so that after N
    invocations the counters sum to N; the twenty invocations of
    race_test_tenant.py return twenty outcomes, which the three counts
    success, conflict and other split.  A timeout or a transport exception
    is never dropped: it is counted under "other", together with the
    statuses that no test matches. *)
Theorem outcomes_are_counted_once :
  (forall (suffix : Z) (w : http_reply) (self : PreciseRaceTest.RaceTest),
      Spec.one_counter_up self (fst (PreciseRaceTest.create_tenant suffix w self))
      /\ returns (snd (PreciseRaceTest.create_tenant suffix w self)) = true
      /\ (failure_of w = true ->
          fst (PreciseRaceTest.create_tenant suffix w self)
          = PreciseRaceTest.incr_other self))
  /\ (forall (requests : list Z) (world : Z -> http_reply)
             (self : PreciseRaceTest.RaceTest),
      Spec.total (PreciseRaceTest.dispatch requests world self)
      = Spec.total self + len requests)
  /\ (forall (n : nat) (world : Z -> http_reply) (now : Z),
      Spec.total (PreciseRaceTest.dispatch (range n) world (PreciseRaceTest.init now))
      = Z.of_nat n)
  /\ (forall (json_loads : string -> option json)
             (json_error : string -> string) (token : string)
             (world : Z -> TenantData -> http_reply),
      exists results : list RaceTestTenant.Outcome,
        gather (map (fun i => RaceTestTenant.create_tenant json_loads json_error
                                default_session token (i + 1) (i + 1) (world i))
                    (range 20)) = Ret results
        /\ len results = 20
        /\ let success_count := sum1 RaceTestTenant.success results in
           let conflict_count := sum1 (fun r => RaceTestTenant.status r =? 409) results in
           let other_failure := len results - success_count - conflict_count in
           success_count + conflict_count + other_failure = 20
           /\ 0 <= success_count /\ 0 <= conflict_count
           /\ other_failure
              = sum1 (fun r => negb (RaceTestTenant.success r)
                               && negb (RaceTestTenant.status r =? 409)) results)
  /\ (forall (json_loads : string -> option json)
             (json_error : string -> string) (token : string)
             (slug_suffix request_id : Z) (target : TenantData -> http_reply),
      failure_of (target (RaceTestTenant.create_tenant_data slug_suffix)) = true ->
      exists msg,
        RaceTestTenant.create_tenant json_loads json_error default_session token
          slug_suffix request_id target
        = Ret (failed_outcome request_id msg)).
Proof.
  split; [|split; [|split; [|split]]].
  - intros suffix w self. rewrite precise_create_tenant_bump. cbn [fst snd].
    split.
    { exists (category_of w). split; [reflexivity|].
      intros d H. symmetry. exact (bump_inj _ _ _ H). }
    split; [reflexivity|].
    destruct w; cbn; intros H; try reflexivity; discriminate.
  - apply precise_dispatch_total.
  - intros n world now. rewrite precise_dispatch_total, len_range.
    unfold Spec.total. cbn. lia.
  - intros json_loads json_error token world.
    exists (map (fun i => tenant_outcome json_loads json_error (i + 1)
                            (world i (RaceTestTenant.create_tenant_data (i + 1))))
                (range 20)).
    split.
    { apply gather_all_return. intros i.
      apply tenant_create_tenant_outcome. discriminate. }
    split; [reflexivity|].
    cbv zeta. rewrite len_map, !sum1_map.
    pose proof (sum1_nonneg
      (fun i => RaceTestTenant.success
                  (tenant_outcome json_loads json_error (i + 1)
                     (world i (RaceTestTenant.create_tenant_data (i + 1)))))
      (range 20)) as Hs.
    pose proof (sum1_nonneg
      (fun i => RaceTestTenant.status
                  (tenant_outcome json_loads json_error (i + 1)
                     (world i (RaceTestTenant.create_tenant_data (i + 1)))) =? 409)
      (range 20)) as Hc.
    split; [rewrite len_range; lia|].
    split; [exact Hs|]. split; [exact Hc|].
    apply (sum1_split
             (fun i => RaceTestTenant.success
                  (tenant_outcome json_loads json_error (i + 1)
                     (world i (RaceTestTenant.create_tenant_data (i + 1)))))
             (fun i => RaceTestTenant.status
                  (tenant_outcome json_loads json_error (i + 1)
                     (world i (RaceTestTenant.create_tenant_data (i + 1)))) =? 409)).
    intros i. apply tenant_outcome_exclusive.
  - intros json_loads json_error token slug_suffix request_id target Hf.
    rewrite tenant_create_tenant_outcome by discriminate.
    destruct (target (RaceTestTenant.create_tenant_data slug_suffix)) as [s t|s t e|m|m|m];
      try discriminate Hf; cbn [tenant_outcome]; eexists; reflexivity.
Qed.

Lemma outcomes_are_counted_once_witness :
  failure_of Run.stalled = true
  /\ fst (PreciseRaceTest.create_tenant 3 Run.stalled (PreciseRaceTest.init 0))
     = PreciseRaceTest.incr_other (PreciseRaceTest.init 0).
Proof.
  split; [reflexivity|].
  apply (proj1 outcomes_are_counted_once 3 Run.stalled (PreciseRaceTest.init 0)).
  reflexivity.
Defined.

(* ================================================================== *)
(** * Classification                                                   *)
(* ================================================================== *)

Section ResetRules.

Import Spec.

Lemma reset_rules_success (r : Z * string) :
  is_category Success (first_match reset_rules Other r) = (fst r =? 200).
Proof.
  unfold reset_rules. cbn [first_match].
  destruct (fst r =? 200); [reflexivity|].
  destruct ((fst r =? 400) || (fst r =? 404)); reflexivity.
Qed.

Lemma reset_rules_conflict (r : Z * string) :
  is_category Conflict (first_match reset_rules Other r)
  = ((fst r =? 400) || (fst r =? 404)).
Proof.
  unfold reset_rules. cbn [first_match].
  destruct (Z.eqb_spec (fst r) 200) as [E|_].
  - rewrite E. reflexivity.
  - destruct ((fst r =? 400) || (fst r =? 404)); reflexivity.
Qed.

Lemma reset_rules_other (r : Z * string) :
  is_category Other (first_match reset_rules Other r)
  = negb (fst r =? 200) && negb ((fst r =? 400) || (fst r =? 404)).
Proof.
  unfold reset_rules. cbn [first_match].
  destruct (fst r =? 200); [reflexivity|].
  destruct ((fst r =? 400) || (fst r =? 404)); reflexivity.
Qed.

Lemma reset_tests_exclusive (r : Z * string) :
  (fst r =? 200) = true -> ((fst r =? 400) || (fst r =? 404)) = false.
Proof. intros H. apply Z.eqb_eq in H. rewrite H. reflexivity. Qed.

(** The three counters of the reset scripts are the tallies of
    [reset_rules]. *)
Lemma reset_counters (results : list (Z * string)) :
  sum1 (fun r => fst r =? 200) results = tally_of reset_rules Success results
  /\ sum1 (fun r => (fst r =? 400) || (fst r =? 404)) results
     = tally_of reset_rules Conflict results
  /\ len results - sum1 (fun r => fst r =? 200) results
     - sum1 (fun r => (fst r =? 400) || (fst r =? 404)) results
     = tally_of reset_rules Other results.
Proof.
  unfold tally_of. split; [|split].
  - apply sum1_ext. intros r. symmetry. apply reset_rules_success.
  - apply sum1_ext. intros r. symmetry. apply reset_rules_conflict.
  - rewrite sum1_split by apply reset_tests_exclusive.
    apply sum1_ext. intros r. symmetry. apply reset_rules_other.
Qed.

Lemma unmatched_default {O V : Type} (rules : list ((O -> bool) * V))
    (default : V) (o : O) :
  unmatched rules o = true -> first_match rules default o = default.
Proof.
  unfold unmatched. induction rules as [|[p v] rules IH]; cbn [forallb first_match fst].
  - reflexivity.
  - intros H. apply andb_true_iff in H as [Hp Hr].
    apply negb_true_iff in Hp. rewrite Hp. apply IH, Hr.
Qed.

(** Order matters: a rule is reached only when every rule above it has
    failed. *)
Lemma first_match_reaches {O V : Type} (above below : list ((O -> bool) * V))
    (p : O -> bool) (v default : V) (o : O) :
  unmatched above o = true -> p o = true ->
  first_match (above ++ (p, v) :: below) default o = v.
Proof.
  unfold unmatched. induction above as [|[q u] above IH];
    cbn [forallb first_match fst app]; intros Ha Hp.
  - rewrite Hp. reflexivity.
  - apply andb_true_iff in Ha as [Hq Ha].
    apply negb_true_iff in Hq. rewrite Hq. apply IH; assumption.
Qed.

End ResetRules.

(** C7.  The scripts classify by an ordered chain of tests in which the
    first test that holds decides: the chain of precise_race_test.py is
    [first_match] over its three rules, and the counters of
    full_race_test.py and race_test_simple.py are the tallies of
    [first_match] over the two reset rules.  An outcome that no rule
    matches is counted under "other", never as a success or a conflict. *)
Theorem classification_is_first_match :
  (forall (response : Response) (self : PreciseRaceTest.RaceTest),
      PreciseRaceTest.record_response response self
      = Spec.bump (Spec.first_match Spec.precise_rules Spec.Other response) self)
  /\ (forall results : list (Z * string),
      FullRaceTest.success_count (FullRaceTest.tally results)
      = Spec.tally_of Spec.reset_rules Spec.Success results
      /\ FullRaceTest.error_count (FullRaceTest.tally results)
         = Spec.tally_of Spec.reset_rules Spec.Conflict results
      /\ FullRaceTest.other_count (FullRaceTest.tally results)
         = Spec.tally_of Spec.reset_rules Spec.Other results)
  /\ (forall results : list (Z * string),
      RaceTestSimple.success_count (RaceTestSimple.tally results)
      = Spec.tally_of Spec.reset_rules Spec.Success results
      /\ RaceTestSimple.error_count (RaceTestSimple.tally results)
         = Spec.tally_of Spec.reset_rules Spec.Conflict results
      /\ RaceTestSimple.other_count (RaceTestSimple.tally results)
         = Spec.tally_of Spec.reset_rules Spec.Other results)
  /\ (forall (response : Response) (self : PreciseRaceTest.RaceTest),
      Spec.unmatched Spec.precise_rules response = true ->
      PreciseRaceTest.record_response response self = PreciseRaceTest.incr_other self
      /\ PreciseRaceTest.success_count (PreciseRaceTest.record_response response self)
         = PreciseRaceTest.success_count self
      /\ PreciseRaceTest.conflict_count (PreciseRaceTest.record_response response self)
         = PreciseRaceTest.conflict_count self)
  /\ (forall r : Z * string,
      Spec.unmatched Spec.reset_rules r = true ->
      Spec.first_match Spec.reset_rules Spec.Other r = Spec.Other).
Proof.
  split; [exact record_response_first_match|].
  split; [intros results; exact (reset_counters results)|].
  split; [intros results; exact (reset_counters results)|].
  split.
  - intros response self H. rewrite record_response_first_match.
    rewrite (unmatched_default _ _ _ H). repeat split.
  - intros r H. apply unmatched_default, H.
Qed.

Lemma classification_is_first_match_witness :
  Spec.unmatched Spec.precise_rules
    {| status_code := 500; text := "Internal Server Error" |} = true
  /\ PreciseRaceTest.record_response
       {| status_code := 500; text := "Internal Server Error" |}
       (PreciseRaceTest.init 0)
     = PreciseRaceTest.incr_other (PreciseRaceTest.init 0).
Proof.
  split; [reflexivity|].
  apply (proj1 (proj2 (proj2 (proj2 classification_is_first_match)))
               {| status_code := 500; text := "Internal Server Error" |}
               (PreciseRaceTest.init 0)).
  reflexivity.
Defined.

(* ================================================================== *)
(** * Failures of the transport                                        *)
(* ================================================================== *)

(** Every invoker but [reset] of race_test.py catches: whatever the reply,
    it returns an outcome. *)
Lemma catching_invokers_return (w : http_reply) :
  (forall token suffix, returns (TenantRaceTest.create_tenant token suffix w) = true)
  /\ (forall i, returns (RaceTestSimple.reset_password i w) = true)
  /\ (forall token suffix, returns (FullRaceTest.reset_password token suffix w) = true)
  /\ (forall suffix self, returns (snd (PreciseRaceTest.create_tenant suffix w self)) = true)
  /\ (forall json_loads json_error token slug_suffix request_id,
         returns (RaceTestTenant.create_tenant json_loads json_error default_session token
                    slug_suffix request_id (fun _ => w)) = true).
Proof.
  repeat split; intros.
  - rewrite tenant_create_tenant_settled. reflexivity.
  - rewrite simple_reset_password_settled. reflexivity.
  - rewrite full_reset_password_settled. reflexivity.
  - rewrite precise_create_tenant_bump. reflexivity.
  - rewrite tenant_create_tenant_outcome by discriminate. reflexivity.
Qed.

(** A failure of the transport is settled under the key 0. *)
Lemma failure_key (w : http_reply) : failure_of w = true -> fst (settled w) = 0.
Proof. destruct w; cbn; intros H; try reflexivity; discriminate. Qed.

(** C5.  [reset] of race_test.py has no handler: when the connection is
    refused, the exception leaves the invoker, [main] ends on it without
    any outcome, and the interpreter exits with status 1. *)
Theorem reset_raises_on_a_refused_connection :
  RaceTest.reset default_session 0 (Refused "Connection refused")
  = Raise (ConnectionError "Connection refused")
  /\ RaceTest.main Run.down = Raise (ConnectionError "Connection refused")
  /\ RaceTest.script Run.down = Some 1.
Proof. repeat split. Qed.

(** What the invokers built on [requests] return for a reply. *)
Lemma requests_invokers_settle (w : http_reply) :
  (forall token suffix, TenantRaceTest.create_tenant token suffix w = Ret (settled w))
  /\ (forall i, RaceTestSimple.reset_password i w = Ret (settled w))
  /\ (forall token suffix,
        FullRaceTest.reset_password token suffix w = Ret (settled w))
  /\ (forall suffix self,
        snd (PreciseRaceTest.create_tenant suffix w self) = Ret (settled w)).
Proof.
  repeat split; intros.
  - apply tenant_create_tenant_settled.
  - apply simple_reset_password_settled.
  - apply full_reset_password_settled.
  - rewrite precise_create_tenant_bump. reflexivity.
Qed.

(** C6, as stated, fails.  [create_tenant] of race_test_tenant.py, on the
    session that [main] builds, gives a call that hangs the outcome of its
    one handler: status 0 and success False, exactly as for a refused
    connection.  No status tells the timeouts from the other failures, and
    the same holds of [create_tenant] of tenant_race_test.py, whose key for
    a call that hangs is the 0 of a refused connection. *)
Lemma hung_call_has_no_key_of_its_own :
  RaceTestTenant.create_tenant Run.loads Run.complaint default_session "token" 1 1
    (fun _ => Hang "")
  = Ret (failed_outcome 1 "")
  /\ RaceTestTenant.create_tenant Run.loads Run.complaint default_session "token" 1 1
       (fun _ => Refused "Connection refused")
     = Ret (failed_outcome 1 "Connection refused")
  /\ RaceTestTenant.status (failed_outcome 1 "")
     = RaceTestTenant.status (failed_outcome 1 "Connection refused")
  /\ ~ (exists timeout_key : Z,
          forall (w : http_reply) (o : RaceTestTenant.Outcome),
            RaceTestTenant.create_tenant Run.loads Run.complaint default_session
              "token" 1 1 (fun _ => w) = Ret o ->
            (RaceTestTenant.status o = timeout_key <-> exists m, w = Hang m))
  /\ (exists text text',
        TenantRaceTest.create_tenant "token" 1 Run.stalled = Ret (0, text)
        /\ TenantRaceTest.create_tenant "token" 1 (Refused "Connection refused")
           = Ret (0, text')).
Proof.
  split; [reflexivity|]. split; [reflexivity|]. split; [reflexivity|].
  split.
  - intros [key H].
    assert (K : 0 = key).
    { apply (H (Hang "") (failed_outcome 1 "")); [reflexivity|].
      exists ""%string. reflexivity. }
    destruct (proj1 (H (Refused "Connection refused")
                       (failed_outcome 1 "Connection refused") eq_refl) K)
      as [m Hm].
    discriminate Hm.
  - eexists. eexists. split; reflexivity.
Qed.

(** C6, amended.  [exchange_token] of grpc_race_test.py passes its own
    deadline, and a call that hangs resolves to the outcome
    ("timeout", 10, "Timeout").  The invokers built on [requests] pass
    their own deadline too: a call that hangs comes back as an outcome,
    whose key is 0 and whose text is that of the exception, like the
    outcome of a refused connection and of any other failure of the
    transport; precise_race_test.py counts it under "other".
    [create_tenant] of race_test_tenant.py, on the session that [main]
    builds, turns a call that hangs into the outcome of its exceptional
    path, status 0 and success False. *)
Theorem hung_call_outcomes :
  (forall (json_loads : string -> option json) (token tenant_id : string)
          (request_id : Z),
      GrpcRaceTest.exchange_token json_loads token tenant_id request_id NeverExits
      = Ret ("timeout"%string, 10%Q, "Timeout"%string))
  /\ (forall (msg : string),
      (forall (token : string) (suffix : Z),
          TenantRaceTest.create_tenant token suffix (Hang msg) = Ret (0, msg))
      /\ (forall i : Z, RaceTestSimple.reset_password i (Hang msg) = Ret (0, msg))
      /\ (forall token suffix : string,
            FullRaceTest.reset_password token suffix (Hang msg) = Ret (0, msg))
      /\ (forall (suffix : Z) (self : PreciseRaceTest.RaceTest),
            PreciseRaceTest.create_tenant suffix (Hang msg) self
            = (PreciseRaceTest.incr_other self, Ret (0, msg))))
  /\ (forall (w : http_reply) (token : string) (suffix : Z),
      failure_of w = true ->
      exists text, TenantRaceTest.create_tenant token suffix w = Ret (0, text))
  /\ (forall (w : http_reply) (i : Z) (token suffix : string),
      failure_of w = true ->
      exists text,
        RaceTestSimple.reset_password i w = Ret (0, text)
        /\ FullRaceTest.reset_password token suffix w = Ret (0, text))
  /\ (forall (json_loads : string -> option json) (json_error : string -> string)
             (token : string) (slug_suffix request_id : Z) (msg : string),
      RaceTestTenant.create_tenant json_loads json_error default_session token
        slug_suffix request_id (fun _ => Hang msg)
      = Ret (failed_outcome request_id msg)).
Proof.
  split; [reflexivity|]. split; [|split; [|split]].
  - intros msg. destruct (requests_invokers_settle (Hang msg)) as [A [B [C D]]].
    split; [exact A|]. split; [exact B|]. split; [exact C|].
    intros suffix self. rewrite precise_create_tenant_bump. reflexivity.
  - intros w token suffix Hf. exists (snd (settled w)).
    rewrite (proj1 (requests_invokers_settle w)).
    pose proof (failure_key w Hf) as K. destruct (settled w) as [k text].
    cbn [fst snd] in *. subst k. reflexivity.
  - intros w i token suffix Hf. exists (snd (settled w)).
    destruct (requests_invokers_settle w) as [_ [B [C _]]].
    rewrite B, C.
    pose proof (failure_key w Hf) as K. destruct (settled w) as [k text].
    cbn [fst snd] in *. subst k. split; reflexivity.
  - intros json_loads json_error token slug_suffix request_id msg.
    rewrite tenant_create_tenant_outcome by discriminate. reflexivity.
Qed.

(* ================================================================== *)
(** * The contended slug                                               *)
(* ================================================================== *)

(** Whatever [main] of race_test_tenant.py is given, a run that reaches its
    report has posted twenty bodies with the literal slug, and has searched
    last for the slug it announced. *)
Lemma tenant_main_report (json_loads : string -> option json)
    (json_error : string -> string) (token : string)
    (probe : string -> http_reply) (world : Z -> TenantData -> http_reply)
    (probe' : string -> http_reply) (r : RaceTestTenant.report) :
  RaceTestTenant.main json_loads json_error token probe world probe' = Ret (Some r) ->
  RaceTestTenant.posted r
  = map (fun i => RaceTestTenant.create_tenant_data (i + 1)) (range 20)
  /\ RaceTestTenant.verified_slug r = RaceTestTenant.test_slug r
  /\ exists (existing_count : json) (dirty : bool),
       RaceTestTenant.check_tenant_count json_loads json_error default_session
         "race-test-slug" probe = Ret existing_count
       /\ gt existing_count 0 = Ret dirty
       /\ RaceTestTenant.test_slug r
          = (if dirty then "race-test-slug-new" else "race-test-slug")%string.
Proof.
  unfold RaceTestTenant.main.
  destruct (String.eqb token ""); [discriminate|].
  destruct (RaceTestTenant.check_tenant_count json_loads json_error default_session
              "race-test-slug" probe) as [existing|e|] eqn:E1;
    cbn [bind]; try discriminate.
  destruct (gt existing 0) as [dirty|e|] eqn:E2; cbn [bind]; try discriminate.
  destruct (gather _) as [results|e|]; cbn [bind]; try discriminate.
  destruct (RaceTestTenant.for_each _ _) as [[]|e|]; cbn [bind]; try discriminate.
  destruct (RaceTestTenant.check_tenant_count json_loads json_error default_session
              (if dirty then "race-test-slug-new" else "race-test-slug")%string
              probe') as [final|e|]; cbn [bind]; try discriminate.
  intros H. injection H as <-. cbn.
  split; [reflexivity|]. split; [reflexivity|].
  exists existing, dirty. repeat split. exact E2.
Qed.

Lemma tenant_posted_slug (json_loads : string -> option json)
    (json_error : string -> string) (token : string)
    (probe : string -> http_reply) (world : Z -> TenantData -> http_reply)
    (probe' : string -> http_reply) (r : RaceTestTenant.report) (d : TenantData) :
  RaceTestTenant.main json_loads json_error token probe world probe' = Ret (Some r) ->
  In d (RaceTestTenant.posted r) -> data_slug d = "race-test-slug"%string.
Proof.
  intros H Hin. apply tenant_main_report in H as [Hp _].
  rewrite Hp in Hin. apply in_map_iff in Hin as [i [<- _]]. reflexivity.
Qed.

(** tenant_race_test.py deletes the first tenant it finds and goes on to
    the burst whatever the status of the DELETE. *)
Lemma tenant_race_test_ignores_the_delete_status
    (data_of : string -> result (list TenantRaceTest.tenant))
    (body : string) (first : TenantRaceTest.tenant)
    (rest : list TenantRaceTest.tenant) (s : Z) (t : string) :
  data_of body = Ret (first :: rest) ->
  TenantRaceTest.clean_up_existing data_of (Answer 200 body) (Answer s t)
  = Ret [TenantRaceTest.GET_search "race-test-slug";
         TenantRaceTest.DELETE_tenant (TenantRaceTest.tenant_id first)].
Proof.
  intros H. unfold TenantRaceTest.clean_up_existing.
  cbn [requests_send bind status_code text]. rewrite H. reflexivity.
Qed.

(** C8.  On a target that already holds a tenant with slug
    "race-test-slug", [main] of race_test_tenant.py announces the slug
    "race-test-slug-new", yet each of its twenty requests carries the stale
    slug "race-test-slug"; all twenty are answered 409, and the closing
    search queries "race-test-slug-new", a slug that no request used. *)
Theorem stale_slug_is_the_one_posted :
  exists r : RaceTestTenant.report,
    RaceTestTenant.main Run.loads Run.complaint "admin" Run.stale_search Run.stale_target
      Run.stale_search = Ret (Some r)
    /\ RaceTestTenant.test_slug r = "race-test-slug-new"%string
    /\ RaceTestTenant.verified_slug r = "race-test-slug-new"%string
    /\ len (RaceTestTenant.posted r) = 20
    /\ forallb (fun d => String.eqb (data_slug d) "race-test-slug")
         (RaceTestTenant.posted r) = true
    /\ RaceTestTenant.success_count r = 0
    /\ RaceTestTenant.conflict_count r = 20
    /\ RaceTestTenant.final_count r = JNum 0
    /\ RaceTestTenant.judgment r = RaceTestTenant.ALL_CONFLICT.
Proof.
  eexists. split; [vm_compute; reflexivity|]. repeat split.
Qed.

(* ================================================================== *)
(** * The token-exchange test                                          *)
(* ================================================================== *)

Section Grpc.

Variable json_loads : string -> option json.

Lemma has_key_settles (key : string) (v : json) :
  GrpcRaceTest.has_key key v <> Blocked.
Proof. destruct v; discriminate. Qed.

Lemma token_sample_settles (v : json) : GrpcRaceTest.token_sample v <> Blocked.
Proof.
  destruct v as [| | | | |fields]; try discriminate.
  cbn. destruct (dict_lookup "accessToken" fields) as [[]|]; discriminate.
Qed.

Lemma exchange_token_returns (token tenant_id : string) (request_id : Z)
    (w : proc_reply) :
  exists x, GrpcRaceTest.exchange_token json_loads token tenant_id request_id w
            = Ret x.
Proof.
  unfold GrpcRaceTest.exchange_token.
  destruct w as [rc out err dt|m|]; cbn [subprocess_run bind try_except returncode];
    try (eexists; reflexivity).
  destruct (rc =? 0); cbn [try_except]; [|eexists; reflexivity].
  cbn [stdout]. unfold decode.
  destruct (json_loads out) as [v|]; cbn [bind try_except];
    [|eexists; reflexivity].
  pose proof (has_key_settles "accessToken" v) as Hk.
  destruct (GrpcRaceTest.has_key "accessToken" v) as [[|]|e|];
    cbn [bind try_except]; try (eexists; reflexivity); try congruence.
  pose proof (token_sample_settles v) as Ht.
  destruct (GrpcRaceTest.token_sample v); cbn [bind try_except];
    try (eexists; reflexivity); congruence.
Qed.

Lemma record_exchange_success (request_id : Z) (x : GrpcRaceTest.exchange)
    (self : GrpcRaceTest.GrpcRaceTest) :
  GrpcRaceTest.success_count (GrpcRaceTest.record_exchange request_id x self)
  = GrpcRaceTest.success_count self
    + (if String.eqb (fst (fst x)) "success" then 1 else 0).
Proof.
  destruct x as [[rt dt] details]. unfold GrpcRaceTest.record_exchange. cbn [fst].
  destruct (String.eqb rt "success"); cbn; [lia|].
  destruct (String.eqb rt "error"); cbn; [lia|].
  destruct (String.eqb rt "timeout"); cbn; lia.
Qed.

Lemma run_exchange_success (request_id : Z) (w : proc_reply)
    (self : GrpcRaceTest.GrpcRaceTest) :
  GrpcRaceTest.success_count (fst (GrpcRaceTest.run_exchange json_loads request_id w self))
  = GrpcRaceTest.success_count self + (if succeeds json_loads w then 1 else 0).
Proof.
  unfold GrpcRaceTest.run_exchange, succeeds.
  change (GrpcRaceTest.exchange_token json_loads (GrpcRaceTest.token self)
            (GrpcRaceTest.tenant_id self) request_id w)
    with (GrpcRaceTest.exchange_token json_loads "" "" 0 w).
  destruct (GrpcRaceTest.exchange_token json_loads "" "" 0 w) as [x|e|]; cbn [fst].
  - apply record_exchange_success.
  - lia.
  - lia.
Qed.

Lemma run_exchange_result (request_id : Z) (w : proc_reply)
    (self : GrpcRaceTest.GrpcRaceTest) :
  exists rt, snd (GrpcRaceTest.run_exchange json_loads request_id w self) = Ret rt
             /\ String.eqb rt "success" = succeeds json_loads w.
Proof.
  unfold GrpcRaceTest.run_exchange, succeeds.
  change (GrpcRaceTest.exchange_token json_loads (GrpcRaceTest.token self)
            (GrpcRaceTest.tenant_id self) request_id w)
    with (GrpcRaceTest.exchange_token json_loads "" "" 0 w).
  destruct (exchange_token_returns "" "" 0 w) as [x ->]. cbn [snd].
  exists (fst (fst x)). split; reflexivity.
Qed.

(** The success counter after a burst: what it held before, plus the
    exchanges of the burst that succeeded. *)
Lemma grpc_dispatch_success (requests : list Z) (world : Z -> proc_reply)
    (self : GrpcRaceTest.GrpcRaceTest) :
  GrpcRaceTest.success_count (GrpcRaceTest.dispatch json_loads requests world self)
  = GrpcRaceTest.success_count self
    + sum1 (fun i => succeeds json_loads (world i)) requests.
Proof.
  unfold GrpcRaceTest.dispatch. revert self.
  induction requests as [|i requests IH]; intros self; cbn [fold_left sum1].
  - lia.
  - rewrite IH, run_exchange_success.
    destruct (succeeds json_loads (world i)); lia.
Qed.

(** On a fresh object [run_test] returns True exactly when some exchange of
    the burst succeeded; any number of successes will do. *)
Lemma grpc_run_test_fresh (n : nat) (world : Z -> proc_reply) (tok : string) :
  GrpcRaceTest.judged (snd (GrpcRaceTest.run_test json_loads n world
                              (GrpcRaceTest.init tok)))
  = (0 <? sum1 (fun i => succeeds json_loads (world i)) (range n)).
Proof.
  unfold GrpcRaceTest.run_test. cbn [snd GrpcRaceTest.judged].
  rewrite grpc_dispatch_success. reflexivity.
Qed.

(** In the script the object has already counted the single exchange made
    before the burst: the line "TEST FAILED" cannot be reached. *)
Lemma grpc_script_never_fails (tok : string) (single : proc_reply)
    (world : Z -> proc_reply) :
  GrpcRaceTest.script json_loads tok single world
  <> Ret (GrpcRaceTest.TEST_FAILED, 1).
Proof.
  unfold GrpcRaceTest.script.
  pose proof (run_exchange_success 0 single (GrpcRaceTest.init tok)) as Hc.
  destruct (run_exchange_result 0 single (GrpcRaceTest.init tok))
    as [rt [Hr Hs]].
  destruct (GrpcRaceTest.run_exchange json_loads 0 single
              (GrpcRaceTest.init tok)) as [test r].
  cbn [fst snd] in Hc, Hr. subst r. cbn [bind].
  destruct (String.eqb rt "success"); [|discriminate].
  rewrite <- Hs in Hc.
  unfold GrpcRaceTest.run_test. cbn [GrpcRaceTest.judged].
  rewrite grpc_dispatch_success, Hc.
  pose proof (sum1_nonneg (fun i => succeeds json_loads (world i)) (range 50)) as Hn.
  destruct (Z.ltb_spec 0 (GrpcRaceTest.success_count (GrpcRaceTest.init tok)
                          + 1 + sum1 (fun i => succeeds json_loads (world i)) (range 50)))
    as [_|L]; [discriminate|].
  change (GrpcRaceTest.success_count (GrpcRaceTest.init tok)) with 0 in L. lia.
Qed.

End Grpc.

(** C10.  The script of grpc_race_test.py at a run in which the single
    exchange made first succeeds and none of the fifty concurrent exchanges
    does: the burst adds no success, the total printed is 51, and the
    script still ends on "TEST COMPLETED" with exit status 0. *)
Theorem grpc_script_passes_without_a_concurrent_success :
  GrpcRaceTest.script Run.loads "admin" Run.first_exchange Run.unavailable
  = Ret (GrpcRaceTest.TEST_COMPLETED, 0)
  /\ sum1 (fun i => succeeds Run.loads (Run.unavailable i)) (range 50) = 0
  /\ GrpcRaceTest.judged
       (snd (GrpcRaceTest.run_test Run.loads 50 Run.unavailable
               (GrpcRaceTest.init "admin"))) = false
  /\ GrpcRaceTest.printed_total
       (snd (GrpcRaceTest.run_test Run.loads 50 Run.unavailable
               (fst (GrpcRaceTest.run_exchange Run.loads 0 Run.first_exchange
                       (GrpcRaceTest.init "admin"))))) = 51.
Proof. repeat split; vm_compute; reflexivity. Qed.

(* ================================================================== *)
(** * Strings: parts, padding, hexadecimal                             *)
(* ================================================================== *)

Lemma length_times (c : ascii) (n : nat) : String.length (Str.times c n) = n.
Proof. induction n as [|n IH]; cbn; [reflexivity|]. rewrite IH. reflexivity. Qed.

Lemma length_append (a b : string) :
  String.length (a ++ b) = (String.length a + String.length b)%nat.
Proof. induction a as [|c a IH]; cbn; [reflexivity|]. rewrite IH. reflexivity. Qed.

Lemma append_empty_r (a : string) : (a ++ "")%string = a.
Proof. induction a as [|c a IH]; cbn; [reflexivity|]. rewrite IH. reflexivity. Qed.

Lemma append_assoc (a b c : string) : ((a ++ b) ++ c)%string = (a ++ (b ++ c))%string.
Proof. induction a as [|x a IH]; cbn; [reflexivity|]. rewrite IH. reflexivity. Qed.

Lemma split_not_nil (sep : ascii) (s : string) : Str.split sep s <> [].
Proof.
  destruct s as [|c s]; cbn; [discriminate|].
  destruct (Ascii.eqb c sep); [discriminate|].
  destruct (Str.split sep s); discriminate.
Qed.

(** Joining the parts of a split gives the string back. *)
Lemma join_split (sep : ascii) (s : string) : Str.join sep (Str.split sep s) = s.
Proof.
  induction s as [|c s IH]; cbn [Str.split]; [reflexivity|].
  destruct (Ascii.eqb_spec c sep) as [->|Hc].
  - pose proof (split_not_nil sep s) as Hn.
    destruct (Str.split sep s) as [|p ps]; [contradiction|].
    cbn [Str.join] in *. cbn. rewrite IH. reflexivity.
  - pose proof (split_not_nil sep s) as Hn.
    destruct (Str.split sep s) as [|p ps]; [contradiction|].
    destruct ps as [|q qs]; cbn [Str.join] in *; cbn; rewrite IH; reflexivity.
Qed.

(** No part of a split holds the separator. *)
Lemma split_parts_free (sep : ascii) (s : string) :
  Forall (fun part => Str.has sep part = false) (Str.split sep s).
Proof.
  induction s as [|c s IH]; cbn [Str.split].
  - constructor; [reflexivity|constructor].
  - destruct (Ascii.eqb_spec c sep) as [->|Hc].
    + constructor; [reflexivity|exact IH].
    + pose proof (split_not_nil sep s) as Hn.
      destruct (Str.split sep s) as [|p ps]; [contradiction|].
      inversion IH as [|? ? Hp Hps]; subst.
      constructor; [|exact Hps].
      cbn. rewrite Hp. destruct (Ascii.eqb_spec c sep); [contradiction|reflexivity].
Qed.

Lemma split_free (sep : ascii) (s : string) :
  Str.has sep s = false -> Str.split sep s = [s].
Proof.
  induction s as [|c s IH]; cbn; [reflexivity|].
  destruct (Ascii.eqb c sep); cbn; [discriminate|].
  intros H. rewrite (IH H). reflexivity.
Qed.

Lemma split_append (sep : ascii) (a b : string) :
  Str.has sep a = false ->
  Str.split sep (a ++ String sep b) = a :: Str.split sep b.
Proof.
  induction a as [|c a IH]; cbn.
  - intros _. rewrite Ascii.eqb_refl. reflexivity.
  - destruct (Ascii.eqb c sep); cbn; [discriminate|].
    intros H. rewrite (IH H). reflexivity.
Qed.

Lemma substring_prefix (n : nat) (s : string) :
  (n <= String.length s)%nat ->
  exists rest, s = (substring 0 n s ++ rest)%string
               /\ String.length (substring 0 n s) = n
               /\ String.length rest = (String.length s - n)%nat.
Proof.
  revert s. induction n as [|n IH]; intros s Hn.
  - exists s. destruct s; cbn; repeat split; lia.
  - destruct s as [|c s]; cbn in Hn; [lia|].
    destruct (IH s) as [rest [E [L R]]]; [lia|].
    exists rest. cbn. rewrite <- E, L. repeat split; lia.
Qed.

(** X1.  The value "nonce:ciphertext" of test_ciphertext_tampering.py:
    the unpacking of [split(':')] succeeds with the parts [a] and [b]
    exactly when the value is [a], a colon and [b] and neither part holds a
    colon; so every value the script renders from two colon-free parts
    parses back to them, and a parsed value renders back to itself. *)
Theorem nonce_ciphertext_round_trip (s a b : string) :
  Tampering.parse s = Some (a, b)
  <-> s = Tampering.render a b
      /\ Str.has ":" a = false /\ Str.has ":" b = false.
Proof.
  unfold Tampering.parse, Tampering.render. split.
  - intros H.
    pose proof (join_split ":" s) as J.
    pose proof (split_parts_free ":" s) as F.
    destruct (Str.split ":" s) as [|x [|y [|z l]]]; try discriminate.
    injection H as -> ->. cbn [Str.join] in J.
    pose proof (Forall_inv F) as Ha.
    pose proof (Forall_inv (Forall_inv_tail F)) as Hb.
    repeat split; [symmetry; exact J|exact Ha|exact Hb].
  - intros [-> [Ha Hb]].
    rewrite (split_append ":" a b Ha), (split_free ":" b Hb). reflexivity.
Qed.

Lemma nonce_ciphertext_round_trip_witness :
  Tampering.parse (Tampering.render "vhvlQK63Z2tn2FEv" "dirpNWcxitMA7serSW/cKaQ/7L+o")
  = Some ("vhvlQK63Z2tn2FEv", "dirpNWcxitMA7serSW/cKaQ/7L+o")%string.
Proof.
  apply (proj2 (nonce_ciphertext_round_trip
                  (Tampering.render "vhvlQK63Z2tn2FEv" "dirpNWcxitMA7serSW/cKaQ/7L+o")
                  "vhvlQK63Z2tn2FEv" "dirpNWcxitMA7serSW/cKaQ/7L+o")).
  repeat split.
Defined.

Lemma flipped_byte (b : ascii) :
  (Tampering.flipped b < 256)%N
  /\ ascii_of_N (Tampering.flipped b) <> b
  /\ ascii_of_N (Tampering.flipped (ascii_of_N (Tampering.flipped b))) = b
  /\ N.lxor (N_of_ascii b) (Tampering.flipped b) = 1%N.
Proof.
  destruct b as [[] [] [] [] [] [] [] []];
    (split; [reflexivity|split; [discriminate|split; reflexivity]]).
Qed.

(** X2.  The bit flip of test_ciphertext_tampering.py ([data[0] ^= 0x01]):
    the value stored is a byte, the tampered data has the length of the
    original, differs from it in the lowest bit of the first byte and
    nowhere else, and a second flip restores the original. *)
Theorem flip_first_changes_one_bit (b : ascii) (rest : string) :
  exists b' : ascii,
    Tampering.flip_first (String b rest) = String b' rest
    /\ N_of_ascii b' = Tampering.flipped b
    /\ N.lxor (N_of_ascii b) (N_of_ascii b') = 1%N
    /\ Tampering.flip_first (String b rest) <> String b rest
    /\ String.length (Tampering.flip_first (String b rest))
       = String.length (String b rest)
    /\ Tampering.flip_first (Tampering.flip_first (String b rest)) = String b rest.
Proof.
  destruct (flipped_byte b) as [Hlt [Hne [Hinv Hx]]].
  exists (ascii_of_N (Tampering.flipped b)).
  assert (E : N_of_ascii (ascii_of_N (Tampering.flipped b)) = Tampering.flipped b)
    by (apply N_ascii_embedding; exact Hlt).
  split; [reflexivity|]. split; [exact E|].
  split; [rewrite E; exact Hx|].
  split; [cbn; intros H; injection H as H; exact (Hne H)|].
  split; [reflexivity|].
  cbn. rewrite Hinv. reflexivity.
Qed.

(** X3.  The truncation of test_ciphertext_tampering.py
    ([ciphertext[:-16]] under [len(ciphertext) > 16]): it happens exactly
    for a ciphertext of more than sixteen bytes, and then the truncated
    value is the ciphertext without its last sixteen bytes: it is never
    empty and the sixteen bytes cut off are the whole difference. *)
Theorem truncate_tag_cuts_sixteen (ciphertext : string) :
  (Tampering.truncate_tag ciphertext = None
   <-> (String.length ciphertext <= 16)%nat)
  /\ forall truncated,
       Tampering.truncate_tag ciphertext = Some truncated ->
       exists tag, ciphertext = (truncated ++ tag)%string
                   /\ String.length tag = 16%nat
                   /\ (0 < String.length truncated)%nat.
Proof.
  unfold Tampering.truncate_tag.
  destruct (Nat.ltb_spec 16 (String.length ciphertext)) as [H|H].
  - split; [split; [discriminate|lia]|].
    intros truncated E. injection E as <-.
    destruct (substring_prefix (String.length ciphertext - 16) ciphertext)
      as [tag [E [L R]]]; [lia|].
    exists tag. rewrite L. repeat split; [exact E|lia|lia].
  - split; [split; [intros _; exact H|reflexivity]|]. discriminate.
Qed.

Lemma truncate_tag_cuts_sixteen_witness :
  exists tag,
    "0123456789abcdefTAG4567890123456"%string
    = ("0123456789abcdef" ++ tag)%string /\ String.length tag = 16%nat.
Proof.
  destruct (proj2 (truncate_tag_cuts_sixteen "0123456789abcdefTAG4567890123456")
                  "0123456789abcdef"%string eq_refl) as [tag [E [L _]]].
  exists tag. split; [exact E|exact L].
Defined.

(** X4.  The padding that [decode_jwt] of race_test_grpc.py and
    [decode_jwt_payload] of test_scenario4.py put back on a payload: at most
    three "=" are appended, the padded length is a multiple of four, and a
    payload whose length is one already is left alone (padding again changes
    nothing). *)
Theorem pad_makes_a_multiple_of_four (payload : string) :
  (String.length (Jwt.pad payload) mod 4 = 0)%nat
  /\ (exists k, (k <= 3)%nat
                /\ Jwt.pad payload = (payload ++ Str.times "=" k)%string)
  /\ ((String.length payload mod 4 = 0)%nat -> Jwt.pad payload = payload)
  /\ Jwt.pad (Jwt.pad payload) = Jwt.pad payload.
Proof.
  assert (P : forall p, (String.length (Jwt.pad p) mod 4 = 0)%nat
                        /\ (exists k, (k <= 3)%nat
                                      /\ Jwt.pad p = (p ++ Str.times "=" k)%string)).
  { intros p. unfold Jwt.pad.
    pose proof (Nat.mod_upper_bound (String.length p) 4 ltac:(lia)) as Hr.
    pose proof (Nat.div_mod_eq (String.length p) 4) as Hd.
    destruct (Nat.eqb_spec (4 - String.length p mod 4) 4) as [E|E].
    - split; [lia|]. exists 0%nat. split; [lia|]. cbn. rewrite append_empty_r. reflexivity.
    - split.
      + rewrite length_append, length_times.
        replace (String.length p + (4 - String.length p mod 4))%nat
          with (4 * (String.length p / 4 + 1))%nat by lia.
        rewrite Nat.mul_comm. apply Nat.Div0.mod_mul.
      + exists (4 - String.length p mod 4)%nat. split; [lia|reflexivity]. }
  assert (Q : forall p, (String.length p mod 4 = 0)%nat -> Jwt.pad p = p).
  { intros p H. unfold Jwt.pad. rewrite H. reflexivity. }
  split; [apply P|]. split; [apply P|]. split; [apply Q|].
  apply Q, P.
Qed.

Lemma pad_makes_a_multiple_of_four_witness :
  (String.length "eyJzdWIiOiIxIn0=" mod 4 = 0)%nat
  /\ Jwt.pad "eyJzdWIiOiIxIn0=" = "eyJzdWIiOiIxIn0="%string.
Proof.
  split; [reflexivity|].
  apply (proj1 (proj2 (proj2 (pad_makes_a_multiple_of_four "eyJzdWIiOiIxIn0=")))).
  reflexivity.
Defined.

(* ================================================================== *)
(** * Token payloads                                                   *)
(* ================================================================== *)

Section JwtFacts.

Variable b64decode : string -> exn + string.
Variable json_loads : string -> option json.

Lemma decode_settles (body : string) : decode json_loads body <> Blocked.
Proof. unfold decode. destruct (json_loads body); discriminate. Qed.

Lemma decode_jwt_returns (token : json) :
  exists v, Jwt.decode_jwt b64decode json_loads token = Ret v.
Proof.
  unfold Jwt.decode_jwt.
  destruct token as [| | |s| |]; cbn [try_except]; try (eexists; reflexivity).
  destruct (negb (List.length (Str.split "." s) =? 3)%nat);
    cbn [try_except]; [eexists; reflexivity|].
  destruct (b64decode (Jwt.pad (nth 1 (Str.split "." s) ""%string))) as [e|decoded];
    cbn [Jwt.call bind try_except]; [eexists; reflexivity|].
  unfold decode. destruct (json_loads decoded); cbn [try_except];
    eexists; reflexivity.
Qed.

End JwtFacts.

(** X5.  [decode_jwt] of race_test_grpc.py never raises, whatever the
    value it is given and whatever the decoders do, and it returns [None]
    for every value that is not a string of exactly three parts separated by
    dots; for a string of three parts its result is the JSON value of the
    padded second part, [None] when a decoder fails. *)
Theorem decode_jwt_never_raises
    (b64decode : string -> exn + string) (json_loads : string -> option json)
    (token : json) :
  (exists v, Jwt.decode_jwt b64decode json_loads token = Ret v)
  /\ ((forall s, token = JStr s -> List.length (Str.split "." s) <> 3%nat) ->
      Jwt.decode_jwt b64decode json_loads token = Ret JNull)
  /\ (forall header payload signature,
        token = JStr (Str.join "." [header; payload; signature]) ->
        Str.has "." header = false -> Str.has "." payload = false ->
        Str.has "." signature = false ->
        Jwt.decode_jwt b64decode json_loads token
        = Ret (match b64decode (Jwt.pad payload) with
               | inr decoded =>
                   match json_loads decoded with Some v => v | None => JNull end
               | inl _ => JNull
               end)).
Proof.
  split; [apply decode_jwt_returns|]. split.
  - intros H. unfold Jwt.decode_jwt.
    destruct token as [| | |s| |]; try reflexivity.
    specialize (H s eq_refl).
    destruct (Nat.eqb_spec (List.length (Str.split "." s)) 3) as [E|_];
      [contradiction|reflexivity].
  - intros header payload signature -> Hh Hp Hs. unfold Jwt.decode_jwt.
    cbn [Str.join].
    rewrite (split_append "." header _ Hh), (split_append "." payload _ Hp),
      (split_free "." signature Hs).
    cbn [List.length Nat.eqb negb nth].
    destruct (b64decode (Jwt.pad payload)) as [e|decoded];
      cbn [Jwt.call bind try_except]; [reflexivity|].
    unfold decode. destruct (json_loads decoded); reflexivity.
Qed.

Lemma decode_jwt_never_raises_witness :
  Jwt.decode_jwt (fun _ => inl (TypeError "Incorrect padding")) (fun _ => None)
    (JStr "only.two") = Ret JNull.
Proof.
  apply (proj1 (proj2 (decode_jwt_never_raises
                         (fun _ => inl (TypeError "Incorrect padding"))
                         (fun _ => None) (JStr "only.two")))).
  intros s E. injection E as <-. cbn. discriminate.
Defined.

Lemma claim_settles (payload : json) (key : string) :
  Jwt.claim payload key <> Blocked.
Proof.
  unfold Jwt.claim. destruct (Str.truthy payload); [|discriminate].
  destruct payload; discriminate.
Qed.

Lemma get_settles (d : json) (k : string) (default : json) :
  get d k default <> Blocked.
Proof. destruct d; discriminate. Qed.

Lemma grpc_exchange_returns
    (b64decode : string -> exn + string) (json_loads : string -> option json)
    (token tenant_id service_id : string) (request_id : Z) (w : proc_reply) :
  w <> NeverExits ->
  exists o, Jwt.exchange_token b64decode json_loads token tenant_id service_id
              request_id w = Ret o.
Proof.
  intros Hw. unfold Jwt.exchange_token.
  destruct w as [rc out err dt|m|]; cbn [subprocess_run bind try_except returncode];
    [|eexists; reflexivity|contradiction].
  destruct (rc =? 0); [|eexists; reflexivity]. cbn [stdout].
  unfold decode. destruct (json_loads out) as [response|]; cbn [bind try_except];
    [|eexists; reflexivity].
  pose proof (get_settles response "accessToken" (JStr "")) as G.
  destruct (get response "accessToken" (JStr "")) as [access|e|];
    cbn [bind try_except]; [|eexists; reflexivity|congruence].
  destruct (decode_jwt_returns b64decode json_loads access) as [payload ->].
  cbn [bind].
  pose proof (claim_settles payload "roles") as R.
  destruct (Jwt.claim payload "roles") as [roles|e|]; cbn [bind try_except];
    [|eexists; reflexivity|congruence].
  pose proof (claim_settles payload "permissions") as P.
  destruct (Jwt.claim payload "permissions") as [perms|e|];
    cbn [bind try_except]; [eexists; reflexivity|eexists; reflexivity|congruence].
Qed.

(** X6.  [exchange_token] of race_test_grpc.py calls [subprocess.run]
    without timeout and catches every exception: it never raises, it
    returns an outcome for every reply of the child process but one, and
    when the process never exits the call never comes back. *)
Theorem grpc_exchange_has_no_deadline
    (b64decode : string -> exn + string) (json_loads : string -> option json)
    (token tenant_id service_id : string) (request_id : Z) (w : proc_reply) :
  raises (Jwt.exchange_token b64decode json_loads token tenant_id service_id
            request_id w) = false
  /\ returns (Jwt.exchange_token b64decode json_loads token tenant_id service_id
                request_id w)
     = match w with NeverExits => false | _ => true end
  /\ Jwt.exchange_token b64decode json_loads token tenant_id service_id
       request_id NeverExits = Blocked.
Proof.
  assert (B : Jwt.exchange_token b64decode json_loads token tenant_id service_id
                request_id NeverExits = Blocked) by reflexivity.
  destruct w as [rc out err dt|m|].
  - destruct (grpc_exchange_returns b64decode json_loads token tenant_id
                service_id request_id (Exited rc out err dt)) as [o ->];
      [discriminate|]. repeat split.
  - destruct (grpc_exchange_returns b64decode json_loads token tenant_id
                service_id request_id (SpawnFailure m)) as [o ->];
      [discriminate|]. repeat split.
  - rewrite B. repeat split.
Qed.

(** X7.  [exchange_token] of race_test_grpc.py does not require a token
    for success: a child process that exits with code 0 and prints a JSON
    object without the key accessToken gives an outcome with [success]
    True, status '200' and empty roles and permissions. *)
Theorem grpc_exchange_succeeds_without_token
    (b64decode : string -> exn + string) (json_loads : string -> option json)
    (token tenant_id service_id : string) (request_id : Z)
    (out err : string) (dt : Q) (fields : list (string * json)) :
  json_loads out = Some (JObj fields) ->
  dict_lookup "accessToken" fields = None ->
  Jwt.exchange_token b64decode json_loads token tenant_id service_id request_id
    (Exited 0 out err dt)
  = Ret {| Jwt.request_id := request_id;
           Jwt.success := true;
           Jwt.status := "200";
           Jwt.response := Some (JObj fields);
           Jwt.roles := Some (JArr []);
           Jwt.permissions := Some (JArr []);
           Jwt.error := None;
           Jwt.latency := dt |}.
Proof.
  intros Hout Hkey. unfold Jwt.exchange_token.
  cbn [subprocess_run bind returncode stdout Z.eqb].
  unfold decode. rewrite Hout. cbn [bind get]. rewrite Hkey. reflexivity.
Qed.

Lemma grpc_exchange_succeeds_without_token_witness :
  Jwt.success
    (match Jwt.exchange_token (fun s => inr s) Sample.loads "t" "tenant" "portal" 3
             (Exited 0 "no token" "" 1) with
     | Ret o => o
     | _ => {| Jwt.request_id := 0; Jwt.success := false; Jwt.status := "";
               Jwt.response := None; Jwt.roles := None; Jwt.permissions := None;
               Jwt.error := None; Jwt.latency := 0 |}
     end) = true.
Proof.
  rewrite (grpc_exchange_succeeds_without_token (fun s => inr s) Sample.loads
             "t" "tenant" "portal" 3 "no token" "" 1
             [("error"%string, JStr "denied")]); reflexivity.
Defined.

(* ================================================================== *)
(** * Nonce reuse                                                      *)
(* ================================================================== *)

Lemma hex_digit_value (n : nat) :
  (n < 16)%nat -> Str.hex_value (Str.hex_digit n) = Some n.
Proof.
  intros H. do 16 (destruct n as [|n]; [reflexivity|]). lia.
Qed.

Lemma hex_byte_injective (a b : ascii) : Str.hex_byte a = Str.hex_byte b -> a = b.
Proof.
  unfold Str.hex_byte. intros H. injection H as Hh0 Hl0.
  assert (Hh : Str.hex_digit (nat_of_ascii a / 16)
               = Str.hex_digit (nat_of_ascii b / 16)) by exact Hh0.
  assert (Hl : Str.hex_digit (nat_of_ascii a mod 16)
               = Str.hex_digit (nat_of_ascii b mod 16)) by exact Hl0.
  clear Hh0 Hl0.
  pose proof (nat_ascii_bounded a) as Ba. pose proof (nat_ascii_bounded b) as Bb.
  assert (Da : (nat_of_ascii a / 16 < 16)%nat)
    by (apply Nat.Div0.div_lt_upper_bound; lia).
  assert (Db : (nat_of_ascii b / 16 < 16)%nat)
    by (apply Nat.Div0.div_lt_upper_bound; lia).
  assert (Ma : (nat_of_ascii a mod 16 < 16)%nat)
    by (apply Nat.mod_upper_bound; lia).
  assert (Mb : (nat_of_ascii b mod 16 < 16)%nat)
    by (apply Nat.mod_upper_bound; lia).
  apply (f_equal Str.hex_value) in Hh, Hl.
  rewrite (hex_digit_value _ Da), (hex_digit_value _ Db) in Hh.
  rewrite (hex_digit_value _ Ma), (hex_digit_value _ Mb) in Hl.
  assert (Eh : (nat_of_ascii a / 16 = nat_of_ascii b / 16)%nat) by congruence.
  assert (El : (nat_of_ascii a mod 16 = nat_of_ascii b mod 16)%nat) by congruence.
  rewrite <- (ascii_nat_embedding a), <- (ascii_nat_embedding b). f_equal.
  pose proof (Nat.div_mod_eq (nat_of_ascii a) 16) as Ea.
  pose proof (Nat.div_mod_eq (nat_of_ascii b) 16) as Eb.
  lia.
Qed.

(** [bytes.hex()] tells two byte strings apart. *)
Lemma hex_injective (a b : string) : Str.hex a = Str.hex b -> a = b.
Proof.
  revert b. induction a as [|x a IH]; intros [|y b]; cbn; try discriminate.
  - reflexivity.
  - intros H. injection H as Hh Hl Hr.
    assert (Hb : Str.hex_byte x = Str.hex_byte y).
    { unfold Str.hex_byte. f_equal; [exact Hh|f_equal; exact Hl]. }
    rewrite (hex_byte_injective x y Hb), (IH b Hr). reflexivity.
Qed.

Lemma existsb_eqb_In (h : string) (l : list string) :
  existsb (String.eqb h) l = true <-> In h l.
Proof.
  rewrite existsb_exists. split.
  - intros [x [Hin E]]. apply String.eqb_eq in E. subst. exact Hin.
  - intros H. exists h. split; [exact H|apply String.eqb_refl].
Qed.

Lemma map_snd_combine {A B : Type} (xs : list A) (ys : list B) :
  List.length xs = List.length ys -> map snd (combine xs ys) = ys.
Proof.
  revert ys. induction xs as [|x xs IH]; intros [|y ys]; cbn; try discriminate.
  - reflexivity.
  - intros H. injection H as H. rewrite (IH ys H). reflexivity.
Qed.

Section NonceScan.

Variable b64decode : string -> option string.

Lemma nonce_scan_invariant (entries : list (Z * string)) (st : NonceReuse.state) :
  NoDup (NonceReuse.nonces st) ->
  let st' := fold_left (NonceReuse.step b64decode) entries st in
  NoDup (NonceReuse.nonces st')
  /\ (forall h, In h (NonceReuse.nonces st')
                <-> In h (NonceReuse.nonces st) \/ In h (NonceReuse.parsed b64decode (map snd entries)))
  /\ (List.length (NonceReuse.nonces st') + List.length (NonceReuse.duplicates st')
      = List.length (NonceReuse.nonces st) + List.length (NonceReuse.duplicates st)
        + List.length (NonceReuse.parsed b64decode (map snd entries)))%nat
  /\ (List.length (NonceReuse.duplicates st)
      <= List.length (NonceReuse.duplicates st'))%nat
  /\ (List.length (NonceReuse.duplicates st')
      = List.length (NonceReuse.duplicates st)
      <-> NoDup (NonceReuse.parsed b64decode (map snd entries))
          /\ forall h, In h (NonceReuse.parsed b64decode (map snd entries)) -> ~ In h (NonceReuse.nonces st)).
Proof.
  revert st. induction entries as [|[i ct] entries IH]; intros st Hnd; cbv zeta.
  - cbn [fold_left map NonceReuse.parsed flat_map List.length].
    split; [exact Hnd|]. split; [intros h; cbn [In]; tauto|].
    split; [lia|]. split; [lia|].
    split; [intros _; split; [constructor|intros h []]|reflexivity].
  - cbn [fold_left map snd NonceReuse.parsed flat_map].
    fold (NonceReuse.parsed b64decode (map snd entries)).
    remember (NonceReuse.step b64decode st (i, ct)) as st1 eqn:E1.
    unfold NonceReuse.step in E1.
    destruct (NonceReuse.nonce_hex_of b64decode ct) as [h|].
    + cbn [app].
      destruct (existsb (String.eqb h) (NonceReuse.nonces st)) eqn:Ex; subst st1.
      * apply existsb_eqb_In in Ex.
        destruct (IH {| NonceReuse.nonces := NonceReuse.nonces st;
                        NonceReuse.duplicates :=
                          NonceReuse.duplicates st ++ [(i + 1, h)] |} Hnd)
          as [N [M [L [G Q]]]].
        cbn [NonceReuse.nonces NonceReuse.duplicates] in *.
        rewrite length_app in *. cbn [List.length] in *.
        split; [exact N|]. split.
        { intros x. rewrite M. cbn [In]. split.
          - intros [H|H]; [left; exact H|right; right; exact H].
          - intros [H|[H|H]]; [left; exact H|subst; left; exact Ex|right; exact H]. }
        split; [lia|]. split; [lia|]. split.
        { intros E. lia. }
        { intros [_ H]. exfalso. apply (H h); [left; reflexivity|exact Ex]. }
      * assert (Hn : ~ In h (NonceReuse.nonces st)).
        { intros H. apply existsb_eqb_In in H. congruence. }
        assert (Hnd' : NoDup (NonceReuse.nonces st ++ [h])).
        { apply NoDup_app; [exact Hnd|repeat constructor; intros []|].
          intros x Hx [<-|[]]. exact (Hn Hx). }
        destruct (IH {| NonceReuse.nonces := NonceReuse.nonces st ++ [h];
                        NonceReuse.duplicates := NonceReuse.duplicates st |} Hnd')
          as [N [M [L [G Q]]]].
        cbn [NonceReuse.nonces NonceReuse.duplicates] in *.
        rewrite length_app in *. cbn [List.length] in *.
        split; [exact N|]. split.
        { intros x. rewrite M, in_app_iff. cbn [In]. tauto. }
        split; [lia|]. split; [lia|].
        rewrite Q. split.
        { intros [Nd F]. split.
          - constructor; [|exact Nd].
            intros H. apply (F h H). apply in_app_iff. right. left. reflexivity.
          - intros x [<-|Hx]; [exact Hn|].
            intros Hin. apply (F x Hx). apply in_app_iff. left. exact Hin. }
        { intros [Nd F]. inversion Nd as [|? ? Hh Nd']; subst. split; [exact Nd'|].
          intros x Hx Hin. apply in_app_iff in Hin as [Hin|[<-|[]]].
          - exact (F x (or_intror Hx) Hin).
          - exact (Hh Hx). }
    + cbn [app]. subst st1. apply IH, Hnd.
Qed.

End NonceScan.

(** X8.  The scan of test_nonce_reuse.py: the set [nonces] ends up as the
    nonces of the values that parse, each once; every parsed value is
    counted either as a new nonce or as a duplicate; and the script exits
    with status 0 exactly when no nonce occurs twice among the values that
    parse (a value that does not parse is skipped and never reported). *)
Theorem nonce_scan_detects_every_reuse
    (b64decode : string -> option string) (cts : list string) :
  let st := NonceReuse.scan b64decode cts in
  NoDup (NonceReuse.nonces st)
  /\ (forall h, In h (NonceReuse.nonces st)
                <-> In h (NonceReuse.parsed b64decode cts))
  /\ (List.length (NonceReuse.nonces st) + List.length (NonceReuse.duplicates st)
      = List.length (NonceReuse.parsed b64decode cts))%nat
  /\ (NonceReuse.exit_code b64decode cts = 0
      <-> NoDup (NonceReuse.parsed b64decode cts))
  /\ (NonceReuse.exit_code b64decode cts = 1
      <-> ~ NoDup (NonceReuse.parsed b64decode cts)).
Proof.
  cbv zeta. unfold NonceReuse.exit_code, NonceReuse.scan.
  destruct (nonce_scan_invariant b64decode (NonceReuse.enumerate cts)
              {| NonceReuse.nonces := []; NonceReuse.duplicates := [] |}
              (NoDup_nil _)) as [N [M [L [_ Q]]]].
  cbn [NonceReuse.nonces NonceReuse.duplicates List.length] in *.
  assert (E : map snd (NonceReuse.enumerate cts) = cts).
  { unfold NonceReuse.enumerate. apply map_snd_combine.
    unfold range. rewrite length_map, length_seq. reflexivity. }
  rewrite E in *.
  assert (Q' : NonceReuse.duplicates
                 (fold_left (NonceReuse.step b64decode) (NonceReuse.enumerate cts)
                    {| NonceReuse.nonces := []; NonceReuse.duplicates := [] |}) = []
               <-> NoDup (NonceReuse.parsed b64decode cts)).
  { rewrite <- length_zero_iff_nil, Q. split; [intros [H _]; exact H|].
    intros H. split; [exact H|]. intros h _ []. }
  split; [exact N|]. split.
  { intros h. rewrite M. cbn [In]. tauto. }
  split; [lia|].
  destruct (NonceReuse.duplicates _) as [|d ds].
  - split; [tauto|]. split; [discriminate|]. intros H. exfalso. apply H, Q'. reflexivity.
  - split.
    + split; [discriminate|]. intros H. apply Q' in H. discriminate.
    + split; [|reflexivity]. intros _ H. apply Q' in H. discriminate.
Qed.

(* ================================================================== *)
(** * The reset token in the mail                                      *)
(* ================================================================== *)

Lemma strip_prefix_sound (p s rest : string) :
  Str.strip_prefix p s = Some rest -> s = (p ++ rest)%string.
Proof.
  revert s. induction p as [|a p IH]; intros s; cbn.
  - intros H. injection H as ->. reflexivity.
  - destruct s as [|b s]; [discriminate|].
    destruct (Ascii.eqb_spec a b) as [->|_]; [|discriminate].
    intros H. rewrite (IH s H). reflexivity.
Qed.

Lemma strip_prefix_complete (p rest : string) :
  Str.strip_prefix p (p ++ rest) = Some rest.
Proof.
  induction p as [|a p IH]; cbn; [destruct rest; reflexivity|].
  rewrite Ascii.eqb_refl. exact IH.
Qed.

Lemma hex_run_split (s : string) :
  exists post, s = (ResetMail.hex_run s ++ post)%string
               /\ Str.all_hex (ResetMail.hex_run s) = true
               /\ forall c post', post = String c post' -> Str.is_hex c = false.
Proof.
  induction s as [|c s [post [E [A N]]]]; cbn.
  - exists EmptyString. repeat split. discriminate.
  - destruct (Str.is_hex c) eqn:Hc.
    + exists post. cbn. rewrite Hc, A, <- E. repeat split. exact N.
    + exists (String c s). repeat split. intros c' post' H.
      injection H as <- _. exact Hc.
Qed.

Lemma match_here_sound (s token : string) :
  ResetMail.match_here s = Some token ->
  token <> EmptyString
  /\ Str.all_hex token = true
  /\ exists post, s = ("token=" ++ token ++ post)%string
                  /\ forall c post', post = String c post' -> Str.is_hex c = false.
Proof.
  unfold ResetMail.match_here.
  destruct (Str.strip_prefix "token=" s) as [rest|] eqn:P; [|discriminate].
  apply strip_prefix_sound in P.
  destruct (hex_run_split rest) as [post [E [A N]]].
  destruct (ResetMail.hex_run rest) as [|c run] eqn:R; [discriminate|].
  intros H. injection H as <-.
  split; [discriminate|]. split; [exact A|].
  exists post. split; [rewrite P, E; reflexivity|exact N].
Qed.

Lemma search_sound (html token : string) :
  ResetMail.search html = Some token ->
  token <> EmptyString
  /\ Str.all_hex token = true
  /\ exists pre post,
       html = (pre ++ "token=" ++ token ++ post)%string
       /\ forall c post', post = String c post' -> Str.is_hex c = false.
Proof.
  induction html as [|x html IH]; cbn [ResetMail.search]; [discriminate|].
  destruct (ResetMail.match_here (String x html)) as [t|] eqn:M.
  - intros H. injection H as <-.
    destruct (match_here_sound _ _ M) as [Hn [Ha [post [E N]]]].
    split; [exact Hn|]. split; [exact Ha|].
    exists EmptyString, post. split; [exact E|exact N].
  - intros H. destruct (IH H) as [Hn [Ha [pre [post [E N]]]]].
    split; [exact Hn|]. split; [exact Ha|].
    exists (String x pre), post. split; [cbn; rewrite E; reflexivity|exact N].
Qed.

Lemma search_complete (html : string) :
  ResetMail.search html = None ->
  forall pre c rest,
    html = (pre ++ "token=" ++ String c rest)%string -> Str.is_hex c = false.
Proof.
  induction html as [|x html IH]; intros H pre c rest E.
  - destruct pre; discriminate.
  - cbn [ResetMail.search] in H.
    destruct (ResetMail.match_here (String x html)) as [t|] eqn:M; [discriminate|].
    destruct pre as [|y pre].
    + change (String x html = ("token=" ++ String c rest)%string) in E.
      unfold ResetMail.match_here in M. rewrite E in M.
      rewrite (strip_prefix_complete "token=" (String c rest)) in M.
      cbn [ResetMail.hex_run] in M.
      destruct (Str.is_hex c); [discriminate|reflexivity].
    + cbn [append] in E. injection E as _ E. exact (IH H pre c rest E).
Qed.

(** X9.  The token [get_reset_token] of full_race_test.py takes from a
    mail with [re.search(r'token=([a-f0-9]+)', html)]: a token found is not
    empty, is made of the characters a-f and 0-9 only, stands in the mail
    right after "token=" and is not followed by a further such character;
    and no token is found only if no "token=" in the mail is followed by
    such a character. *)
Theorem reset_token_is_lowercase_hex (html : string) :
  (forall token,
      ResetMail.search html = Some token ->
      token <> EmptyString
      /\ Str.all_hex token = true
      /\ exists pre post,
           html = (pre ++ "token=" ++ token ++ post)%string
           /\ forall c post', post = String c post' -> Str.is_hex c = false)
  /\ (ResetMail.search html = None ->
      forall pre c rest,
        html = (pre ++ "token=" ++ String c rest)%string -> Str.is_hex c = false).
Proof.
  split; [intros token; apply search_sound|apply search_complete].
Qed.

Lemma reset_token_is_lowercase_hex_witness :
  ResetMail.search "<a href=http://localhost:3000/reset?token=ab12cd34EF>Reset</a>"
  = Some "ab12cd34"%string
  /\ Str.all_hex "ab12cd34" = true.
Proof.
  split; [reflexivity|].
  apply (proj1 (reset_token_is_lowercase_hex
                  "<a href=http://localhost:3000/reset?token=ab12cd34EF>Reset</a>")
               "ab12cd34"%string).
  reflexivity.
Defined.



(* ================================================================== *)
(** * The clean-up of precise_race_test.py                             *)
(* ================================================================== *)




(* ================================================================== *)
(** * Exit statuses and reports of the reset and tenant scripts        *)
(* ================================================================== *)

Lemma sum1_zero {A : Type} (p : A -> bool) (xs : list A) :
  sum1 p xs = 0 <-> forall x, In x xs -> p x = false.
Proof.
  induction xs as [|x xs IH]; cbn [sum1 In].
  - split; [intros _ x []|reflexivity].
  - pose proof (sum1_nonneg p xs) as Hn. destruct (p x) eqn:P.
    + split; [lia|]. intros H. rewrite (H x (or_introl eq_refl)) in P. discriminate.
    + rewrite IH. split.
      * intros H y [<-|Hy]; [exact P|exact (H y Hy)].
      * intros H y Hy. exact (H y (or_intror Hy)).
Qed.

Lemma race_test_gather (world : Z -> http_reply) (requests : list Z) :
  if forallb (fun i => negb (failure_of (world i))) requests
  then gather (map (fun i => RaceTest.reset default_session i (world i)) requests)
       = Ret (map (fun i => fst (settled (world i))) requests)
  else raises (gather (map (fun i => RaceTest.reset default_session i (world i))
                           requests)) = true.
Proof.
  induction requests as [|i requests IH]; cbn [forallb map gather]; [reflexivity|].
  destruct (world i) as [s t|s t e|m|m|m] eqn:W; cbn [failure_of negb andb];
    try reflexivity;
    (unfold RaceTest.reset at 1; cbn [session_send bind status settled fst];
     destruct (forallb (fun i => negb (failure_of (world i))) requests);
     [ rewrite IH; reflexivity
     | destruct (gather _) as [l|e'|]; try discriminate IH; reflexivity ]).
Qed.

Lemma count_answers (world : Z -> http_reply) (s : Z) (requests : list Z) :
  s <> 0 ->
  RaceTest.count s (map (fun i => fst (settled (world i))) requests)
  = sum1 (fun i => answers_with s (world i)) requests.
Proof.
  intros Hs. unfold RaceTest.count. rewrite sum1_map. apply sum1_ext.
  intros i. rewrite Z.eqb_sym. apply settled_status, Hs.
Qed.

(** X12.  The exit status of race_test.py: the script exits with status 0
    exactly when each of the fifty requests is answered and at most one of
    the answers has status 200; in every other case (a request that is
    refused, fails or times out, or two successes) it ends on an uncaught
    exception with status 1.  It always exits. *)
Theorem race_test_exit_status (world : Z -> http_reply) :
  RaceTest.script world
  = Some (if forallb (fun i => negb (failure_of (world i))) (range 50)
             && (sum1 (fun i => answers_with 200 (world i)) (range 50) <=? 1)
          then 0 else 1).
Proof.
  unfold RaceTest.script, RaceTest.main. cbv zeta.
  pose proof (race_test_gather world (range 50)) as G.
  destruct (forallb (fun i => negb (failure_of (world i))) (range 50)).
  - rewrite G. cbn [bind andb]. unfold RaceTest.judge.
    rewrite count_answers by lia.
    destruct (sum1 (fun i => answers_with 200 (world i)) (range 50) <=? 1);
      reflexivity.
  - destruct (gather _) as [l|e|]; try discriminate G. reflexivity.
Qed.

(** X13.  race_test_simple.py always reaches its report: whatever the
    fifty replies, [main] does not raise; its three counters are the
    numbers of answers with status 200, of answers with status 400 or 404
    and of everything else (refusals and timeouts included), none is
    negative and they sum to fifty; and the PASS line is printed exactly
    when one request was answered 200. *)
Theorem race_test_simple_always_reports (world : Z -> http_reply) :
  exists c v,
    RaceTestSimple.main world = Ret (c, v)
    /\ RaceTestSimple.success_count c
       = sum1 (fun i => answers_with 200 (world i)) (range 50)
    /\ RaceTestSimple.error_count c
       = sum1 (fun i => answers_with 400 (world i) || answers_with 404 (world i))
           (range 50)
    /\ 0 <= RaceTestSimple.other_count c
    /\ RaceTestSimple.success_count c + RaceTestSimple.error_count c
       + RaceTestSimple.other_count c = 50
    /\ (v = RaceTestSimple.PASS_only_1_successful_reset
        <-> RaceTestSimple.success_count c = 1).
Proof.
  exists (RaceTestSimple.tally (map (fun i => settled (world i)) (range 50))),
         (RaceTestSimple.check (map (fun i => settled (world i)) (range 50))).
  split.
  { unfold RaceTestSimple.main.
    rewrite (gather_all_return _ (fun i => settled (world i)))
      by (intros i; apply simple_reset_password_settled).
    reflexivity. }
  assert (Hs : sum1 (fun r : Z * string => fst r =? 200)
                 (map (fun i => settled (world i)) (range 50))
               = sum1 (fun i => answers_with 200 (world i)) (range 50))
    by (apply burst_count; lia).
  assert (He : sum1 (fun r : Z * string => (fst r =? 400) || (fst r =? 404))
                 (map (fun i => settled (world i)) (range 50))
               = sum1 (fun i => answers_with 400 (world i) || answers_with 404 (world i))
                   (range 50)).
  { rewrite sum1_map. apply sum1_ext. intros i.
    rewrite !settled_status by lia. reflexivity. }
  pose proof (sum1_split (fun r : Z * string => fst r =? 200)
                (fun r => (fst r =? 400) || (fst r =? 404))
                (map (fun i => settled (world i)) (range 50))
                reset_tests_exclusive) as Ho.
  pose proof (sum1_nonneg
                (fun r : Z * string =>
                   negb (fst r =? 200) && negb ((fst r =? 400) || (fst r =? 404)))
                (map (fun i => settled (world i)) (range 50))) as Hn.
  assert (Hl : len (map (fun i => settled (world i)) (range 50)) = 50)
    by (rewrite len_map; apply len_range).
  unfold RaceTestSimple.check, RaceTestSimple.tally.
  cbn [RaceTestSimple.success_count RaceTestSimple.error_count
       RaceTestSimple.other_count].
  generalize dependent (map (fun i => settled (world i)) (range 50)).
  intros results Hs He Ho Hn Hl.
  split; [exact Hs|]. split; [exact He|]. split; [lia|]. split; [lia|].
  destruct (Z.ltb_spec 1 (sum1 (fun r : Z * string => fst r =? 200) results)) as [L|L].
  - split; [discriminate|lia].
  - destruct (Z.eqb_spec (sum1 (fun r : Z * string => fst r =? 200) results) 1)
      as [E|E].
    + split; [intros _; exact E|reflexivity].
    + split; [discriminate|intros H; contradiction].
Qed.

(** X14.  The race check of tenant_race_test.py is strict: it returns True
    exactly when there is one 201 and there are nineteen 409; so it needs
    at least twenty results, and with twenty results it returns True
    exactly when one is a 201 and every other one is a 409: a single
    timeout or unexpected status among the twenty fails the test. *)
Theorem tenant_race_check_is_strict (results : list (Z * string)) :
  (snd (TenantRaceTest.race_check results) = true
   <-> sum1 (fun r => fst r =? 201) results = 1
       /\ sum1 (fun r => fst r =? 409) results = 19)
  /\ (snd (TenantRaceTest.race_check results) = true -> 20 <= len results)
  /\ (len results = 20 ->
      (snd (TenantRaceTest.race_check results) = true
       <-> sum1 (fun r => fst r =? 201) results = 1
           /\ forall r, In r results -> fst r = 201 \/ fst r = 409)).
Proof.
  assert (Ex : forall r : Z * string, (fst r =? 201) = true -> (fst r =? 409) = false).
  { intros r H. apply Z.eqb_eq in H. rewrite H. reflexivity. }
  pose proof (sum1_split (fun r : Z * string => fst r =? 201)
                (fun r => fst r =? 409) results Ex) as Sp.
  cbv beta in Sp.
  pose proof (sum1_nonneg (fun r : Z * string =>
                negb (fst r =? 201) && negb (fst r =? 409)) results) as Hn.
  assert (P : snd (TenantRaceTest.race_check results) = true
              <-> sum1 (fun r => fst r =? 201) results = 1
                  /\ sum1 (fun r => fst r =? 409) results = 19).
  { unfold TenantRaceTest.race_check.
    destruct (Z.ltb_spec 1 (sum1 (fun r : Z * string => fst r =? 201) results)) as [L|L];
      cbn [snd]; [split; [discriminate|lia]|].
    destruct (Z.eqb_spec (sum1 (fun r : Z * string => fst r =? 201) results) 1) as [E|E];
      destruct (Z.eqb_spec (sum1 (fun r : Z * string => fst r =? 409) results) 19) as [C|C];
      cbn [andb snd]; split; try discriminate; try tauto; try lia. }
  split; [exact P|]. split.
  - intros H. apply P in H. destruct H as [Hs Hc]. rewrite Hs, Hc in Sp. lia.
  - intros Hlen. rewrite P. split.
    + intros [Hs Hc]. split; [exact Hs|].
      assert (Z0 : sum1 (fun r : Z * string =>
                    negb (fst r =? 201) && negb (fst r =? 409)) results = 0)
        by (rewrite Hs, Hc in Sp; lia).
      intros r Hr. pose proof (proj1 (sum1_zero _ _) Z0 r Hr) as Hf.
      destruct (Z.eqb_spec (fst r) 201) as [A|A]; [left; exact A|].
      destruct (Z.eqb_spec (fst r) 409) as [B|B]; [right; exact B|].
      cbv beta in Hf. apply Z.eqb_neq in A, B. rewrite A, B in Hf. discriminate Hf.
    + intros [Hs Hall]. split; [exact Hs|].
      assert (Z0 : sum1 (fun r : Z * string =>
                    negb (fst r =? 201) && negb (fst r =? 409)) results = 0).
      { apply sum1_zero. intros r Hr. destruct (Hall r Hr) as [-> | ->]; reflexivity. }
      rewrite Hs, Z0 in Sp. lia.
Qed.

Lemma tenant_race_check_is_strict_witness :
  snd (TenantRaceTest.race_check
         (map (fun i => settled (Run.one_winner i)) (range 20))) = true
  /\ 20 <= len (map (fun i => settled (Run.one_winner i)) (range 20)).
Proof.
  split; [reflexivity|].
  apply (proj1 (proj2 (tenant_race_check_is_strict
                         (map (fun i => settled (Run.one_winner i)) (range 20))))).
  reflexivity.
Defined.

(** X15.  [test_tenant_slug_race] of tenant_race_test.py comes back with a
    verdict exactly when its clean-up step (the first search and the DELETE
    it may send) and its verification search do: the burst of twenty
    creations can make it neither raise nor wait, while a first search that
    is refused raises out of the test and one that hangs stalls it, for the
    searches have neither handler nor timeout. *)
Theorem tenant_test_returns_iff_searches_do
    (data_of : string -> result (list TenantRaceTest.tenant)) (token : string)
    (check del : http_reply) (world : Z -> http_reply) (verify : http_reply) :
  returns (TenantRaceTest.test_tenant_slug_race data_of token check del world verify)
  = returns (TenantRaceTest.clean_up_existing data_of check del)
    && returns (TenantRaceTest.verify_database data_of verify)
  /\ (forall m, TenantRaceTest.script data_of token (Refused m) del world verify
                = Some 1)
  /\ (forall m, TenantRaceTest.script data_of token (Hang m) del world verify
                = None).
Proof.
  split; [|split; reflexivity].
  unfold TenantRaceTest.test_tenant_slug_race.
  destruct (TenantRaceTest.clean_up_existing data_of check del) as [acts|e|];
    cbn [bind returns andb]; try reflexivity.
  rewrite tenant_burst. cbn [bind].
  destruct (TenantRaceTest.verify_database data_of verify) as [[]|e|]; reflexivity.
Qed.



(* ================================================================== *)
(** * race_test_tenant.py: the search, the invoker, the report         *)
(* ================================================================== *)

(** [resp.json()] on an answer of a JSON type. *)
Lemma resp_json_answer (json_loads : string -> option json)
    (json_error : string -> string) (s : Z) (t : string) :
  resp_json json_loads json_error
    {| status := s; body := t; content_error := None |}
  = match read_json json_loads t with
    | Some v => Ret v
    | None => Raise (JSONDecodeError (json_error (strip t)))
    end.
Proof. reflexivity. Qed.

Lemma read_json_blank (json_loads : string -> option json) (t : string) :
  strip t = EmptyString -> read_json json_loads t = Some JNull.
Proof. intros E. unfold read_json. rewrite E. reflexivity. Qed.

Lemma check_tenant_count_not_200 (json_loads : string -> option json)
    (json_error : string -> string)
    (session : ClientSession) (slug : string) (probe : string -> http_reply)
    (s : Z) (t : string) :
  probe slug = Answer s t -> s <> 200 ->
  RaceTestTenant.check_tenant_count json_loads json_error session slug probe = Ret (JNum 0).
Proof.
  intros Hp Hs. unfold RaceTestTenant.check_tenant_count. rewrite Hp.
  cbn [session_send bind status].
  destruct (Z.eqb_spec s 200); [contradiction|reflexivity].
Qed.

(** X17.  [check_tenant_count] of race_test_tenant.py reports 0 for a
    search that fails: for every answer with a status other than 200,
    whatever its body, and for an answer 200 whose body has no
    "pagination" or whose pagination has no "total"; it raises when the
    body of an answer 200 does not decode, when that body is blank, which
    [resp.json()] reads as [None], and when the Content-Type of an answer
    200 is not a JSON type. *)
Theorem check_tenant_count_defaults_to_zero
    (json_loads : string -> option json)
    (json_error : string -> string) (session : ClientSession)
    (slug : string) (probe : string -> http_reply) :
  (forall s t, probe slug = Answer s t -> s <> 200 ->
      RaceTestTenant.check_tenant_count json_loads json_error session slug probe
      = Ret (JNum 0))
  /\ (forall t fields,
        probe slug = Answer 200 t -> read_json json_loads t = Some (JObj fields) ->
        dict_lookup "pagination" fields = None ->
        RaceTestTenant.check_tenant_count json_loads json_error session slug probe
        = Ret (JNum 0))
  /\ (forall t fields ps,
        probe slug = Answer 200 t -> read_json json_loads t = Some (JObj fields) ->
        dict_lookup "pagination" fields = Some (JObj ps) ->
        RaceTestTenant.check_tenant_count json_loads json_error session slug probe
        = Ret (match dict_lookup "total" ps with
               | Some total => total
               | None => JNum 0
               end))
  /\ (forall t,
        probe slug = Answer 200 t -> read_json json_loads t = None ->
        raises (RaceTestTenant.check_tenant_count json_loads json_error session slug probe)
        = true)
  /\ (forall t,
        probe slug = Answer 200 t -> strip t = EmptyString ->
        raises (RaceTestTenant.check_tenant_count json_loads json_error session slug probe)
        = true)
  /\ (forall s t m,
        probe slug = Mistyped s t m ->
        RaceTestTenant.check_tenant_count json_loads json_error session slug probe
        = if s =? 200 then Raise (ContentTypeError m) else Ret (JNum 0)).
Proof.
  split; [intros s t; apply check_tenant_count_not_200|].
  unfold RaceTestTenant.check_tenant_count. split; [|split; [|split; [|split]]].
  - intros t fields -> Hl Hp. cbn [session_send bind status Z.eqb].
    rewrite resp_json_answer, Hl. cbn [bind get]. rewrite Hp. reflexivity.
  - intros t fields ps -> Hl Hp. cbn [session_send bind status Z.eqb].
    rewrite resp_json_answer, Hl. cbn [bind get]. rewrite Hp. reflexivity.
  - intros t -> Hl. cbn [session_send bind status Z.eqb].
    rewrite resp_json_answer, Hl. reflexivity.
  - intros t -> Hb. cbn [session_send bind status Z.eqb].
    rewrite resp_json_answer, (read_json_blank json_loads t Hb). reflexivity.
  - intros s t m ->. cbn [session_send bind status].
    destruct (s =? 200); reflexivity.
Qed.

Lemma check_tenant_count_defaults_to_zero_witness :
  RaceTestTenant.check_tenant_count Sample.loads Run.complaint default_session "race-test-slug"
    Sample.search_down = Ret (JNum 0).
Proof.
  apply (proj1 (check_tenant_count_defaults_to_zero Sample.loads Run.complaint
                  default_session "race-test-slug" Sample.search_down)
               500 "error"%string);
    [reflexivity|discriminate].
Defined.



(** X19.  [create_tenant] of race_test_tenant.py reports a success
    exactly for an answer 201 that [resp.json()] reads: an answer of a JSON
    type whose body is blank or is accepted by the decoder.  A blank body
    is read as [None] without the decoder being asked, so that an answer
    with a blank body keeps its status, a 201 among them being a success
    whose response is [None].  An answer that [resp.json()] refuses, for
    its Content-Type or for a body that the decoder rejects, is reported on
    the exceptional path, with status 0 and without response, be it a
    201. *)
Theorem tenant_success_needs_a_readable_201
    (json_loads : string -> option json)
    (json_error : string -> string) (session : ClientSession)
    (token : string) (slug_suffix request_id : Z)
    (target : TenantData -> http_reply) (o : RaceTestTenant.Outcome) :
  RaceTestTenant.create_tenant json_loads json_error session token slug_suffix
    request_id target
  = Ret o ->
  RaceTestTenant.request_id o = request_id
  /\ (RaceTestTenant.success o = true
      <-> exists t body,
            target (RaceTestTenant.create_tenant_data slug_suffix) = Answer 201 t
            /\ read_json json_loads t = Some body)
  /\ (forall s t,
        target (RaceTestTenant.create_tenant_data slug_suffix) = Answer s t ->
        strip t = EmptyString ->
        o = {| RaceTestTenant.request_id := request_id;
               RaceTestTenant.status := s;
               RaceTestTenant.success := s =? 201;
               RaceTestTenant.response := Some JNull;
               RaceTestTenant.error := None |})
  /\ (forall s t,
        target (RaceTestTenant.create_tenant_data slug_suffix) = Answer s t ->
        read_json json_loads t = None ->
        o = failed_outcome request_id (json_error (strip t)))
  /\ (forall s t m,
        target (RaceTestTenant.create_tenant_data slug_suffix) = Mistyped s t m ->
        o = failed_outcome request_id m).
Proof.
  unfold RaceTestTenant.create_tenant.
  destruct (target (RaceTestTenant.create_tenant_data slug_suffix))
    as [s t|s t e|m|m|m]; cbn [session_send bind try_except].
  - rewrite resp_json_answer. cbn [status].
    destruct (read_json json_loads t) as [body|] eqn:L; cbn [bind try_except];
      intros H; injection H as <-;
      cbn [RaceTestTenant.request_id RaceTestTenant.success].
    + split; [reflexivity|]. split; [|split; [|split]].
      * split.
        -- intros E. apply Z.eqb_eq in E. subst s. exists t, body.
           split; [reflexivity|exact L].
        -- intros [t' [body' [E _]]]. injection E as -> _. reflexivity.
      * intros s' t' E Hb. injection E as <- <-.
        rewrite (read_json_blank json_loads t Hb) in L. injection L as <-.
        reflexivity.
      * intros s' t' E L'. injection E as _ <-. congruence.
      * intros s' t' m E. discriminate E.
    + split; [reflexivity|]. split; [|split; [|split]].
      * split; [discriminate|].
        intros [t' [body' [E L']]]. injection E as _ <-. congruence.
      * intros s' t' E Hb. injection E as _ <-.
        rewrite (read_json_blank json_loads t Hb) in L. discriminate L.
      * intros s' t' E _. injection E as _ <-. reflexivity.
      * intros s' t' m E. discriminate E.
  - unfold resp_json. cbn [content_error bind try_except str].
    intros H. injection H as <-. cbn [RaceTestTenant.request_id RaceTestTenant.success].
    split; [reflexivity|]. split; [|split; [|split]].
    + split; [discriminate|]. intros [t' [body' [E _]]]. discriminate E.
    + intros s' t' E. discriminate E.
    + intros s' t' E. discriminate E.
    + intros s' t' m E. injection E as _ _ <-. reflexivity.
  - intros H. injection H as <-. cbn. split; [reflexivity|].
    split; [|split; [|split]].
    + split; [discriminate|]. intros [t' [body' [E _]]]. discriminate E.
    + intros s' t' E. discriminate E.
    + intros s' t' E. discriminate E.
    + intros s' t' m' E. discriminate E.
  - intros H. injection H as <-. cbn. split; [reflexivity|].
    split; [|split; [|split]].
    + split; [discriminate|]. intros [t' [body' [E _]]]. discriminate E.
    + intros s' t' E. discriminate E.
    + intros s' t' E. discriminate E.
    + intros s' t' m' E. discriminate E.
  - destruct (total_timeout session); cbn [bind try_except]; [|discriminate].
    intros H. injection H as <-. cbn. split; [reflexivity|].
    split; [|split; [|split]].
    + split; [discriminate|]. intros [t' [body' [E _]]]. discriminate E.
    + intros s' t' E. discriminate E.
    + intros s' t' E. discriminate E.
    + intros s' t' m' E. discriminate E.
Qed.

Lemma tenant_success_needs_a_readable_201_witness :
  RaceTestTenant.create_tenant Run.loads Run.complaint default_session "admin" 1 1
    (fun _ => Answer 201 "")
  = Ret {| RaceTestTenant.request_id := 1;
           RaceTestTenant.status := 201;
           RaceTestTenant.success := true;
           RaceTestTenant.response := Some JNull;
           RaceTestTenant.error := None |}
  /\ exists o,
       RaceTestTenant.create_tenant Run.loads Run.complaint default_session "admin"
         1 1 (fun _ => Answer 201 "<html>created</html>") = Ret o
       /\ RaceTestTenant.status o = 0
       /\ RaceTestTenant.success o = false.
Proof.
  split; [reflexivity|].
  eexists. split; [reflexivity|].
  rewrite (proj1 (proj2 (proj2 (proj2
             (tenant_success_needs_a_readable_201 Run.loads Run.complaint
                default_session "admin" 1 1
                (fun _ => Answer 201 "<html>created</html>") _ eq_refl))))
             201 "<html>created</html>"%string eq_refl eq_refl).
  split; reflexivity.
Defined.

(** X20.  The assessment of race_test_tenant.py puts the cross mark of a
    failure exactly on a success count above one and the check mark exactly
    on one success with a final count equal to 1: the count found in the
    system of record alone, however large, never turns a run with at most
    one success into a failure. *)
Theorem assessment_marks (success_count conflict_count : Z) (final_count : json) :
  (RaceTestTenant.mark_of
     (RaceTestTenant.security_assessment success_count conflict_count final_count)
   = RaceTestTenant.CrossMark <-> 1 < success_count)
  /\ (RaceTestTenant.mark_of
        (RaceTestTenant.security_assessment success_count conflict_count final_count)
      = RaceTestTenant.CheckMark
      <-> success_count = 1 /\ eq_int final_count 1 = true).
Proof.
  unfold RaceTestTenant.security_assessment.
  destruct (Z.ltb_spec 1 success_count) as [L|L]; cbn [RaceTestTenant.mark_of].
  - split; split; try tauto; try discriminate. intros [E _]. lia.
  - destruct (Z.eqb_spec success_count 1) as [E|E];
      destruct (eq_int final_count 1); cbn [andb RaceTestTenant.mark_of].
    + split; split; try tauto; try discriminate; lia.
    + destruct ((success_count =? 0) && (0 <? conflict_count));
        cbn [RaceTestTenant.mark_of]; split; split;
        try discriminate; try lia; intros [_ H]; discriminate H.
    + destruct ((success_count =? 0) && (0 <? conflict_count));
        cbn [RaceTestTenant.mark_of]; split; split;
        try discriminate; try lia; intros [H _]; contradiction.
    + destruct ((success_count =? 0) && (0 <? conflict_count));
        cbn [RaceTestTenant.mark_of]; split; split;
        try discriminate; try lia; intros [H _]; contradiction.
Qed.

Lemma for_each_raises {A : Type} (f : A -> result unit) (e : exn) (xs : list A) :
  (forall x, In x xs -> f x = Ret tt \/ f x = Raise e) ->
  (exists x, In x xs /\ f x = Raise e) ->
  RaceTestTenant.for_each f xs = Raise e.
Proof.
  induction xs as [|x xs IH]; intros Hall [y [Hy Hf]]; [destruct Hy|].
  cbn [RaceTestTenant.for_each].
  destruct (Hall x (or_introl eq_refl)) as [Hx|Hx]; rewrite Hx; cbn [bind];
    [|reflexivity].
  apply IH.
  - intros z Hz. apply Hall. right. exact Hz.
  - destruct Hy as [<-|Hy]; [congruence|]. exists y. split; assumption.
Qed.

Lemma print_detail_outcome (json_loads : string -> option json)
    (json_error : string -> string) (request_id : Z)
    (w : http_reply) :
  RaceTestTenant.print_detail (tenant_outcome json_loads json_error request_id w) = Ret tt
  \/ RaceTestTenant.print_detail (tenant_outcome json_loads json_error request_id w)
     = Raise (AttributeError "object has no attribute 'get'").
Proof.
  unfold RaceTestTenant.print_detail.
  destruct w as [s t|s t e|m|m|m]; cbn [tenant_outcome]; try (left; reflexivity).
  destruct (read_json json_loads t) as [body|]; cbn; [|left; reflexivity].
  destruct (s =? 201); cbn; [left; reflexivity|].
  destruct body; cbn; (left; reflexivity) || (right; reflexivity).
Qed.

(** X21.  [main] of race_test_tenant.py can end before its assessment:
    when one of the first ten results is an answer other than 201 whose
    body [resp.json()] reads as a value that is not an object (a JSON
    string, number or list, or the [None] of a blank body), the loop that
    prints the details calls [get] on it and the AttributeError leaves
    [main]; no count from the system of record and no assessment is
    printed. *)
Theorem tenant_main_crashes_on_a_non_object_body
    (json_loads : string -> option json)
    (json_error : string -> string) (token : string)
    (probe : string -> http_reply) (world : Z -> TenantData -> http_reply)
    (probe' : string -> http_reply) (existing : json) (dirty : bool)
    (i s : Z) (t : string) (v : json) :
  token <> EmptyString ->
  RaceTestTenant.check_tenant_count json_loads json_error default_session "race-test-slug" probe
  = Ret existing ->
  gt existing 0 = Ret dirty ->
  In i (range 10) ->
  world i (RaceTestTenant.create_tenant_data (i + 1)) = Answer s t ->
  s <> 201 ->
  read_json json_loads t = Some v ->
  (forall fields, v <> JObj fields) ->
  RaceTestTenant.main json_loads json_error token probe world probe'
  = Raise (AttributeError "object has no attribute 'get'").
Proof.
  intros Htok Hc Hg Hi Hw Hs Hl Hv. unfold RaceTestTenant.main.
  destruct (String.eqb_spec token "") as [E|_]; [contradiction|].
  rewrite Hc. cbn [bind]. rewrite Hg. cbn [bind]. cbv zeta.
  rewrite (gather_all_return _
             (fun i => tenant_outcome json_loads json_error (i + 1)
                         (world i (RaceTestTenant.create_tenant_data (i + 1)))))
    by (intros j; apply tenant_create_tenant_outcome; discriminate).
  cbn [bind]. rewrite firstn_map.
  change (firstn 10 (range 20)) with (range 10).
  rewrite (for_each_raises RaceTestTenant.print_detail
             (AttributeError "object has no attribute 'get'")); [reflexivity| |].
  - intros o Ho. apply in_map_iff in Ho as [j [<- _]]. apply print_detail_outcome.
  - exists (tenant_outcome json_loads json_error (i + 1)
              (world i (RaceTestTenant.create_tenant_data (i + 1)))).
    split.
    { exact (in_map (fun j => tenant_outcome json_loads json_error (j + 1)
                       (world j (RaceTestTenant.create_tenant_data (j + 1))))
               (range 10) i Hi). }
    rewrite Hw. unfold RaceTestTenant.print_detail. cbn [tenant_outcome].
    rewrite Hl. cbn.
    destruct (Z.eqb_spec s 201) as [E|_]; [contradiction|]. cbn.
    destruct v; try reflexivity. exfalso. exact (Hv fields eq_refl).
Qed.

Lemma tenant_main_crashes_on_a_non_object_body_witness :
  RaceTestTenant.main Sample.loads Run.complaint "admin" Sample.nothing_found
    Sample.plain_conflicts Sample.nothing_found
  = Raise (AttributeError "object has no attribute 'get'").
Proof.
  apply (tenant_main_crashes_on_a_non_object_body Sample.loads Run.complaint "admin"
           Sample.nothing_found Sample.plain_conflicts Sample.nothing_found
           (JNum 0) false 0 409 "plain text"%string (JStr "conflict"));
    try reflexivity; try discriminate.
  left. reflexivity.
Defined.

(* ================================================================== *)
(** * precise_race_test.py: counters and verdict                       *)
(* ================================================================== *)

Lemma counter_value_bump (c d : Spec.category) (self : PreciseRaceTest.RaceTest) :
  counter_value c (Spec.bump d self)
  = counter_value c self + (if Spec.is_category c d then 1 else 0).
Proof. destruct c, d; cbn; lia. Qed.

(** Each counter after a burst: what it held, plus the replies of its
    category. *)
Lemma precise_dispatch_counter (c : Spec.category) (requests : list Z)
    (world : Z -> http_reply) (self : PreciseRaceTest.RaceTest) :
  counter_value c (PreciseRaceTest.dispatch requests world self)
  = counter_value c self
    + sum1 (fun i => Spec.is_category c (category_of (world i))) requests.
Proof.
  unfold PreciseRaceTest.dispatch. revert self.
  induction requests as [|i requests IH]; intros self; cbn [fold_left sum1]; [lia|].
  rewrite IH, precise_create_tenant_bump. cbn [fst]. rewrite counter_value_bump.
  destruct (Spec.is_category c (category_of (world i))); lia.
Qed.

Lemma category_success (w : http_reply) :
  Spec.is_category Spec.Success (category_of w) = answers_with 201 w.
Proof.
  destruct w as [s t|s t e|m|m|m]; try reflexivity;
    unfold category_of, Spec.precise_rules;
    cbn [Spec.first_match status_code text answers_with];
    (destruct (s =? 201); [reflexivity|]); (destruct (s =? 409); [reflexivity|]);
    destruct ((s =? 500) && contains "1062" t); reflexivity.
Qed.

(** X22.  The counters of precise_race_test.py do not depend on the order
    in which the pool's workers reach the lock: two bursts over the same
    requests, taken in any two orders, leave the same object, and
    [run_test] returns the same value. *)
Theorem precise_counters_ignore_the_order (requests requests' : list Z)
    (world : Z -> http_reply) (self : PreciseRaceTest.RaceTest) :
  Permutation requests requests' ->
  PreciseRaceTest.dispatch requests world self
  = PreciseRaceTest.dispatch requests' world self
  /\ (PreciseRaceTest.success_count (PreciseRaceTest.dispatch requests world self) =? 1)
     = (PreciseRaceTest.success_count (PreciseRaceTest.dispatch requests' world self) =? 1).
Proof.
  intros P. rewrite (precise_dispatch_Permutation _ _ world self P).
  split; reflexivity.
Qed.

Lemma precise_counters_ignore_the_order_witness :
  PreciseRaceTest.dispatch [0; 1; 2] Run.three_winners (PreciseRaceTest.init 0)
  = PreciseRaceTest.dispatch [2; 0; 1] Run.three_winners (PreciseRaceTest.init 0).
Proof.
  apply (precise_counters_ignore_the_order [0; 1; 2] [2; 0; 1] Run.three_winners
           (PreciseRaceTest.init 0)).
  apply Permutation_sym. apply (Permutation_cons_append [0; 1] 2).
Defined.

(** X23.  The line "Missing {n} responses" of precise_race_test.py counts
    the outcomes of the category "other": after a burst of N requests on a
    fresh object the analysis prints "All requests accounted for" exactly
    when [other_count] is 0, and otherwise reports [other_count] responses
    as missing, though each of them was received and counted. *)
Theorem precise_missing_is_other (n : nat) (world : Z -> http_reply) (now : Z) :
  let after := PreciseRaceTest.dispatch (range n) world (PreciseRaceTest.init now) in
  PreciseRaceTest.missing_responses (PreciseRaceTest.analyse (Z.of_nat n) after)
  = (if PreciseRaceTest.other_count after =? 0 then None
     else Some (PreciseRaceTest.other_count after))
  /\ PreciseRaceTest.other_count after
     = sum1 (fun i => Spec.is_category Spec.Other (category_of (world i))) (range n).
Proof.
  cbv zeta.
  pose proof (precise_dispatch_total (range n) world (PreciseRaceTest.init now)) as T.
  rewrite len_range in T. unfold Spec.total in T. cbn [PreciseRaceTest.init
    PreciseRaceTest.success_count PreciseRaceTest.conflict_count
    PreciseRaceTest.db_error_count PreciseRaceTest.other_count] in T.
  split.
  - unfold PreciseRaceTest.analyse. cbn [PreciseRaceTest.missing_responses].
    set (after := PreciseRaceTest.dispatch (range n) world (PreciseRaceTest.init now)) in *.
    destruct (Z.eqb_spec (PreciseRaceTest.success_count after
                          + PreciseRaceTest.conflict_count after
                          + PreciseRaceTest.db_error_count after) (Z.of_nat n)) as [E|E];
      destruct (Z.eqb_spec (PreciseRaceTest.other_count after) 0) as [O|O];
      try reflexivity; try lia.
    f_equal. lia.
  - exact (precise_dispatch_counter Spec.Other (range n) world (PreciseRaceTest.init now)).
Qed.

(** X24.  The verdict of precise_race_test.py looks at the successes
    only: when its clean-up and verification calls come back, the script
    prints "TEST PASSED" and exits with status 0 exactly when one of the
    twenty requests is answered 201, whatever the nineteen other outcomes
    are (conflicts, constraint violations of the database, timeouts). *)
Theorem precise_script_passes_iff_one_created (now : Z) (world : Z -> http_reply) :
  PreciseRaceTest.script now world (Ret tt) (Ret tt) (Ret tt)
  = Ret (if sum1 (fun i => answers_with 201 (world i)) (range 20) =? 1
         then (PreciseRaceTest.TEST_PASSED, 0)
         else (PreciseRaceTest.TEST_FAILED, 1)).
Proof.
  unfold PreciseRaceTest.script. rewrite precise_run_test_returns. cbn [snd bind].
  pose proof (precise_dispatch_counter Spec.Success (range 20) world
                (PreciseRaceTest.init now)) as C.
  cbn [counter_value] in C. rewrite C.
  rewrite (sum1_ext _ (fun i => answers_with 201 (world i)))
    by (intros i; apply category_success).
  cbn [PreciseRaceTest.init PreciseRaceTest.success_count]. rewrite Z.add_0_l.
  destruct (sum1 (fun i => answers_with 201 (world i)) (range 20) =? 1); reflexivity.
Qed.

(* ================================================================== *)
(** * full_race_test.py: the verdict of the whole test                 *)
(* ================================================================== *)

Lemma full_concurrent_test (token : string) (world : Z -> http_reply) :
  exists v,
    FullRaceTest.concurrent_test token world
    = Ret (FullRaceTest.CHECKED v,
           sum1 (fun i => answers_with 200 (world i)) (range 50) =? 1).
Proof.
  unfold FullRaceTest.concurrent_test.
  rewrite (gather_all_return _ (fun i => settled (world i)))
    by (intros i; apply full_reset_password_settled).
  cbn [bind]. unfold FullRaceTest.race_check, FullRaceTest.tally.
  cbn [FullRaceTest.success_count].
  rewrite (burst_count world 200 (range 50)) by lia.
  destruct (Z.ltb_spec 1 (sum1 (fun i => answers_with 200 (world i)) (range 50)))
    as [L|L].
  - destruct (Z.eqb_spec (sum1 (fun i => answers_with 200 (world i)) (range 50)) 1);
      [lia|]. eexists. reflexivity.
  - destruct (sum1 (fun i => answers_with 200 (world i)) (range 50) =? 1);
      eexists; reflexivity.
Qed.

(** X25.  Once [test_concurrent_reset] of full_race_test.py holds a token
    for its burst (the first one when the single validity request is
    answered 200, a fresh one otherwise; a token is a string that is not
    empty), it returns True exactly when one of the fifty concurrent
    requests is answered 200, and the script exits with status 0 exactly
    then; the burst cannot make the test raise. *)
Theorem full_test_passes_iff_one_success
    (first_token : result (option string)) (single : http_reply)
    (fresh_token : result (option string)) (world : Z -> http_reply)
    (token : string) :
  first_token = Ret (Some token) ->
  token <> EmptyString ->
  answers_with 200 single = true
  \/ (exists token', token' <> EmptyString /\ fresh_token = Ret (Some token')) ->
  (exists v,
     FullRaceTest.test_concurrent_reset first_token single fresh_token world
     = Ret (FullRaceTest.CHECKED v,
            sum1 (fun i => answers_with 200 (world i)) (range 50) =? 1))
  /\ FullRaceTest.script first_token single fresh_token world
     = Some (if sum1 (fun i => answers_with 200 (world i)) (range 50) =? 1
             then 0 else 1).
Proof.
  intros -> _ H.
  assert (E : exists v,
     FullRaceTest.test_concurrent_reset (Ret (Some token)) single fresh_token world
     = Ret (FullRaceTest.CHECKED v,
            sum1 (fun i => answers_with 200 (world i)) (range 50) =? 1)).
  { unfold FullRaceTest.test_concurrent_reset. cbn [bind].
    rewrite full_reset_password_settled.
    assert (S := settled_status 200 single ltac:(lia)).
    destruct (settled single) as [status body]. cbn [bind fst] in *.
    rewrite S.
    destruct (answers_with 200 single) eqn:A; cbn [negb].
    - apply full_concurrent_test.
    - destruct H as [H|[token' [_ ->]]]; [discriminate|]. cbn [bind].
      apply full_concurrent_test. }
  split; [exact E|].
  destruct E as [v E]. unfold FullRaceTest.script. rewrite E. reflexivity.
Qed.

Lemma full_test_passes_iff_one_success_witness :
  FullRaceTest.script (Ret (Some "ab12"%string)) (Answer 400 "used")
    (Ret (Some "cd34"%string)) Run.one_winner
  = Some (if sum1 (fun i => answers_with 200 (Run.one_winner i)) (range 50) =? 1
          then 0 else 1).
Proof.
  apply (full_test_passes_iff_one_success (Ret (Some "ab12"%string))
           (Answer 400 "used") (Ret (Some "cd34"%string)) Run.one_winner
           "ab12"%string); [reflexivity|discriminate|].
  right. exists "cd34"%string. split; [discriminate|reflexivity].
Defined.

(* ================================================================== *)
(** * grpc_race_test.py: one exchange, the counters, the verdict       *)
(* ================================================================== *)

Lemma length_substring_le (n : nat) (s : string) :
  (String.length (substring 0 n s) <= n)%nat.
Proof.
  revert s. induction n as [|n IH]; intros [|c s]; cbn; try lia.
  specialize (IH s). lia.
Qed.

Lemma length_prefix_le (n : nat) (s : string) :
  (String.length (prefix n s) <= n)%nat.
Proof. apply length_substring_le. Qed.

Section GrpcExchange.

Variable json_loads : string -> option json.

Lemma token_sample_short (v : json) (sample : string) :
  GrpcRaceTest.token_sample v = Ret sample -> (String.length sample <= 53)%nat.
Proof.
  destruct v as [| | | | |fields]; try discriminate. cbn.
  destruct (dict_lookup "accessToken" fields) as [[| | |s| |]|]; try discriminate.
  intros [= <-]. rewrite length_append. pose proof (length_prefix_le 50 s). cbn. lia.
Qed.

(** An exchange that exits with status 0. *)
Lemma exchange_token_exit_0 (token tenant_id : string) (request_id : Z)
    (out err : string) (dt : Q) :
  GrpcRaceTest.exchange_token json_loads token tenant_id request_id
    (Exited 0 out err dt)
  = match json_loads out with
    | None => Ret ("success"%string, dt, prefix 100 out)
    | Some v =>
        match GrpcRaceTest.has_key "accessToken" v with
        | Ret true =>
            match GrpcRaceTest.token_sample v with
            | Ret sample => Ret ("success"%string, dt, sample)
            | _ => Ret ("success"%string, dt, prefix 100 out)
            end
        | Ret false => Ret ("error"%string, dt, prefix 100 out)
        | _ => Ret ("success"%string, dt, prefix 100 out)
        end
    end.
Proof.
  unfold GrpcRaceTest.exchange_token.
  cbn [subprocess_run bind try_except returncode stdout Z.eqb]. unfold decode.
  destruct (json_loads out) as [v|]; cbn [bind try_except]; [|reflexivity].
  pose proof (has_key_settles "accessToken" v) as Hk.
  destruct (GrpcRaceTest.has_key "accessToken" v) as [[|]|e|];
    cbn [bind try_except]; try reflexivity; try congruence.
  pose proof (token_sample_settles v) as Ht.
  destruct (GrpcRaceTest.token_sample v); cbn [bind try_except];
    try reflexivity; congruence.
Qed.

(** X26.  [exchange_token] of grpc_race_test.py always returns a triple,
    whose kind follows the way the command ends: "timeout" with 10 seconds
    when it does not end within the deadline, "exception" with 0 seconds
    when it cannot be started, "error" with the first 100 characters of the
    standard error when it exits with a status other than 0, "success" or
    "error" when it exits with 0.  The details never exceed 100
    characters. *)
Theorem grpc_exchange_outcomes (token tenant_id : string) (request_id : Z)
    (w : proc_reply) :
  exists (result_type : string) (elapsed : Q) (details : string),
    GrpcRaceTest.exchange_token json_loads token tenant_id request_id w
    = Ret (result_type, elapsed, details)
    /\ (String.length details <= 100)%nat
    /\ match w with
       | NeverExits =>
           result_type = "timeout"%string /\ elapsed = 10%Q
           /\ details = "Timeout"%string
       | SpawnFailure m =>
           result_type = "exception"%string /\ elapsed = 0%Q
           /\ details = prefix 100 (str (OSError m))
       | Exited rc out err dt =>
           elapsed = dt
           /\ (if rc =? 0
               then result_type = "success"%string \/ result_type = "error"%string
               else result_type = "error"%string /\ details = prefix 100 err)
       end.
Proof.
  destruct w as [rc out err dt|m|].
  - destruct (Z.eqb_spec rc 0) as [->|N].
    + rewrite exchange_token_exit_0.
      destruct (json_loads out) as [v|].
      * destruct (GrpcRaceTest.has_key "accessToken" v) as [[|]|e|].
        -- destruct (GrpcRaceTest.token_sample v) as [sample|e|] eqn:S.
           ++ exists "success"%string, dt, sample. repeat split.
              ** apply token_sample_short in S. lia.
              ** left. reflexivity.
           ++ exists "success"%string, dt, (prefix 100 out). repeat split.
              ** apply length_prefix_le.
              ** left. reflexivity.
           ++ exists "success"%string, dt, (prefix 100 out). repeat split.
              ** apply length_prefix_le.
              ** left. reflexivity.
        -- exists "error"%string, dt, (prefix 100 out). repeat split.
           ++ apply length_prefix_le.
           ++ right. reflexivity.
        -- exists "success"%string, dt, (prefix 100 out). repeat split.
           ++ apply length_prefix_le.
           ++ left. reflexivity.
        -- exists "success"%string, dt, (prefix 100 out). repeat split.
           ++ apply length_prefix_le.
           ++ left. reflexivity.
      * exists "success"%string, dt, (prefix 100 out). repeat split.
        -- apply length_prefix_le.
        -- left. reflexivity.
    + exists "error"%string, dt, (prefix 100 err).
      unfold GrpcRaceTest.exchange_token.
      cbn [subprocess_run bind try_except returncode stderr].
      apply Z.eqb_neq in N. rewrite N. cbn [try_except].
      repeat split. apply length_prefix_le.
  - exists "exception"%string, 0%Q, (prefix 100 (str (OSError m))).
    repeat split. apply length_prefix_le.
  - exists "timeout"%string, 10%Q, "Timeout"%string.
    repeat split. cbn. lia.
Qed.

(** X27.  An exchange of grpc_race_test.py whose command exits with
    status 0 is an "error" only when its standard output decodes to a JSON
    value on which the test ["accessToken" in response] is False.  In every
    other case it counts as a success: in particular when the output is
    not JSON at all, and when the value is one the test cannot be applied
    to (a number, null). *)
Theorem grpc_exit_0_is_an_error_only_without_the_key
    (token tenant_id : string) (request_id : Z) (out err : string) (dt : Q) :
  (GrpcRaceTest.exchange_token json_loads token tenant_id request_id
     (Exited 0 out err dt)
   = Ret ("error"%string, dt, prefix 100 out)
   <-> exists v, json_loads out = Some v
                 /\ GrpcRaceTest.has_key "accessToken" v = Ret false)
  /\ (succeeds json_loads (Exited 0 out err dt) = false
      <-> exists v, json_loads out = Some v
                    /\ GrpcRaceTest.has_key "accessToken" v = Ret false)
  /\ (json_loads out = None ->
      GrpcRaceTest.exchange_token json_loads token tenant_id request_id
        (Exited 0 out err dt)
      = Ret ("success"%string, dt, prefix 100 out)).
Proof.
  unfold succeeds. rewrite !exchange_token_exit_0.
  destruct (json_loads out) as [v|].
  - destruct (GrpcRaceTest.has_key "accessToken" v) as [[|]|e|] eqn:K.
    + destruct (GrpcRaceTest.token_sample v) as [sample|e|];
        (repeat split; try discriminate;
         intros [v' [[= <-] K']]; congruence).
    + repeat split; try discriminate; try reflexivity; intros _; exists v;
        split; [reflexivity|exact K | reflexivity | exact K].
    + repeat split; try discriminate; intros [v' [[= <-] K']]; congruence.
    + repeat split; try discriminate; intros [v' [[= <-] K']]; congruence.
  - repeat split; try discriminate; try reflexivity;
      intros [v' [E _]]; discriminate E.
Qed.

Lemma grpc_record_exchange_total (request_id : Z) (x : GrpcRaceTest.exchange)
    (self : GrpcRaceTest.GrpcRaceTest) :
  let self' := GrpcRaceTest.record_exchange request_id x self in
  GrpcRaceTest.success_count self' + GrpcRaceTest.error_count self'
  + GrpcRaceTest.timeout_count self' + GrpcRaceTest.exception_count self'
  = GrpcRaceTest.success_count self + GrpcRaceTest.error_count self
    + GrpcRaceTest.timeout_count self + GrpcRaceTest.exception_count self + 1
  /\ map (fun r => fst (fst (fst r))) (GrpcRaceTest.responses self')
     = map (fun r => fst (fst (fst r))) (GrpcRaceTest.responses self)
       ++ [request_id].
Proof.
  destruct x as [[rt dt] details]. unfold GrpcRaceTest.record_exchange.
  destruct (String.eqb rt "success"); [|destruct (String.eqb rt "error");
    [|destruct (String.eqb rt "timeout")]];
    cbn; rewrite map_app; (split; [lia|reflexivity]).
Qed.

Lemma grpc_dispatch_total (requests : list Z) (world : Z -> proc_reply)
    (self : GrpcRaceTest.GrpcRaceTest) :
  let self' := GrpcRaceTest.dispatch json_loads requests world self in
  GrpcRaceTest.success_count self' + GrpcRaceTest.error_count self'
  + GrpcRaceTest.timeout_count self' + GrpcRaceTest.exception_count self'
  = GrpcRaceTest.success_count self + GrpcRaceTest.error_count self
    + GrpcRaceTest.timeout_count self + GrpcRaceTest.exception_count self
    + len requests
  /\ map (fun r => fst (fst (fst r))) (GrpcRaceTest.responses self')
     = map (fun r => fst (fst (fst r))) (GrpcRaceTest.responses self)
       ++ requests.
Proof.
  cbv zeta. unfold GrpcRaceTest.dispatch. revert self.
  induction requests as [|i requests IH]; intros self.
  - cbn [fold_left]. rewrite app_nil_r. unfold len. cbn. split; [lia|reflexivity].
  - cbn [fold_left]. destruct (IH (fst (GrpcRaceTest.run_exchange json_loads i
                                          (world i) self))) as [T R].
    rewrite T, R. clear T R IH.
    unfold GrpcRaceTest.run_exchange.
    destruct (exchange_token_returns json_loads (GrpcRaceTest.token self)
                (GrpcRaceTest.tenant_id self) i (world i)) as [x ->]. cbn [fst].
    destruct (grpc_record_exchange_total i x self) as [T R].
    cbv zeta in T, R. rewrite T, R. rewrite <- app_assoc. cbn [app].
    split; [|reflexivity].
    unfold len. cbn [List.length]. lia.
Qed.

(** X28.  No exchange of grpc_race_test.py is lost or counted twice: a
    burst of N exchanges raises the sum of the four counters by N and
    appends N entries to [self.responses], one per request number and in the
    order the workers take the lock, whatever becomes of the commands.  On a
    fresh object the line "Total" of [run_test] is [num_requests]. *)
Theorem grpc_counters_account_for_every_request
    (n : nat) (world : Z -> proc_reply) (tok : string)
    (requests : list Z) (self : GrpcRaceTest.GrpcRaceTest) :
  GrpcRaceTest.printed_total
    (snd (GrpcRaceTest.run_test json_loads n world (GrpcRaceTest.init tok)))
  = Z.of_nat n
  /\ (let self' := GrpcRaceTest.dispatch json_loads requests world self in
      GrpcRaceTest.success_count self' + GrpcRaceTest.error_count self'
      + GrpcRaceTest.timeout_count self' + GrpcRaceTest.exception_count self'
      = GrpcRaceTest.success_count self + GrpcRaceTest.error_count self
        + GrpcRaceTest.timeout_count self + GrpcRaceTest.exception_count self
        + len requests
      /\ map (fun r => fst (fst (fst r))) (GrpcRaceTest.responses self')
         = map (fun r => fst (fst (fst r))) (GrpcRaceTest.responses self)
           ++ requests).
Proof.
  split; [|apply grpc_dispatch_total].
  unfold GrpcRaceTest.run_test. cbn [snd GrpcRaceTest.printed_total].
  destruct (grpc_dispatch_total (range n) world (GrpcRaceTest.init tok)) as [T _].
  cbv zeta in T. rewrite T, len_range. cbn. lia.
Qed.

(** X29.  The exit status of grpc_race_test.py is decided by the single
    exchange made before the burst: when it is a success the script ends on
    "TEST COMPLETED" with status 0 whatever the fifty concurrent exchanges
    return, and otherwise on exit status 1 without running the burst. *)
Theorem grpc_script_follows_the_single_exchange (tok : string)
    (single : proc_reply) (world : Z -> proc_reply) :
  GrpcRaceTest.script json_loads tok single world
  = Ret (if succeeds json_loads single
         then (GrpcRaceTest.TEST_COMPLETED, 0)
         else (GrpcRaceTest.SINGLE_REQUEST_FAILED, 1)).
Proof.
  unfold GrpcRaceTest.script.
  pose proof (run_exchange_success json_loads 0 single (GrpcRaceTest.init tok)) as Hc.
  destruct (run_exchange_result json_loads 0 single (GrpcRaceTest.init tok))
    as [rt [Hr Hs]].
  destruct (GrpcRaceTest.run_exchange json_loads 0 single
              (GrpcRaceTest.init tok)) as [test r].
  cbn [fst snd] in Hc, Hr. subst r. cbn [bind].
  rewrite Hs. destruct (succeeds json_loads single); [|reflexivity].
  unfold GrpcRaceTest.run_test. cbn [GrpcRaceTest.judged].
  rewrite (grpc_dispatch_success json_loads), Hc.
  pose proof (sum1_nonneg (fun i => succeeds json_loads (world i)) (range 50)) as Hn.
  change (GrpcRaceTest.success_count (GrpcRaceTest.init tok)) with 0.
  destruct (Z.ltb_spec 0 (0 + 1 + sum1 (fun i => succeeds json_loads (world i))
                                    (range 50))) as [_|L]; [reflexivity|lia].
Qed.

End GrpcExchange.
